(** * My-Physio-App: session lifecycle and scheduling

    A shallow embedding of the session routes of the Express server
    ([server/routes/sessions.js], the patients router), of the client storage
    layer ([utils/mongoStorage.ts]), of the reminder helper
    ([utils/notifications.ts]) and of the screens that drive them
    ([components/SessionForm.tsx], [components/SessionCard.tsx],
    [app/(tabs)/upcoming.tsx]), followed by the properties of the
    specification that were checked against them. *)

From Stdlib Require Import ZArith List Bool Ascii String Lia.
From Stdlib Require Import Sorting.Sorted Sorting.Permutation.
From Stdlib Require Import DecimalString OrderedTypeEx.
From Stdlib Require DecimalZ DecimalPos.
Import ListNotations.

Local Open Scope string_scope.
Local Open Scope Z_scope.

(** ** JavaScript values used by the code *)

Module JS.

(** [if (s)] on a string: the empty string is the only falsy string. *)
Definition truthy (s : string) : bool := negb (s =? "")%string.

(** [if (x)] on a property that may be missing from the request body. *)
Definition truthy_opt (x : option string) : bool :=
  match x with
  | Some s => truthy s
  | None => false
  end.

(** The string read from a property after it passed the truthiness test
    (a missing property reads as the empty string here and is never used). *)
Definition value (x : option string) : string :=
  match x with
  | Some s => s
  | None => ""
  end.

(** [x || ''] and [x || false]. *)
Definition or_empty (x : option string) : string := value x.
Definition or_false (x : option bool) : bool :=
  match x with
  | Some b => b
  | None => false
  end.

(** [String(n)] for an integer. *)
Definition string_of_Z (n : Z) : string :=
  NilZero.string_of_int (Z.to_int n).

Fixpoint repeat_char (c : ascii) (n : nat) : string :=
  match n with
  | O => EmptyString
  | S k => String c (repeat_char c k)
  end.

(** [s.padStart(width, '0')]. *)
Definition padStart0 (width : nat) (s : string) : string :=
  (repeat_char "0"%char (width - String.length s) ++ s)%string.

(** A JSON number, [null], or a missing property ([undefined]).
    [JSON.stringify] drops a property whose value is [undefined], so a
    property explicitly set to [undefined] on the client and a property never
    set both reach the server as [Undefined].  Numbers are integers here:
    the code stores an amount, tests it against zero and prints it, and does
    no arithmetic on it. *)
Inductive optnum : Type :=
  | Undefined
  | Null
  | Num (n : Z).

(** [x || null] on such a value: [0] is falsy. *)
Definition or_null (x : optnum) : option Z :=
  match x with
  | Num n => if n =? 0 then None else Some n
  | _ => None
  end.

(** The value stored by [doc.amount = x] when [x !== undefined]. *)
Definition stored_num (x : optnum) : option Z :=
  match x with
  | Num n => Some n
  | _ => None
  end.

(** *** [s.trim()]

    A string is the sequence of the bytes of its UTF-8 text, as a string
    literal of this file is.  [trim] removes the white space and the line
    terminators of ECMAScript from both ends: TAB, LF, VT, FF, CR and SP,
    which are one byte each, and U+00A0, U+1680, U+2000 to U+200A, U+2028,
    U+2029, U+202F, U+205F, U+3000 and U+FEFF, which are two or three. *)
Definition is_space (c : ascii) : bool :=
  match c with
  | "009"%char | "010"%char | "011"%char | "012"%char | "013"%char | " "%char => true
  | _ => false
  end.

(** The third byte of U+2000 to U+200A, U+2028, U+2029 and U+202F, after the
    bytes 226 and 128. *)
Definition is_space_2000 (c : ascii) : bool :=
  let n := nat_of_ascii c in
  ((128 <=? n) && (n <=? 138) || (n =? 168) || (n =? 169) || (n =? 175))%nat.

(** The string after its first code point, when that one is white space. *)
Definition skip_space (s : string) : option string :=
  match s with
  | EmptyString => None
  | String c r =>
      if is_space c then Some r
      else
        match c, r with
        | "194"%char, String "160"%char r' => Some r'
        | "225"%char, String "154"%char (String "128"%char r') => Some r'
        | "226"%char, String "128"%char (String c3 r') =>
            if is_space_2000 c3 then Some r' else None
        | "226"%char, String "129"%char (String "159"%char r') => Some r'
        | "227"%char, String "128"%char (String "128"%char r') => Some r'
        | "239"%char, String "187"%char (String "191"%char r') => Some r'
        | _, _ => None
        end
  end.

(** At most [n] leading white-space code points removed. *)
Fixpoint skip_spaces (n : nat) (s : string) : string :=
  match n with
  | O => s
  | S k =>
      match skip_space s with
      | Some r => skip_spaces k r
      | None => s
      end
  end.

Definition trim_left (s : string) : string := skip_spaces (String.length s) s.

(** The string is cut where what is left of it is white space only. *)
Fixpoint trim_right (s : string) : string :=
  match s with
  | EmptyString => EmptyString
  | String c r =>
      if (trim_left s =? "")%string then EmptyString else String c (trim_right r)
  end.

Definition trim (s : string) : string := trim_right (trim_left s).

End JS.

(** ** The ECMAScript [Date] object

    A time value is a number of milliseconds since the epoch; an invalid
    date has no time value.  What ECMA-262 leaves to the implementation is a
    parameter, the host: its local time zone adjustment at every instant
    (so that daylight saving time is covered) and its reading of the date
    strings that are outside the standard format. *)

Module JSDate.

Definition msPerSecond : Z := 1000.
Definition msPerMinute : Z := 60000.
Definition msPerHour : Z := 3600000.
Definition msPerDay : Z := 86400000.

Definition t := option Z.

Definition Day (tv : Z) : Z := tv / msPerDay.
Definition TimeWithinDay (tv : Z) : Z := tv mod msPerDay.

Definition HourFromTime (tv : Z) : Z := (tv / msPerHour) mod 24.
Definition MinFromTime (tv : Z) : Z := (tv / msPerMinute) mod 60.
Definition SecFromTime (tv : Z) : Z := (tv / msPerSecond) mod 60.
Definition msFromTime (tv : Z) : Z := tv mod msPerSecond.

(** Day number of the first day of a civil date in the proleptic Gregorian
    calendar ([month] is 1..12), and back. *)
Definition days_from_civil (y m d : Z) : Z :=
  let y' := if m <=? 2 then y - 1 else y in
  let era := y' / 400 in
  let yoe := y' - era * 400 in
  let mp := if m >? 2 then m - 3 else m + 9 in
  let doy := (153 * mp + 2) / 5 + d - 1 in
  let doe := yoe * 365 + yoe / 4 - yoe / 100 + doy in
  era * 146097 + doe - 719468.

Definition civil_from_days (z : Z) : Z * Z * Z :=
  let z' := z + 719468 in
  let era := z' / 146097 in
  let doe := z' - era * 146097 in
  let yoe := (doe - doe / 1460 + doe / 36524 - doe / 146096) / 365 in
  let doy := doe - (365 * yoe + yoe / 4 - yoe / 100) in
  let mp := (5 * doy + 2) / 153 in
  let d := doy - (153 * mp + 2) / 5 + 1 in
  let m := if mp <? 10 then mp + 3 else mp - 9 in
  let y := yoe + era * 400 in
  (if m <=? 2 then y + 1 else y, m, d).

Definition YearFromTime (tv : Z) : Z := fst (fst (civil_from_days (Day tv))).
(** [MonthFromTime] is zero-based, as [getMonth] is. *)
Definition MonthFromTime (tv : Z) : Z := snd (fst (civil_from_days (Day tv))) - 1.
Definition DateFromTime (tv : Z) : Z := snd (civil_from_days (Day tv)).

Definition MakeTime (h m s ms : Z) : Z :=
  h * msPerHour + m * msPerMinute + s * msPerSecond + ms.
Definition MakeDate (day time : Z) : Z := day * msPerDay + time.

(** [TimeClip]: a time value more than 100,000,000 days from the epoch is
    not a date. *)
Definition TimeClip (tv : Z) : option Z :=
  if Z.abs tv <=? 8640000000000000 then Some tv else None.

(** The host.  [LocalTZA host t true] is the offset of local time from UTC,
    in milliseconds, at the instant [t]; [LocalTZA host t false] is the
    offset the host uses to read the local time [t] back as an instant.
    [parse_fallback] is what the host makes of a string that is not an
    instance of the date-time string format. *)
Record Host : Type := mkHost {
  LocalTZA : Z -> bool -> Z;
  parse_fallback : string -> option Z
}.

(** A host whose offset from UTC never changes and which reads no string
    outside the standard format. *)
Definition fixed (tza : Z) : Host := mkHost (fun _ _ => tza) (fun _ => None).

Section OnHost.
Variable host : Host.

Definition LocalTime (tv : Z) : Z := tv + LocalTZA host tv true.
Definition UTC (tv : Z) : Z := tv - LocalTZA host tv false.

Definition getFullYear (d : t) : option Z := option_map (fun tv => YearFromTime (LocalTime tv)) d.
Definition getMonth (d : t) : option Z := option_map (fun tv => MonthFromTime (LocalTime tv)) d.
Definition getDate (d : t) : option Z := option_map (fun tv => DateFromTime (LocalTime tv)) d.
Definition getHours (d : t) : option Z := option_map (fun tv => HourFromTime (LocalTime tv)) d.
Definition getTime (d : t) : option Z := d.

(** [d.setHours(h)]: the local time with its hour replaced, back to UTC. *)
Definition setHours (d : t) (h : option Z) : t :=
  match d, h with
  | Some tv, Some hour =>
      let lt := LocalTime tv in
      TimeClip (UTC (MakeDate (Day lt)
                       (MakeTime hour (MinFromTime lt) (SecFromTime lt) (msFromTime lt))))
  | _, _ => None
  end.

End OnHost.

(** *** Parsing the date-time string format

    [YYYY], [YYYY-MM] or [YYYY-MM-DD], the year also in the expanded form of
    a sign and six digits, alone or followed by [THH:mm], [THH:mm:ss] or
    [THH:mm:ss.sss] and then by nothing, by [Z] or by an offset [+HH:mm] or
    [-HH:mm]. *)

Definition digit (c : ascii) : option Z :=
  let n := Z.of_nat (nat_of_ascii c) in
  if (48 <=? n) && (n <=? 57) then Some (n - 48) else None.

Definition digits2 (a b : ascii) : option Z :=
  match digit a, digit b with
  | Some x, Some y => Some (10 * x + y)
  | _, _ => None
  end.

Definition digits4 (a b c d : ascii) : option Z :=
  match digits2 a b, digits2 c d with
  | Some x, Some y => Some (100 * x + y)
  | _, _ => None
  end.

(** Two digits, or three, at the head of a string. *)
Definition two (s : string) : option (Z * string) :=
  match s with
  | String a (String b r) => option_map (fun v => (v, r)) (digits2 a b)
  | _ => None
  end.

Definition three (s : string) : option (Z * string) :=
  match s with
  | String a (String b (String c r)) =>
      match digit a, digits2 b c with
      | Some x, Some y => Some (100 * x + y, r)
      | _, _ => None
      end
  | _ => None
  end.

(** The expanded year; [-000000] is not a year. *)
Definition expanded_year (s : string) : option (Z * string) :=
  match s with
  | String sign (String a (String b r)) =>
      match digits2 a b, r with
      | Some hi, String c (String d (String e (String f r'))) =>
          match digits4 c d e f with
          | Some lo =>
              let y := 10000 * hi + lo in
              if (sign =? "+")%char then Some (y, r')
              else if (sign =? "-")%char && negb (y =? 0) then Some (- y, r')
              else None
          | None => None
          end
      | _, _ => None
      end
  | _ => None
  end.

Definition year (s : string) : option (Z * string) :=
  match s with
  | String a (String b (String c (String d r))) =>
      match digits4 a b c d with
      | Some y => Some (y, r)
      | None => expanded_year s
      end
  | _ => None
  end.

(** The year, the month and the day of the date part, and what follows it;
    a month or a day that is not written is the first. *)
Definition date_part (s : string) : option (Z * Z * Z * string) :=
  match year s with
  | Some (y, String "-" r) =>
      match two r with
      | Some (m, String "-" r') =>
          match two r' with
          | Some (d, rest) => Some (y, m, d, rest)
          | None => None
          end
      | Some (m, rest) => Some (y, m, 1, rest)
      | None => None
      end
  | Some (y, rest) => Some (y, 1, 1, rest)
  | None => None
  end.

(** A month from 01 to 12 and a day that exists in it: the civil date reads
    back from its day number. *)
Definition legal_date (y m d : Z) : bool :=
  (1 <=? m) && (m <=? 12) && (1 <=? d) && (d <=? 31)
  && (let '(y', m', d') := civil_from_days (days_from_civil y m d) in
      (y' =? y) && (m' =? m) && (d' =? d)).

(** Hours from 00 to 23, minutes and seconds from 00 to 59; [24:00:00] is
    the end of the day. *)
Definition legal_time (h m s ms : Z) : bool :=
  ((h <=? 23) && (m <=? 59) && (s <=? 59))
  || ((h =? 24) && (m =? 0) && (s =? 0) && (ms =? 0)).

(** The time within the day of the time part, and what follows it. *)
Definition time_part (s : string) : option (Z * string) :=
  match two s with
  | Some (h, String ":" r) =>
      match two r with
      | Some (m, String ":" r') =>
          match two r' with
          | Some (sec, String "." r'') =>
              match three r'' with
              | Some (ms, rest) =>
                  if legal_time h m sec ms then Some (MakeTime h m sec ms, rest) else None
              | None => None
              end
          | Some (sec, rest) =>
              if legal_time h m sec 0 then Some (MakeTime h m sec 0, rest) else None
          | None => None
          end
      | Some (m, rest) =>
          if legal_time h m 0 0 then Some (MakeTime h m 0 0, rest) else None
      | None => None
      end
  | _ => None
  end.

(** The end of a date-time form: no offset (a local time), [Z], or an
    offset east ([+]) or west ([-]) of UTC. *)
Inductive Zone : Type :=
  | LocalZone
  | Offset (ms : Z).

Definition offset_part (s : string) : option Zone :=
  match s with
  | EmptyString => Some LocalZone
  | String "Z" EmptyString => Some (Offset 0)
  | String sign r =>
      match two r with
      | Some (h, String ":" r') =>
          match two r' with
          | Some (m, EmptyString) =>
              if (h <=? 23) && (m <=? 59)
              then
                if (sign =? "+")%char then Some (Offset (MakeTime h m 0 0))
                else if (sign =? "-")%char then Some (Offset (- MakeTime h m 0 0))
                else None
              else None
          | _ => None
          end
      | _ => None
      end
  end.

(** The time value of an instance of the format: a date-only form is a UTC
    time, a date-time form without offset is a local time. *)
Definition date_time_format (host : Host) (s : string) : option Z :=
  match date_part s with
  | Some (y, m, d, rest) =>
      if legal_date y m d
      then
        let day := days_from_civil y m d in
        match rest with
        | EmptyString => Some (MakeDate day 0)
        | String "T" r =>
            match time_part r with
            | Some (time, z) =>
                match offset_part z with
                | Some LocalZone => Some (UTC host (MakeDate day time))
                | Some (Offset o) => Some (MakeDate day time - o)
                | None => None
                end
            | None => None
            end
        | _ => None
        end
      else None
  | None => None
  end.

(** [Date.parse(s)]: an instance of the format has its time value; any
    other string is left to the host. *)
Definition Date_parse (host : Host) (s : string) : option Z :=
  match date_time_format host s with
  | Some tv => Some tv
  | None => parse_fallback host s
  end.

(** [new Date(s)] *)
Definition parse (host : Host) (s : string) : t :=
  match Date_parse host s with
  | Some tv => TimeClip tv
  | None => None
  end.

(** [d.toISOString().split('T')[0]] for a valid date: the UTC calendar date.
    Years outside 0..9999 use the expanded six-digit form. *)
Definition iso_year (y : Z) : string :=
  if (0 <=? y) && (y <=? 9999) then JS.padStart0 4 (JS.string_of_Z y)
  else
    let sign := if y <? 0 then "-" else "+" in
    (sign ++ JS.padStart0 6 (JS.string_of_Z (Z.abs y)))%string.

Definition toISOString_date (tv : Z) : string :=
  (iso_year (YearFromTime tv) ++ "-"
   ++ JS.padStart0 2 (JS.string_of_Z (MonthFromTime tv + 1)) ++ "-"
   ++ JS.padStart0 2 (JS.string_of_Z (DateFromTime tv)))%string.

End JSDate.

(** A number of milliseconds stands for the host at that constant offset. *)
Coercion JSDate.fixed : Z >-> JSDate.Host.

(** ** Documents and collections *)

Module Patient.

(** A document of the patients collection ([server/models/Patient.js]);
    the creation and update timestamps are not read by any route below. *)
Record t : Type := mk {
  _id : string;
  userId : string;
  name : string;
  contactNumber : string
}.

End Patient.

Module Session.

(** Modelled from the spec: the schema [server/models/Session.js] of the
    sessions collection is missing from the sources.  A document carries the
    fields of the specification's data model, which are the fields the
    routes read and write: [date] and [time] are strings kept as the client
    sent them, [completed] is a Boolean and [amount] a number or [null]. *)
Record t : Type := mk {
  _id : string;
  userId : string;
  patientId : string;
  patientName : string;
  date : string;
  time : string;
  notes : string;
  completed : bool;
  amount : option Z
}.

(** Assignments to one field of a document. *)
Definition set_patientId (v : string) (s : t) : t :=
  mk (_id s) (userId s) v (patientName s) (date s) (time s) (notes s) (completed s) (amount s).
Definition set_patientName (v : string) (s : t) : t :=
  mk (_id s) (userId s) (patientId s) v (date s) (time s) (notes s) (completed s) (amount s).
Definition set_date (v : string) (s : t) : t :=
  mk (_id s) (userId s) (patientId s) (patientName s) v (time s) (notes s) (completed s) (amount s).
Definition set_time (v : string) (s : t) : t :=
  mk (_id s) (userId s) (patientId s) (patientName s) (date s) v (notes s) (completed s) (amount s).
Definition set_notes (v : string) (s : t) : t :=
  mk (_id s) (userId s) (patientId s) (patientName s) (date s) (time s) v (completed s) (amount s).
Definition set_completed (v : bool) (s : t) : t :=
  mk (_id s) (userId s) (patientId s) (patientName s) (date s) (time s) (notes s) v (amount s).
Definition set_amount (v : option Z) (s : t) : t :=
  mk (_id s) (userId s) (patientId s) (patientName s) (date s) (time s) (notes s) (completed s) v.

End Session.

(** The database: the two collections and the source of fresh object ids.
    An object id is modelled by the numeral of a counter: what matters of it
    is that no two documents are given the same one. *)
Record Store : Type := mkStore {
  patients : list Patient.t;
  sessions : list Session.t;
  nextId : nat
}.

Definition emptyStore : Store := mkStore [] [] 0.

Definition freshId (st : Store) : string := JS.string_of_Z (Z.of_nat (nextId st)).

(** *** Queries of the storage engine *)

Module Mongo.

Section Sort.
Context {A : Type}.
Variable le : A -> A -> bool.

Fixpoint insert (x : A) (l : list A) : list A :=
  match l with
  | [] => [x]
  | y :: r => if le x y then x :: y :: r else y :: insert x r
  end.

(** [.sort(...)]: the documents in the order [le]; documents that compare
    equal keep their relative order. *)
Fixpoint sort (l : list A) : list A :=
  match l with
  | [] => []
  | x :: r => insert x (sort r)
  end.

End Sort.

(** The key [(date, time)], compared as the engine compares strings. *)
Definition cmp_date_time (a b : Session.t) : comparison :=
  match String.compare (Session.date a) (Session.date b) with
  | Eq => String.compare (Session.time a) (Session.time b)
  | c => c
  end.

(** [{ date: 1, time: 1 }] *)
Definition asc (a b : Session.t) : bool :=
  match cmp_date_time a b with
  | Gt => false
  | _ => true
  end.

(** [{ date: -1, time: -1 }] *)
Definition desc (a b : Session.t) : bool := asc b a.

(** [Patient.findOne({ _id, userId })], for an [_id] that is an object id. *)
Definition findPatient (st : Store) (id uid : string) : option Patient.t :=
  find (fun p => (Patient._id p =? id)%string && (Patient.userId p =? uid)%string)
       (patients st).

(** [Session.findOne({ _id, userId })], for an [_id] that is an object id. *)
Definition findSession (st : Store) (id uid : string) : option Session.t :=
  find (fun s => (Session._id s =? id)%string && (Session.userId s =? uid)%string)
       (sessions st).

(** [doc.save()] on a document that was read from the collection. *)
Definition saveSession (doc : Session.t) (l : list Session.t) : list Session.t :=
  map (fun s => if (Session._id s =? Session._id doc)%string then doc else s) l.

End Mongo.

(** ** HTTP responses *)

Inductive response (A : Type) : Type :=
  | Ok (status : Z) (body : A)
  | Err (status : Z) (error : string).
Arguments Ok {A} status body.
Arguments Err {A} status error.

(** ** [server/routes/sessions.js]

    Every route runs after [authenticateToken]; [uid] is the [req.userId] it
    leaves.  The ids of a request are object ids, as the client sends them:
    the ids of documents that exist or have existed.  A string that is no
    object id at all makes [findOne] throw, which the [catch] blocks answer
    with 500; that path, like any other failure of the storage engine, is
    outside this model, and no property below rests on the answer given to
    such a string. *)

Module SessionsRoute.

(** The body of a create or update request: the seven properties the routes
    read.  A property is [None] (or [JS.Undefined]) when it is missing. *)
Record Body : Type := mkBody {
  b_patientId : option string;
  b_patientName : option string;
  b_date : option string;
  b_time : option string;
  b_notes : option string;
  b_completed : option bool;
  b_amount : JS.optnum
}.

(** The query string of [GET /]. *)
Record Query : Type := mkQuery {
  q_patientId : option string;
  q_startDate : option string;
  q_endDate : option string;
  q_completed : option string
}.

Definition noQuery : Query := mkQuery None None None None.

Definition matches (uid : string) (q : Query) (s : Session.t) : bool :=
  (Session.userId s =? uid)%string
  && (if JS.truthy_opt (q_patientId q)
      then (Session.patientId s =? JS.value (q_patientId q))%string else true)
  && (match q_completed q with
      | Some c => Bool.eqb (Session.completed s) (c =? "true")%string
      | None => true
      end)
  && (if JS.truthy_opt (q_startDate q)
      then String.leb (JS.value (q_startDate q)) (Session.date s) else true)
  && (if JS.truthy_opt (q_endDate q)
      then String.leb (Session.date s) (JS.value (q_endDate q)) else true).

(** [router.get('/')] *)
Definition get_all (uid : string) (q : Query) (st : Store) : response (list Session.t) :=
  Ok 200 (Mongo.sort Mongo.desc (filter (matches uid q) (sessions st))).

(** [router.get('/patient/:patientId')] *)
Definition get_patient (uid patientId : string) (st : Store) : response (list Session.t) :=
  match Mongo.findPatient st patientId uid with
  | None => Err 404 "Patient not found"
  | Some _ =>
      Ok 200 (Mongo.sort Mongo.desc
                (filter (fun s => (Session.userId s =? uid)%string
                                  && (Session.patientId s =? patientId)%string)
                        (sessions st)))
  end.

(** [router.get('/past')] *)
Definition get_past (uid : string) (st : Store) : response (list Session.t) :=
  Ok 200 (Mongo.sort Mongo.desc
            (filter (fun s => (Session.userId s =? uid)%string
                              && Bool.eqb (Session.completed s) true)
                    (sessions st))).

(** [router.get('/upcoming')] *)
Definition get_upcoming (uid : string) (st : Store) : response (list Session.t) :=
  Ok 200 (Mongo.sort Mongo.asc
            (filter (fun s => (Session.userId s =? uid)%string
                              && Bool.eqb (Session.completed s) false)
                    (sessions st))).

(** [router.get('/:id')] *)
Definition get_one (uid id : string) (st : Store) : response Session.t :=
  match Mongo.findSession st id uid with
  | None => Err 404 "Session not found"
  | Some s => Ok 200 s
  end.

(** [router.post('/')] *)
Definition post (uid : string) (b : Body) (st : Store) : response Session.t * Store :=
  if negb (JS.truthy_opt (b_patientId b)) || negb (JS.truthy_opt (b_patientName b))
     || negb (JS.truthy_opt (b_date b)) || negb (JS.truthy_opt (b_time b))
  then (Err 400 "Patient ID, patient name, date, and time are required", st)
  else
    match Mongo.findPatient st (JS.value (b_patientId b)) uid with
    | None => (Err 404 "Patient not found", st)
    | Some _ =>
        let session :=
          Session.mk (freshId st) uid
            (JS.value (b_patientId b)) (JS.value (b_patientName b))
            (JS.value (b_date b)) (JS.value (b_time b))
            (JS.or_empty (b_notes b))
            (JS.or_false (b_completed b))
            (JS.or_null (b_amount b)) in
        (Ok 201 session,
         mkStore (patients st) (sessions st ++ [session]) (S (nextId st)))
    end.

(** The assignments under [// Update fields]. *)
Definition update_fields (b : Body) (s : Session.t) : Session.t :=
  let s := if JS.truthy_opt (b_patientId b)
           then Session.set_patientId (JS.value (b_patientId b)) s else s in
  let s := if JS.truthy_opt (b_patientName b)
           then Session.set_patientName (JS.value (b_patientName b)) s else s in
  let s := if JS.truthy_opt (b_date b)
           then Session.set_date (JS.value (b_date b)) s else s in
  let s := if JS.truthy_opt (b_time b)
           then Session.set_time (JS.value (b_time b)) s else s in
  let s := match b_notes b with
           | Some n => Session.set_notes n s
           | None => s
           end in
  let s := match b_completed b with
           | Some c => Session.set_completed c s
           | None => s
           end in
  match b_amount b with
  | JS.Undefined => s
  | a => Session.set_amount (JS.stored_num a) s
  end.

(** [router.put('/:id')] *)
Definition put (uid id : string) (b : Body) (st : Store) : response Session.t * Store :=
  match Mongo.findSession st id uid with
  | None => (Err 404 "Session not found", st)
  | Some session =>
      let session' := update_fields b session in
      (Ok 200 session',
       mkStore (patients st) (Mongo.saveSession session' (sessions st)) (nextId st))
  end.

(** [router.delete('/:id')] *)
Definition delete (uid id : string) (st : Store) : response unit * Store :=
  match Mongo.findSession st id uid with
  | None => (Err 404 "Session not found", st)
  | Some _ =>
      (Ok 200 tt,
       mkStore (patients st)
         (filter (fun s => negb (Session._id s =? id)%string) (sessions st))
         (nextId st))
  end.

End SessionsRoute.

(** ** The patients router *)

Module PatientsRoute.

(** The schema's [required] validator, run by [patient.save()] on the
    trimmed strings; a validation failure is caught as a 500. *)
Definition valid (p : Patient.t) : bool :=
  JS.truthy (Patient.name p) && JS.truthy (Patient.contactNumber p).

(** [router.post('/')] *)
Definition post (uid : string) (name contactNumber : option string) (st : Store)
  : response Patient.t * Store :=
  if negb (JS.truthy_opt name) || negb (JS.truthy_opt contactNumber)
  then (Err 400 "Name and contact number are required", st)
  else
    let patient := Patient.mk (freshId st) uid
                     (JS.trim (JS.value name)) (JS.trim (JS.value contactNumber)) in
    if valid patient
    then (Ok 201 patient, mkStore (patients st ++ [patient]) (sessions st) (S (nextId st)))
    else (Err 500 "Failed to create patient", st).

(** [router.put('/:id')] *)
Definition put (uid id : string) (name contactNumber : option string) (st : Store)
  : response Patient.t * Store :=
  match Mongo.findPatient st id uid with
  | None => (Err 404 "Patient not found", st)
  | Some patient =>
      let patient := if JS.truthy_opt name
                     then Patient.mk (Patient._id patient) (Patient.userId patient)
                            (JS.trim (JS.value name)) (Patient.contactNumber patient)
                     else patient in
      let patient := if JS.truthy_opt contactNumber
                     then Patient.mk (Patient._id patient) (Patient.userId patient)
                            (Patient.name patient) (JS.trim (JS.value contactNumber))
                     else patient in
      if valid patient
      then (Ok 200 patient,
            mkStore (map (fun p => if (Patient._id p =? Patient._id patient)%string
                                   then patient else p) (patients st))
                    (sessions st) (nextId st))
      else (Err 500 "Failed to update patient", st)
  end.

(** [router.get('/:id')] *)
Definition get_one (uid id : string) (st : Store) : response Patient.t :=
  match Mongo.findPatient st id uid with
  | None => Err 404 "Patient not found"
  | Some patient => Ok 200 patient
  end.

(** [router.delete('/:id')]: [Patient.findOneAndDelete({ _id, userId })]. *)
Definition delete (uid id : string) (st : Store) : response unit * Store :=
  match Mongo.findPatient st id uid with
  | None => (Err 404 "Patient not found", st)
  | Some _ =>
      (Ok 200 tt,
       mkStore (filter (fun p => negb ((Patient._id p =? id)%string
                                       && (Patient.userId p =? uid)%string))
                       (patients st))
               (sessions st) (nextId st))
  end.

End PatientsRoute.

(** ** [utils/mongoStorage.ts]: the client's view of the server *)

Module Client.

(** Modelled from the spec: the [Session] interface of [types] is missing
    from the sources.  This is a session as the client holds it after
    [transformSession] and JSON decoding, with the fields of the
    specification's data model; [amount] is a number, [null] (what the
    server stores for no amount) or [undefined]. *)
Record Session : Type := mkSession {
  id : string;
  patientId : string;
  patientName : string;
  date : string;
  time : string;
  notes : string;
  completed : bool;
  amount : JS.optnum
}.

(** [transformSession] followed by [res.json] and [response.json()]. *)
Definition of_doc (s : Session.t) : Session :=
  mkSession (Session._id s) (Session.patientId s) (Session.patientName s)
    (Session.date s) (Session.time s) (Session.notes s) (Session.completed s)
    (match Session.amount s with
     | Some n => JS.Num n
     | None => JS.Null
     end).

(** [JSON.stringify(session)] as the routes read it back. *)
Definition to_body (s : Session) : SessionsRoute.Body :=
  SessionsRoute.mkBody (Some (patientId s)) (Some (patientName s)) (Some (date s))
    (Some (time s)) (Some (notes s)) (Some (completed s)) (amount s).

(** [{ ...session, completed, amount }] *)
Definition with_completed_amount (c : bool) (a : JS.optnum) (s : Session) : Session :=
  mkSession (id s) (patientId s) (patientName s) (date s) (time s) (notes s) c a.

(** A call either resolves with a value or throws. *)
Inductive result (A : Type) : Type :=
  | Resolved (v : A)
  | Thrown (error : string).
Arguments Resolved {A} v.
Arguments Thrown {A} error.

(** [apiCall]: a response that is not [ok] is thrown as an error. *)
Definition apiCall {A : Type} (r : response A) : result A :=
  match r with
  | Ok _ v => Resolved v
  | Err _ e => Thrown e
  end.

(** The list functions catch every error and return [[]]. *)
Definition or_empty (r : result (list Session.t)) : list Session :=
  match r with
  | Resolved l => map of_doc l
  | Thrown _ => []
  end.

Definition saveSession (uid : string) (b : SessionsRoute.Body) (st : Store)
  : result Session * Store :=
  let (r, st') := SessionsRoute.post uid b st in
  (match apiCall r with
   | Resolved s => Resolved (of_doc s)
   | Thrown e => Thrown e
   end, st').

Definition getSessions (uid : string) (st : Store) : list Session :=
  or_empty (apiCall (SessionsRoute.get_all uid SessionsRoute.noQuery st)).

(** [new Date().toISOString().split('T')[0]] at the instant [now]. *)
Definition today (now : Z) : string := JSDate.toISOString_date now.

Definition getTodaySessions (now : Z) (uid : string) (st : Store) : list Session :=
  match apiCall (SessionsRoute.get_all uid SessionsRoute.noQuery st) with
  | Resolved l => filter (fun s => (date s =? today now)%string) (map of_doc l)
  | Thrown _ => []
  end.

Definition getPastSessions (uid : string) (st : Store) : list Session :=
  or_empty (apiCall (SessionsRoute.get_past uid st)).

Definition getUpcomingSessions (uid : string) (st : Store) : list Session :=
  or_empty (apiCall (SessionsRoute.get_upcoming uid st)).

Definition getPatientSessions (uid pid : string) (st : Store) : list Session :=
  or_empty (apiCall (SessionsRoute.get_patient uid pid st)).

Definition updateSession (uid : string) (s : Session) (st : Store) : result unit * Store :=
  let (r, st') := SessionsRoute.put uid (id s) (to_body s) st in
  (match apiCall r with
   | Resolved _ => Resolved tt
   | Thrown e => Thrown e
   end, st').

Definition deleteSession (uid sid : string) (st : Store) : result unit * Store :=
  let (r, st') := SessionsRoute.delete uid sid st in (apiCall r, st').

Definition deletePatient (uid pid : string) (st : Store) : result unit * Store :=
  let (r, st') := PatientsRoute.delete uid pid st in (apiCall r, st').

(** [getPatientById]: the patient, or [null] on any error. *)
Definition getPatientById (uid pid : string) (st : Store) : option Patient.t :=
  match apiCall (PatientsRoute.get_one uid pid st) with
  | Resolved patient => Some patient
  | Thrown _ => None
  end.

(** [getSessionById]: the session, or [null] on any error. *)
Definition getSessionById (uid sid : string) (st : Store) : option Session :=
  match apiCall (SessionsRoute.get_one uid sid st) with
  | Resolved s => Some (of_doc s)
  | Thrown _ => None
  end.

(** Modelled from the spec: the [SessionFilter] interface of [types] is
    missing from the sources; it is the specification's filter record, whose
    properties are all optional. *)
Record SessionFilter : Type := mkFilter {
  f_patientId : option string;
  f_startDate : option string;
  f_endDate : option string;
  f_completed : option bool
}.

(** The query string built with [URLSearchParams], as [req.query] reads it
    back: a property is appended only when it is truthy, and [completed] is
    never appended. *)
Definition queryParams (filters : SessionFilter) : SessionsRoute.Query :=
  SessionsRoute.mkQuery
    (if JS.truthy_opt (f_patientId filters) then f_patientId filters else None)
    (if JS.truthy_opt (f_startDate filters) then f_startDate filters else None)
    (if JS.truthy_opt (f_endDate filters) then f_endDate filters else None)
    None.

Definition getFilteredSessions (uid : string) (filters : SessionFilter) (st : Store)
  : list Session :=
  or_empty (apiCall (SessionsRoute.get_all uid (queryParams filters) st)).

End Client.

(** ** [utils/notifications.ts] *)

Inductive Platform : Type := web | ios | android.

Module Notifications.

Record Content : Type := mkContent {
  title : string;
  body : string;
  data_sessionId : string
}.

(** A request registered with the notification service. *)
Record Request : Type := mkRequest {
  identifier : string;
  content : Content;
  trigger : Z
}.

(** The notification service: its pending one-shot requests and the source
    of fresh identifiers. *)
Record Service : Type := mkService {
  pending : list Request;
  nextHandle : nat
}.

Definition noService : Service := mkService [] 0.

(** [Notifications.scheduleNotificationAsync]: registers the request and
    resolves with its identifier; a trigger that is not a valid date is
    rejected. *)
Definition scheduleNotificationAsync (c : Content) (trg : JSDate.t) (ns : Service)
  : option (string * Service) :=
  match trg with
  | Some tv =>
      let h := ("n" ++ JS.string_of_Z (Z.of_nat (nextHandle ns)))%string in
      Some (h, mkService (pending ns ++ [mkRequest h c tv]) (S (nextHandle ns)))
  | None => None
  end.

(** [Notifications.cancelScheduledNotificationAsync] *)
Definition cancelScheduledNotificationAsync (h : string) (ns : Service) : Service :=
  mkService (filter (fun r => negb (identifier r =? h)%string) (pending ns))
            (nextHandle ns).

(** [a <= b] on two dates: false as soon as one of them is invalid. *)
Definition date_le (a b : JSDate.t) : bool :=
  match a, b with
  | Some x, Some y => x <=? y
  | _, _ => false
  end.

Section Host.
Variable OS : Platform.
Variable host : JSDate.Host.

Definition scheduleSessionNotification (now : Z) (session : Client.Session) (ns : Service)
  : option string * Service :=
  match OS with
  | web => (None, ns)
  | _ =>
      let sessionDate :=
        JSDate.parse host (Client.date session ++ "T" ++ Client.time session)%string in
      let notificationDate := sessionDate in
      let notificationDate :=
        JSDate.setHours host notificationDate
          (option_map (fun h => h - 1) (JSDate.getHours host notificationDate)) in
      if date_le notificationDate (Some now) then (None, ns)
      else
        match scheduleNotificationAsync
                (mkContent "Upcoming Session Reminder"
                   ("You have a session with " ++ Client.patientName session
                    ++ " at " ++ Client.time session)%string
                   (Client.id session))
                notificationDate ns with
        | Some (notificationId, ns') => (Some notificationId, ns')
        | None => (None, ns)
        end
  end.

Definition cancelNotification (notificationId : string) (ns : Service) : Service :=
  match OS with
  | web => ns
  | _ => cancelScheduledNotificationAsync notificationId ns
  end.

End Host.

End Notifications.

(** ** [components/SessionForm.tsx] *)

Module SessionForm.

(** The state of the form. *)
Record Form : Type := mkForm {
  patientId : string;
  date : JSDate.t;
  time : JSDate.t;
  notes : string;
  amount : string
}.

Section Host.
Variable OS : Platform.
Variable host : JSDate.Host.
(** [parseFloat] followed by JSON encoding: a number, or [null] for [NaN]. *)
Variable parseFloat : string -> JS.optnum.

(** [String(n)] of a date component: [NaN] for an invalid date. *)
Definition component (n : option Z) : string :=
  match n with
  | Some v => JS.string_of_Z v
  | None => "NaN"
  end.

Definition formatDateForStorage (dateObj : JSDate.t) : string :=
  let year := JSDate.getFullYear host dateObj in
  let month := JS.padStart0 2 (component (option_map (fun m => m + 1) (JSDate.getMonth host dateObj))) in
  let day := JS.padStart0 2 (component (JSDate.getDate host dateObj)) in
  (component year ++ "-" ++ month ++ "-" ++ day)%string.

(** [toLocaleTimeString] with two-digit hour and minute on a 24-hour clock. *)
Definition formatTimeForStorage (timeDate : JSDate.t) : string :=
  match timeDate with
  | Some tv =>
      let lt := JSDate.LocalTime host tv in
      (JS.padStart0 2 (JS.string_of_Z (JSDate.HourFromTime lt)) ++ ":"
       ++ JS.padStart0 2 (JS.string_of_Z (JSDate.MinFromTime lt)))%string
  | None => "Invalid Date"
  end.

(** The initial state of the form, for a new session or an existing one.
    [existingSession.amount.toString()] throws when the amount is [null]. *)
Definition initial (now : Z) (existingSession : option Client.Session)
  (preselectedPatientId : string) : option Form :=
  match existingSession with
  | Some s =>
      let patientId := if JS.truthy (Client.patientId s) then Client.patientId s
                       else preselectedPatientId in
      let date := JSDate.parse host (Client.date s) in
      let time := JSDate.parse host ("2000-01-01T" ++ Client.time s)%string in
      match Client.amount s with
      | JS.Num n => Some (mkForm patientId date time (Client.notes s) (JS.string_of_Z n))
      | JS.Undefined => Some (mkForm patientId date time (Client.notes s) "")
      | JS.Null => None
      end
  | None => Some (mkForm preselectedPatientId (Some now) (Some now) "" "")
  end.

Definition getPatientNameById (patients : list Patient.t) (id : string) : string :=
  match find (fun p => (Patient._id p =? id)%string) patients with
  | Some patient => Patient.name patient
  | None => ""
  end.

Inductive Outcome : Type :=
  | Invalid
  | Saved (session : Client.Session) (handle : option string)
  | Failed.

(** The server and the notification service, side by side. *)
Definition World : Type := (Store * Notifications.Service)%type.

Definition handleSubmit (uid : string) (now : Z) (patients : list Patient.t)
  (existingSession : option Client.Session) (f : Form) (w : World) : Outcome * World :=
  let (st, ns) := w in
  if negb (JS.truthy (patientId f)) then (Invalid, w)
  else
    let patientName := getPatientNameById patients (patientId f) in
    let formattedDate := formatDateForStorage (date f) in
    let formattedTime := formatTimeForStorage (time f) in
    match existingSession with
    | Some existing =>
        let updatedSessionData :=
          Client.mkSession (Client.id existing) (patientId f) patientName
            formattedDate formattedTime (notes f) (Client.completed existing)
            (if JS.truthy (JS.trim (amount f)) then parseFloat (amount f)
             else JS.Undefined) in
        match Client.updateSession uid updatedSessionData st with
        | (Client.Resolved _, st') =>
            let (h, ns') :=
              Notifications.scheduleSessionNotification OS host now updatedSessionData ns in
            (Saved updatedSessionData h, (st', ns'))
        | (Client.Thrown _, st') => (Failed, (st', ns))
        end
    | None =>
        let sessionData :=
          SessionsRoute.mkBody (Some (patientId f)) (Some patientName)
            (Some formattedDate) (Some formattedTime) (Some (notes f)) (Some false)
            (if JS.truthy (JS.trim (amount f)) then parseFloat (amount f)
             else JS.Undefined) in
        match Client.saveSession uid sessionData st with
        | (Client.Resolved newSession, st') =>
            let (h, ns') :=
              Notifications.scheduleSessionNotification OS host now newSession ns in
            (Saved newSession h, (st', ns'))
        | (Client.Thrown _, st') => (Failed, (st', ns))
        end
    end.

End Host.

End SessionForm.

(** ** [components/SessionCard.tsx] *)

Module SessionCard.

(** The completion button of a card.  It is drawn unless the actions of the
    card are disabled, or the card is an upcoming one and its session is not
    completed; pressing it calls [onToggleComplete(session,
    !session.completed)].  The result is the second argument of that call,
    when there is a button to press. *)
Definition toggleButton (disableActions isUpcoming : bool) (session : Client.Session)
  : option bool :=
  if negb disableActions && (negb isUpcoming || Client.completed session)
  then Some (negb (Client.completed session))
  else None.

End SessionCard.

(** ** [app/(tabs)/upcoming.tsx] *)

Module Upcoming.

(** What a handler shows: the "Cannot Complete" alert, the reloaded list,
    an error alert, or nothing at all. *)
Inductive Outcome : Type :=
  | CannotComplete
  | Updated
  | UpdateFailed
  | Ignored.

Definition handleToggleComplete (uid : string) (session : Client.Session)
  (completed : bool) (st : Store) : Outcome * Store :=
  if completed then (CannotComplete, st)
  else
    let updatedSession := Client.with_completed_amount completed JS.Undefined session in
    match Client.updateSession uid updatedSession st with
    | (Client.Resolved _, st') => (Updated, st')
    | (Client.Thrown _, st') => (UpdateFailed, st')
    end.

(** A press on the completion button of a card of the list, when the card
    has one: the list draws its cards with [isUpcoming={true}] and leaves
    their actions enabled. *)
Definition pressToggle (uid : string) (session : Client.Session) (st : Store)
  : option (Outcome * Store) :=
  option_map (fun completed => handleToggleComplete uid session completed st)
    (SessionCard.toggleButton false true session).

(** The state [sessionToComplete] of the screen: it starts as [null] and
    every [setSessionToComplete] of the screen sets it to [null]. *)
Definition sessionToComplete : option Client.Session := None.

Definition handlePaymentConfirm (uid : string)
  (sessionToComplete : option Client.Session) (amount : Z) (st : Store)
  : Outcome * Store :=
  match sessionToComplete with
  | None => (Ignored, st)
  | Some session =>
      let updatedSession := Client.with_completed_amount true (JS.Num amount) session in
      match Client.updateSession uid updatedSession st with
      | (Client.Resolved _, st') => (Updated, st')
      | (Client.Thrown _, st') => (UpdateFailed, st')
      end
  end.

(** [handleDeleteSession], once the alert's "Delete" button is pressed. *)
Definition handleDeleteSession (uid sessionId : string) (st : Store) : Outcome * Store :=
  match Client.deleteSession uid sessionId st with
  | (Client.Resolved _, st') => (Updated, st')
  | (Client.Thrown _, st') => (UpdateFailed, st')
  end.

End Upcoming.

(** * The vocabulary of the specification *)

(** [a] comes no later than [b]: an earlier date, or the same date and a
    time that is not later, both compared as strings. *)
Definition key_le (a b : Session.t) : Prop :=
  String.ltb (Session.date a) (Session.date b) = true
  \/ (Session.date a = Session.date b
      /\ String.leb (Session.time a) (Session.time b) = true).

(** Sessions of one owner, and the two views by completion flag. *)
Definition owned (uid : string) (s : Session.t) : bool :=
  (Session.userId s =? uid)%string.

(** A field guarded by [if (value)]: overwritten by a non-empty value,
    left alone otherwise, hence never blanked. *)
Definition overwritten_if_truthy (patch : option string) (old new : string) : Prop :=
  (forall v, patch = Some v -> v <> "" -> new = v)
  /\ (patch = None \/ patch = Some "" -> new = old)
  /\ (old <> "" -> new <> "").

(** A field guarded by [if (value !== undefined)]. *)
Definition applied_if_defined {A : Type} (patch : option A) (old new : A) : Prop :=
  (forall v, patch = Some v -> new = v) /\ (patch = None -> new = old).

(** ** Reachable states of the server *)

(** The operations a caller can perform against the server. *)
Inductive Op : Type :=
  | CreatePatient (uid : string) (name contactNumber : option string)
  | UpdatePatient (uid id : string) (name contactNumber : option string)
  | DeletePatient (uid id : string)
  | CreateSession (uid : string) (b : SessionsRoute.Body)
  | UpdateSession (uid id : string) (b : SessionsRoute.Body)
  | DeleteSession (uid id : string).

Definition step (o : Op) (st : Store) : Store :=
  match o with
  | CreatePatient uid n c => snd (PatientsRoute.post uid n c st)
  | UpdatePatient uid id n c => snd (PatientsRoute.put uid id n c st)
  | DeletePatient uid id => snd (PatientsRoute.delete uid id st)
  | CreateSession uid b => snd (SessionsRoute.post uid b st)
  | UpdateSession uid id b => snd (SessionsRoute.put uid id b st)
  | DeleteSession uid id => snd (SessionsRoute.delete uid id st)
  end.

(** The states reachable from the empty database through operations that
    all satisfy [allowed]. *)
Inductive reachable_by (allowed : Op -> bool) : Store -> Prop :=
  | reach_empty : reachable_by allowed emptyStore
  | reach_step (o : Op) (st : Store) :
      allowed o = true -> reachable_by allowed st -> reachable_by allowed (step o st).

Definition reachable : Store -> Prop := reachable_by (fun _ => true).

(** The invariant of the data model: an amount only on a completed session. *)
Definition amount_only_if_completed (s : Session.t) : Prop :=
  Session.amount s <> None -> Session.completed s = true.

(** A request that keeps amount and completion together by itself: a create
    body carries an amount only with [completed = true]; a patch that sets
    [completed = false] also carries [amount = null], and a patch carries a
    number only together with [completed = true]. *)
Definition paired (o : Op) : bool :=
  match o with
  | CreateSession _ b =>
      match JS.or_null (SessionsRoute.b_amount b) with
      | Some _ => JS.or_false (SessionsRoute.b_completed b)
      | None => true
      end
  | UpdateSession _ _ b =>
      match SessionsRoute.b_completed b, SessionsRoute.b_amount b with
      | Some true, _ => true
      | Some false, JS.Null => true
      | Some false, _ => false
      | None, JS.Num _ => false
      | None, _ => true
      end
  | _ => true
  end.

(** ** Example data *)

Module Scenario.

Definition u1 : string := "u1".

(** Patient "Asha" gets the object id ["0"]. *)
Definition st0 : Store :=
  step (CreatePatient u1 (Some "Asha") (Some "5550100")) emptyStore.

Definition new_session (date time : string) (completed : bool) (amount : JS.optnum)
  : SessionsRoute.Body :=
  SessionsRoute.mkBody (Some "0") (Some "Asha") (Some date) (Some time) (Some "")
    (Some completed) amount.

(** One session on 2025-03-10 at 14:00, not completed; its object id is ["1"]. *)
Definition st1 : Store :=
  step (CreateSession u1 (new_session "2025-03-10" "14:00" false JS.Undefined)) st0.

Definition patch (completed : option bool) (amount : JS.optnum) : SessionsRoute.Body :=
  SessionsRoute.mkBody None None None None None completed amount.

(** [parseFloat] on the amounts typed in the examples: a run of decimal
    digits reads as its value. *)
Fixpoint digits_value (acc : Z) (s : string) : option Z :=
  match s with
  | EmptyString => Some acc
  | String c r =>
      match JSDate.digit c with
      | Some d => digits_value (10 * acc + d) r
      | None => None
      end
  end.

Definition parseFloat (s : string) : JS.optnum :=
  match s with
  | EmptyString => JS.Null
  | _ =>
      match digits_value 0 s with
      | Some n => JS.Num n
      | None => JS.Null
      end
  end.

(** 2025-03-10T12:00:00Z, and five hours west of UTC. *)
Definition noon_utc : Z := 1741608000000.
Definition utc_minus_5 : Z := -5 * JSDate.msPerHour.

End Scenario.

(** [combine(date, time)]: the local instant of a session. *)
Definition combine (host : JSDate.Host) (date time : string) : JSDate.t :=
  JSDate.parse host (date ++ "T" ++ time)%string.

(** One hour earlier on the local clock: the instant at which the host's
    local time reads what it reads at [t], less one hour. *)
Definition hour_before (host : JSDate.Host) (t : Z) : JSDate.t :=
  JSDate.TimeClip (JSDate.UTC host (JSDate.LocalTime host t - JSDate.msPerHour)).

(** What a reminder for a session shows and carries. *)
Definition reminder_content (s : Client.Session) : Notifications.Content :=
  Notifications.mkContent "Upcoming Session Reminder"
    ("You have a session with " ++ Client.patientName s ++ " at " ++ Client.time s)%string
    (Client.id s).

Module ReminderScenario.

(** 2025-03-12, picked at 14:00 with an amount of 500, and later moved to
    15:00 (UTC host). *)
Definition day : JSDate.t := Some 1741737600000.
Definition at_14 : JSDate.t := Some 1741788000000.
Definition at_15 : JSDate.t := Some 1741791600000.

Definition form1 : SessionForm.Form := SessionForm.mkForm "0" day at_14 "" "500".
Definition form2 : SessionForm.Form := SessionForm.mkForm "0" day at_15 "" "500".

Definition submit (existing : option Client.Session) (f : SessionForm.Form)
  (w : SessionForm.World) : SessionForm.Outcome * SessionForm.World :=
  SessionForm.handleSubmit ios 0 Scenario.parseFloat Scenario.u1 Scenario.noon_utc
    (patients Scenario.st0) existing f w.

Definition created : Client.Session :=
  Client.mkSession "1" "0" "Asha" "2025-03-12" "14:00" "" false (JS.Num 500).
Definition moved : Client.Session :=
  Client.mkSession "1" "0" "Asha" "2025-03-12" "15:00" "" false (JS.Num 500).

Definition w0 : SessionForm.World := (Scenario.st0, Notifications.noService).
Definition w1 : SessionForm.World := snd (submit None form1 w0).
Definition w2 : SessionForm.World := snd (submit (Some created) form2 w1).

(** The pending reminders that carry the id of a given session. *)
Definition reminders_of (sid : string) (ns : Notifications.Service)
  : list Notifications.Request :=
  filter (fun r => (Notifications.data_sessionId (Notifications.content r) =? sid)%string)
         (Notifications.pending ns).

End ReminderScenario.

Module ClockChangeScenario.

(** A host on the Eastern time of the United States in March 2025: five
    hours west of UTC until 2025-03-09 07:00 UTC, when the local clock goes
    from 02:00 to 03:00, and four hours west from then on.  A local time
    that the clock skips is read with the offset before the change. *)
Definition eastern : JSDate.Host :=
  JSDate.mkHost
    (fun t isUTC =>
       if isUTC
       then (if t <? 1741503600000 then -5 * JSDate.msPerHour else -4 * JSDate.msPerHour)
       else (if t <? 1741489200000 then -5 * JSDate.msPerHour else -4 * JSDate.msPerHour))
    (fun _ => None).

(** A session at 03:30 on the morning of the change. *)
Definition early : Client.Session :=
  Client.mkSession "1" "0" "Asha" "2025-03-09" "03:30" "" false JS.Null.

End ClockChangeScenario.

Module TodayScenario.

(** Two sessions of 2025-03-10, at 09:00 and at 14:00. *)
Definition st2 : Store :=
  step (CreateSession Scenario.u1
          (Scenario.new_session "2025-03-10" "09:00" false JS.Undefined))
       Scenario.st1.

(** 2025-03-10 at 20:00 on a host five hours west of UTC: 01:00 UTC on the
    next day. *)
Definition evening : Z := 1741654800000.

End TodayScenario.

(** A required property that fails the test [!value]. *)
Definition missing_or_empty (x : option string) : Prop := x = None \/ x = Some "".

(** The session's stored date is after the local calendar date of [now]. *)
Definition dated_after_today (host : JSDate.Host) (now : Z) (s : Client.Session) : Prop :=
  String.ltb (SessionForm.formatDateForStorage host (Some now)) (Client.date s) = true.

(** ** Printed numbers read back

    Decidable checks that a printed year of four digits, and a printed
    two-digit field, are read back by the parser as the same number. *)

Definition year_reads_back (y : Z) : bool :=
  match JS.string_of_Z y with
  | String a (String b (String c (String d EmptyString))) =>
      match JSDate.digits4 a b c d with
      | Some v => v =? y
      | None => false
      end
  | _ => false
  end.

Definition field_reads_back (n : Z) : bool :=
  match JS.padStart0 2 (JS.string_of_Z n) with
  | String a (String b EmptyString) =>
      match JSDate.digits2 a b with
      | Some v => v =? n
      | None => false
      end
  | _ => false
  end.

(** The integers [lo], [lo + 1], ..., [lo + n - 1]. *)
Definition Zrange (lo : Z) (n : nat) : list Z :=
  map (fun k => lo + Z.of_nat k) (seq 0 n).

(** ** Object ids

    An object id handed out before the counter reached [n]. *)
Definition id_below (n : nat) (id : string) : Prop :=
  exists k, (k < n)%nat /\ id = JS.string_of_Z (Z.of_nat k).

(** No two documents of a collection share an id, and every id was handed
    out by the counter. *)
Definition unique_ids (st : Store) : Prop :=
  NoDup (map Session._id (sessions st))
  /\ NoDup (map Patient._id (patients st))
  /\ (forall s, In s (sessions st) -> id_below (nextId st) (Session._id s))
  /\ (forall p, In p (patients st) -> id_below (nextId st) (Patient._id p)).

(** The request comes from the user [uid]. *)
Definition issued_by (uid : string) (o : Op) : Prop :=
  match o with
  | CreatePatient u _ _ | UpdatePatient u _ _ _ | DeletePatient u _
  | CreateSession u _ | UpdateSession u _ _ | DeleteSession u _ => u = uid
  end.

(** The answers of the list routes. *)
Definition listed {A : Type} (r : response (list A)) : list A :=
  match r with
  | Ok _ l => l
  | Err _ _ => []
  end.

(** Documents of the other users, in both collections. *)
Definition not_owned_by (uid : string) (s : Session.t) : bool :=
  negb (Session.userId s =? uid)%string.
Definition patient_not_owned_by (uid : string) (p : Patient.t) : bool :=
  negb (Patient.userId p =? uid)%string.

(** What it takes for a session to pass the filters of a query. *)
Definition passes (uid : string) (q : SessionsRoute.Query) (s : Session.t) : Prop :=
  Session.userId s = uid
  /\ (forall p, SessionsRoute.q_patientId q = Some p -> p <> "" ->
                Session.patientId s = p)
  /\ (forall c, SessionsRoute.q_completed q = Some c ->
                (Session.completed s = true <-> c = "true"))
  /\ (forall d, SessionsRoute.q_startDate q = Some d -> d <> "" ->
                String.leb d (Session.date s) = true)
  /\ (forall d, SessionsRoute.q_endDate q = Some d -> d <> "" ->
                String.leb (Session.date s) d = true).

(** A value that reaches the patient document: the trimmed patch value when
    it is not empty, the stored value otherwise. *)
Definition patched (patch : option string) (old : string) : string :=
  if JS.truthy_opt patch then JS.trim (JS.value patch) else old.

(** * Properties *)

(** ** The order on strings and on the key [(date, time)] *)

Lemma compare_refl (a : string) : String.compare a a = Eq.
Proof. now apply (String_as_OT.cmp_eq a a). Qed.

Lemma compare_lt_trans (a b c : string) :
  String.compare a b = Lt -> String.compare b c = Lt -> String.compare a c = Lt.
Proof.
  intros H1 H2.
  apply String_as_OT.cmp_lt in H1. apply String_as_OT.cmp_lt in H2.
  apply String_as_OT.cmp_lt. eapply String_as_OT.lt_trans; eassumption.
Qed.

Lemma compare_gt_lt (a b : string) : String.compare a b = Gt -> String.compare b a = Lt.
Proof.
  intros H. rewrite String.compare_antisym, H. reflexivity.
Qed.

Lemma asc_key_le (a b : Session.t) : Mongo.asc a b = true <-> key_le a b.
Proof.
  unfold Mongo.asc, Mongo.cmp_date_time, key_le, String.ltb, String.leb.
  destruct (String.compare (Session.date a) (Session.date b)) eqn:Hd.
  - apply String.compare_eq_iff in Hd.
    destruct (String.compare (Session.time a) (Session.time b)); split; intros H;
      try discriminate; auto; destruct H as [H | [_ H]]; try discriminate; auto.
  - split; auto.
  - split; intros H; try discriminate.
    destruct H as [H | [H _]]; try discriminate.
    rewrite H, compare_refl in Hd. discriminate.
Qed.

Lemma asc_total (a b : Session.t) : Mongo.asc a b = false -> Mongo.asc b a = true.
Proof.
  unfold Mongo.asc, Mongo.cmp_date_time.
  destruct (String.compare (Session.date a) (Session.date b)) eqn:Hd.
  - apply String.compare_eq_iff in Hd. rewrite Hd, compare_refl.
    destruct (String.compare (Session.time a) (Session.time b)) eqn:Ht; try discriminate.
    intros _. now rewrite (compare_gt_lt _ _ Ht).
  - discriminate.
  - intros _. now rewrite (compare_gt_lt _ _ Hd).
Qed.

Lemma cmp_date_time_lt_trans (a b c : Session.t) :
  Mongo.cmp_date_time a b = Lt -> Mongo.cmp_date_time b c = Lt ->
  Mongo.cmp_date_time a c = Lt.
Proof.
  unfold Mongo.cmp_date_time.
  destruct (String.compare (Session.date a) (Session.date b)) eqn:Hab;
    destruct (String.compare (Session.date b) (Session.date c)) eqn:Hbc;
    try discriminate; intros H1 H2.
  - apply String.compare_eq_iff in Hab, Hbc. rewrite Hab, Hbc, compare_refl.
    eapply compare_lt_trans; eassumption.
  - apply String.compare_eq_iff in Hab. now rewrite Hab, Hbc.
  - apply String.compare_eq_iff in Hbc. now rewrite <- Hbc, Hab.
  - now rewrite (compare_lt_trans _ _ _ Hab Hbc).
Qed.

Lemma cmp_date_time_eq (a b : Session.t) :
  Mongo.cmp_date_time a b = Eq ->
  Session.date a = Session.date b /\ Session.time a = Session.time b.
Proof.
  unfold Mongo.cmp_date_time.
  destruct (String.compare (Session.date a) (Session.date b)) eqn:Hd; try discriminate.
  intros Ht. split; now apply String.compare_eq_iff.
Qed.

Lemma asc_trans (a b c : Session.t) :
  Mongo.asc a b = true -> Mongo.asc b c = true -> Mongo.asc a c = true.
Proof.
  unfold Mongo.asc.
  destruct (Mongo.cmp_date_time a b) eqn:Hab; try discriminate;
    destruct (Mongo.cmp_date_time b c) eqn:Hbc; try discriminate; intros _ _.
  - apply cmp_date_time_eq in Hab, Hbc. destruct Hab as [D1 T1], Hbc as [D2 T2].
    unfold Mongo.cmp_date_time. now rewrite D1, D2, T1, T2, !compare_refl.
  - apply cmp_date_time_eq in Hab. destruct Hab as [D1 T1].
    unfold Mongo.cmp_date_time in *. now rewrite D1, T1, Hbc.
  - apply cmp_date_time_eq in Hbc. destruct Hbc as [D2 T2].
    unfold Mongo.cmp_date_time in *. now rewrite <- D2, <- T2, Hab.
  - now rewrite (cmp_date_time_lt_trans _ _ _ Hab Hbc).
Qed.

(** ** The sort of the storage engine *)

Section SortFacts.
Context {A : Type}.
Variable le : A -> A -> bool.
Hypothesis le_total : forall a b, le a b = false -> le b a = true.
Hypothesis le_trans : forall a b c, le a b = true -> le b c = true -> le a c = true.

Let R (a b : A) : Prop := le a b = true.

Lemma insert_perm (x : A) (l : list A) : Permutation (Mongo.insert le x l) (x :: l).
Proof.
  induction l as [| y r IH]; simpl.
  - apply Permutation_refl.
  - destruct (le x y).
    + apply Permutation_refl.
    + eapply perm_trans; [apply perm_skip, IH | apply perm_swap].
Qed.

Lemma sort_perm (l : list A) : Permutation (Mongo.sort le l) l.
Proof.
  induction l as [| x r IH]; simpl.
  - constructor.
  - eapply perm_trans; [apply insert_perm | now apply perm_skip].
Qed.

Lemma insert_sorted (x : A) (l : list A) :
  StronglySorted R l -> StronglySorted R (Mongo.insert le x l).
Proof.
  induction l as [| y r IH]; simpl; intros Hs.
  - constructor; [constructor | constructor].
  - inversion Hs as [| y' r' Hr Hy]; subst.
    destruct (le x y) eqn:Hxy.
    + constructor; [assumption |].
      constructor; [exact Hxy |].
      eapply Forall_impl; [| exact Hy].
      intros z Hz. unfold R in *. eapply le_trans; eassumption.
    + constructor; [now apply IH |].
      apply (Permutation_Forall (Permutation_sym (insert_perm x r))).
      constructor; [now apply le_total | assumption].
Qed.

Lemma sort_sorted (l : list A) : StronglySorted R (Mongo.sort le l).
Proof.
  induction l as [| x r IH]; simpl.
  - constructor.
  - now apply insert_sorted.
Qed.

End SortFacts.

Lemma StronglySorted_impl {A : Type} (R R' : A -> A -> Prop) (l : list A) :
  (forall a b, R a b -> R' a b) -> StronglySorted R l -> StronglySorted R' l.
Proof.
  intros HR Hs. induction Hs as [| a l Hs IH Ha]; constructor; auto.
  eapply Forall_impl; [| exact Ha]. auto.
Qed.

Lemma StronglySorted_filter {A : Type} (R : A -> A -> Prop) (f : A -> bool) (l : list A) :
  StronglySorted R l -> StronglySorted R (filter f l).
Proof.
  intros Hs. induction Hs as [| a l Hs IH Ha]; simpl.
  - constructor.
  - destruct (f a); auto. constructor; auto.
    apply Forall_forall. intros x Hx. apply filter_In in Hx.
    rewrite Forall_forall in Ha. now apply Ha.
Qed.

Lemma Permutation_filter_compat {A : Type} (f : A -> bool) (l l' : list A) :
  Permutation l l' -> Permutation (filter f l) (filter f l').
Proof.
  intros H. induction H as [| x l l' H IH | x y l | l l' l'' H1 IH1 H2 IH2]; simpl.
  - constructor.
  - destruct (f x); auto.
  - destruct (f x), (f y); auto using Permutation_refl, perm_swap.
  - eapply perm_trans; eassumption.
Qed.

Lemma split_by_flag {A : Type} (o c : A -> bool) (l : list A) :
  Permutation (filter (fun s => o s && negb (c s)) l ++ filter (fun s => o s && c s) l)
              (filter o l).
Proof.
  induction l as [| x r IH]; simpl.
  - constructor.
  - destruct (o x), (c x); simpl; auto.
    apply Permutation_sym, Permutation_cons_app, Permutation_sym, IH.
Qed.

Lemma upcoming_sorted (l : list Session.t) : StronglySorted key_le (Mongo.sort Mongo.asc l).
Proof.
  apply StronglySorted_impl with (R := fun a b => Mongo.asc a b = true).
  - intros a b. apply asc_key_le.
  - apply sort_sorted; [exact asc_total | exact asc_trans].
Qed.

Lemma past_sorted (l : list Session.t) :
  StronglySorted (fun a b => key_le b a) (Mongo.sort Mongo.desc l).
Proof.
  apply StronglySorted_impl with (R := fun a b => Mongo.desc a b = true).
  - intros a b. unfold Mongo.desc. apply asc_key_le.
  - apply sort_sorted; unfold Mongo.desc.
    + intros a b. apply asc_total.
    + intros a b c H1 H2. eapply asc_trans; eassumption.
Qed.

(** C4.  For every owner, [GET /upcoming] answers with exactly the owner's
    sessions that are not completed, in ascending order of [(date, time)];
    [GET /past] answers with exactly the completed ones, in descending order;
    taken together the two answers are the owner's sessions, and no session
    is in both. *)
Theorem listUpcoming_listPast_partition (uid : string) (st : Store) :
  exists up past,
    SessionsRoute.get_upcoming uid st = Ok 200 up
    /\ SessionsRoute.get_past uid st = Ok 200 past
    /\ Permutation up
         (filter (fun s => owned uid s && negb (Session.completed s)) (sessions st))
    /\ StronglySorted key_le up
    /\ Permutation past
         (filter (fun s => owned uid s && Session.completed s) (sessions st))
    /\ StronglySorted (fun a b => key_le b a) past
    /\ Permutation (up ++ past) (filter (owned uid) (sessions st))
    /\ (forall s, In s up -> In s past -> False).
Proof.
  assert (Eup : forall s : Session.t,
             (Session.userId s =? uid)%string && Bool.eqb (Session.completed s) false
             = owned uid s && negb (Session.completed s)).
  { intros s. unfold owned. now destruct (Session.completed s). }
  assert (Epast : forall s : Session.t,
             (Session.userId s =? uid)%string && Bool.eqb (Session.completed s) true
             = owned uid s && Session.completed s).
  { intros s. unfold owned. now destruct (Session.completed s). }
  eexists. eexists.
  split; [reflexivity |]. split; [reflexivity |].
  rewrite (filter_ext _ _ Eup), (filter_ext _ _ Epast).
  assert (Pup := sort_perm Mongo.asc
            (filter (fun s => owned uid s && negb (Session.completed s)) (sessions st))).
  assert (Ppast := sort_perm Mongo.desc
            (filter (fun s => owned uid s && Session.completed s) (sessions st))).
  repeat split.
  - exact Pup.
  - apply upcoming_sorted.
  - exact Ppast.
  - apply past_sorted.
  - eapply perm_trans; [apply Permutation_app; eassumption | apply split_by_flag].
  - intros s Hu Hp.
    apply (Permutation_in _ Pup) in Hu. apply (Permutation_in _ Ppast) in Hp.
    apply filter_In in Hu. apply filter_In in Hp.
    destruct Hu as [_ Hu], Hp as [_ Hp].
    destruct (owned uid s), (Session.completed s); discriminate.
Qed.

(** ** The update route: which fields a patch changes *)

Lemma truthy_true (v : string) : JS.truthy v = true <-> v <> "".
Proof.
  unfold JS.truthy. destruct (String.eqb_spec v ""); simpl; split; intros H; congruence.
Qed.

Lemma guarded_field (patch : option string) (old : string) :
  overwritten_if_truthy patch old
    (if JS.truthy_opt patch then JS.value patch else old).
Proof.
  unfold overwritten_if_truthy. destruct patch as [v |]; simpl.
  - destruct (JS.truthy v) eqn:Hv.
    + apply truthy_true in Hv. repeat split.
      * intros w Hw _. now inversion Hw.
      * intros [H | H]; [discriminate | inversion H; congruence].
      * auto.
    + assert (v = "").
      { destruct (String.eqb_spec v ""); auto.
        assert (JS.truthy v = true) by now apply truthy_true. congruence. }
      subst v. repeat split; auto.
      intros w Hw Hne. inversion Hw. congruence.
  - repeat split; auto. intros v Hv. discriminate.
Qed.

Lemma update_fields_spec (b : SessionsRoute.Body) (s : Session.t) :
  SessionsRoute.update_fields b s =
  Session.mk (Session._id s) (Session.userId s)
    (if JS.truthy_opt (SessionsRoute.b_patientId b)
     then JS.value (SessionsRoute.b_patientId b) else Session.patientId s)
    (if JS.truthy_opt (SessionsRoute.b_patientName b)
     then JS.value (SessionsRoute.b_patientName b) else Session.patientName s)
    (if JS.truthy_opt (SessionsRoute.b_date b)
     then JS.value (SessionsRoute.b_date b) else Session.date s)
    (if JS.truthy_opt (SessionsRoute.b_time b)
     then JS.value (SessionsRoute.b_time b) else Session.time s)
    (match SessionsRoute.b_notes b with Some n => n | None => Session.notes s end)
    (match SessionsRoute.b_completed b with Some c => c | None => Session.completed s end)
    (match SessionsRoute.b_amount b with
     | JS.Undefined => Session.amount s
     | a => JS.stored_num a
     end).
Proof.
  unfold SessionsRoute.update_fields. destruct s, b as [pid pname d t n c a]. simpl.
  destruct (JS.truthy_opt pid), (JS.truthy_opt pname), (JS.truthy_opt d),
    (JS.truthy_opt t), n, c, a; reflexivity.
Qed.

Lemma findSession_some (st : Store) (id uid : string) (s : Session.t) :
  Mongo.findSession st id uid = Some s ->
  In s (sessions st) /\ Session._id s = id /\ Session.userId s = uid.
Proof.
  unfold Mongo.findSession. intros H. apply find_some in H.
  destruct H as [Hin H]. apply andb_prop in H. destruct H as [H1 H2].
  apply String.eqb_eq in H1, H2. auto.
Qed.

Lemma find_saved (l : list Session.t) (id uid : string) (s s' : Session.t) :
  find (fun x => (Session._id x =? id)%string && (Session.userId x =? uid)%string) l = Some s ->
  Session._id s' = id -> Session.userId s' = uid ->
  find (fun x => (Session._id x =? id)%string && (Session.userId x =? uid)%string)
       (Mongo.saveSession s' l) = Some s'.
Proof.
  intros Hf Hid Huid. induction l as [| x r IH]; simpl in *; [discriminate |].
  assert (Hs' : (Session._id s' =? id)%string && (Session.userId s' =? uid)%string = true).
  { rewrite Hid, Huid, !String.eqb_refl. reflexivity. }
  destruct ((Session._id x =? id)%string && (Session.userId x =? uid)%string) eqn:Hx.
  - apply andb_prop in Hx. destruct Hx as [Hx _]. apply String.eqb_eq in Hx.
    rewrite Hid, Hx, String.eqb_refl. now rewrite Hs'.
  - destruct (Session._id x =? Session._id s')%string.
    + now rewrite Hs'.
    + rewrite Hx. now apply IH.
Qed.

Lemma find_other_saved (l : list Session.t) (id' uid' : string) (s' : Session.t) :
  Session._id s' <> id' ->
  find (fun x => (Session._id x =? id')%string && (Session.userId x =? uid')%string)
       (Mongo.saveSession s' l)
  = find (fun x => (Session._id x =? id')%string && (Session.userId x =? uid')%string) l.
Proof.
  intros Hne. induction l as [| x r IH]; simpl; [reflexivity |].
  destruct (String.eqb_spec (Session._id x) (Session._id s')) as [E | E].
  - assert (H1 : (Session._id s' =? id')%string = false) by now apply String.eqb_neq.
    assert (H2 : (Session._id x =? id')%string = false) by (rewrite E; exact H1).
    now rewrite H1, H2.
  - now rewrite IH.
Qed.

(** C10.  When the update route finds the session, the stored document
    afterwards has [patientId], [patientName], [date] and [time] overwritten
    only by a non-empty patch value (a missing or empty value leaves them, so
    they are never blanked), has [notes], [completed] and [amount] replaced
    whenever the patch value is not [undefined] (so [notes] can become the
    empty string and [completed] false), and keeps every other field; the
    other documents and the patients are untouched. *)
Theorem updateSession_patch_fields (uid id : string) (b : SessionsRoute.Body)
  (st : Store) (s : Session.t) :
  Mongo.findSession st id uid = Some s ->
  exists s' st',
    SessionsRoute.put uid id b st = (Ok 200 s', st')
    /\ Mongo.findSession st' id uid = Some s'
    /\ Session._id s' = Session._id s
    /\ Session.userId s' = Session.userId s
    /\ overwritten_if_truthy (SessionsRoute.b_patientId b) (Session.patientId s) (Session.patientId s')
    /\ overwritten_if_truthy (SessionsRoute.b_patientName b) (Session.patientName s) (Session.patientName s')
    /\ overwritten_if_truthy (SessionsRoute.b_date b) (Session.date s) (Session.date s')
    /\ overwritten_if_truthy (SessionsRoute.b_time b) (Session.time s) (Session.time s')
    /\ applied_if_defined (SessionsRoute.b_notes b) (Session.notes s) (Session.notes s')
    /\ applied_if_defined (SessionsRoute.b_completed b) (Session.completed s) (Session.completed s')
    /\ (SessionsRoute.b_amount b = JS.Undefined -> Session.amount s' = Session.amount s)
    /\ (SessionsRoute.b_amount b = JS.Null -> Session.amount s' = None)
    /\ (forall n, SessionsRoute.b_amount b = JS.Num n -> Session.amount s' = Some n)
    /\ (SessionsRoute.b_notes b = Some "" -> Session.notes s' = "")
    /\ (SessionsRoute.b_completed b = Some false -> Session.completed s' = false)
    /\ patients st' = patients st
    /\ (forall id' uid', id' <> id ->
          Mongo.findSession st' id' uid' = Mongo.findSession st id' uid').
Proof.
  intros Hf. destruct (findSession_some _ _ _ _ Hf) as (_ & Hid & Huid).
  unfold SessionsRoute.put. rewrite Hf.
  eexists. eexists. split; [reflexivity |].
  rewrite update_fields_spec. unfold Mongo.findSession. simpl.
  split; [| split; [reflexivity | split; [reflexivity |]]].
  { apply find_saved with (s := s); auto. }
  split; [apply guarded_field |]. split; [apply guarded_field |].
  split; [apply guarded_field |]. split; [apply guarded_field |].
  split.
  { split; [intros v Hv; now rewrite Hv | intros Hv; now rewrite Hv]. }
  split.
  { split; [intros v Hv; now rewrite Hv | intros Hv; now rewrite Hv]. }
  split; [intros Ha; now rewrite Ha |].
  split; [intros Ha; now rewrite Ha |].
  split; [intros n Ha; now rewrite Ha |].
  split; [intros Hn; now rewrite Hn |].
  split; [intros Hc; now rewrite Hc |].
  split; [reflexivity |].
  intros id' uid' Hne. apply find_other_saved. simpl. congruence.
Qed.

Lemma updateSession_patch_fields_witness :
  let b := SessionsRoute.mkBody None (Some "") (Some "2025-03-11") None (Some "")
             (Some false) JS.Undefined in
  let s := Session.mk "1" "u1" "0" "Asha" "2025-03-10" "14:00" "" false None in
  Mongo.findSession Scenario.st1 "1" "u1" = Some s
  /\ exists s' st',
       SessionsRoute.put "u1" "1" b Scenario.st1 = (Ok 200 s', st')
       /\ Session.date s' = "2025-03-11"
       /\ Session.patientName s' = "Asha".
Proof.
  intros b s.
  assert (H : Mongo.findSession Scenario.st1 "1" "u1" = Some s) by reflexivity.
  split; [exact H |].
  destruct (updateSession_patch_fields "u1" "1" b Scenario.st1 s H)
    as (s' & st' & Hput & _ & _ & _ & _ & Hname & Hdate & _).
  exists s', st'. split; [exact Hput |]. split.
  - apply (proj1 Hdate "2025-03-11"); [reflexivity | discriminate].
  - apply (proj1 (proj2 Hname)). right. reflexivity.
Defined.

(** ** The completed/amount invariant *)

Lemma sessions_patient_ops (o : Op) (st : Store) :
  match o with
  | CreatePatient _ _ _ | UpdatePatient _ _ _ _ | DeletePatient _ _ => True
  | _ => False
  end ->
  sessions (step o st) = sessions st.
Proof.
  destruct o; simpl; try contradiction; intros _.
  - unfold PatientsRoute.post.
    destruct (negb (JS.truthy_opt name) || negb (JS.truthy_opt contactNumber)); simpl; auto.
    match goal with |- context [if ?c then _ else _] => destruct c end; reflexivity.
  - unfold PatientsRoute.put. destruct (Mongo.findPatient st id uid); simpl; auto.
    match goal with |- context [if PatientsRoute.valid ?c then _ else _] =>
      destruct (PatientsRoute.valid c) end; reflexivity.
  - unfold PatientsRoute.delete. destruct (Mongo.findPatient st id uid); reflexivity.
Qed.

Lemma paired_update (b : SessionsRoute.Body) (uid id : string) (s : Session.t) :
  paired (UpdateSession uid id b) = true ->
  amount_only_if_completed s ->
  amount_only_if_completed (SessionsRoute.update_fields b s).
Proof.
  unfold amount_only_if_completed. rewrite update_fields_spec. simpl.
  destruct (SessionsRoute.b_completed b) as [[|] |], (SessionsRoute.b_amount b);
    simpl; intros Hp Hs Ha; try discriminate; auto; congruence.
Qed.

(** C1 (amended).  The server stores [completed] and [amount] independently
    and never re-validates the pair.  In every state reachable through
    requests that themselves keep the two together (a create body with an
    amount only when completed; a patch setting [completed = false] that
    also carries [amount = null]; a patch with a number only when it sets
    [completed = true]), every session with an amount is completed. *)
Theorem amount_implies_completed_when_paired (st : Store) :
  reachable_by paired st ->
  forall s, In s (sessions st) -> amount_only_if_completed s.
Proof.
  intros Hr. induction Hr as [| o st Ho Hr IH]; [intros s [] |].
  destruct o as [uid n c | uid id n c | uid id | uid b | uid id b | uid id];
    try (rewrite sessions_patient_ops by exact I; exact IH).
  - simpl. unfold SessionsRoute.post.
    destruct (negb (JS.truthy_opt (SessionsRoute.b_patientId b))
              || negb (JS.truthy_opt (SessionsRoute.b_patientName b))
              || negb (JS.truthy_opt (SessionsRoute.b_date b))
              || negb (JS.truthy_opt (SessionsRoute.b_time b))); [exact IH |].
    destruct (Mongo.findPatient st (JS.value (SessionsRoute.b_patientId b)) uid);
      [| exact IH].
    simpl. intros s Hs. apply in_app_or in Hs. destruct Hs as [Hs | [Hs | []]]; [auto |].
    subst s. unfold amount_only_if_completed. simpl in *.
    destruct (JS.or_null (SessionsRoute.b_amount b)); [auto | congruence].
  - simpl. unfold SessionsRoute.put.
    destruct (Mongo.findSession st id uid) as [s0 |] eqn:Hf; [| exact IH].
    simpl. intros s Hs. unfold Mongo.saveSession in Hs. apply in_map_iff in Hs.
    destruct Hs as (x & Hx & Hin).
    destruct (Session._id x =? Session._id (SessionsRoute.update_fields b s0))%string.
    + subst s. apply paired_update with (uid := uid) (id := id); [exact Ho |].
      apply IH. now apply findSession_some in Hf.
    + subst s. now apply IH.
  - simpl. unfold SessionsRoute.delete.
    destruct (Mongo.findSession st id uid); [| exact IH].
    simpl. intros s Hs. apply filter_In in Hs. now apply IH.
Qed.

(** C1 (the claim as stated fails).  After creating a patient and then a
    session with [completed = false] and an amount of 500, the stored session
    has an amount and is not completed. *)
Lemma amount_without_completed_reachable :
  ~ (forall st, reachable st -> forall s, In s (sessions st) -> amount_only_if_completed s).
Proof.
  intros H.
  pose (st := step (CreateSession Scenario.u1
                      (Scenario.new_session "2025-03-10" "14:00" false (JS.Num 500)))
                Scenario.st0).
  assert (Hr : reachable st).
  { repeat (apply reach_step; [reflexivity |]). apply reach_empty. }
  specialize (H st Hr (Session.mk "1" "u1" "0" "Asha" "2025-03-10" "14:00" "" false (Some 500))).
  assert (Hin : In (Session.mk "1" "u1" "0" "Asha" "2025-03-10" "14:00" "" false (Some 500))
                   (sessions st)) by (vm_compute; auto).
  specialize (H Hin). unfold amount_only_if_completed in H. simpl in H.
  assert (true = false) by (symmetry; apply H; discriminate). discriminate.
Qed.

Lemma amount_implies_completed_when_paired_witness :
  let st := step (UpdateSession Scenario.u1 "1" (Scenario.patch (Some true) (JS.Num 500)))
              Scenario.st1 in
  let s := Session.mk "1" "u1" "0" "Asha" "2025-03-10" "14:00" "" true (Some 500) in
  reachable_by paired st /\ In s (sessions st) /\ amount_only_if_completed s.
Proof.
  intros st s.
  assert (Hr : reachable_by paired st).
  { repeat (apply reach_step; [reflexivity |]). apply reach_empty. }
  assert (Hin : In s (sessions st)) by (vm_compute; auto).
  split; [exact Hr |]. split; [exact Hin |].
  exact (amount_implies_completed_when_paired st Hr s Hin).
Defined.

(** Reopening from the screen sends [amount: undefined], which is not part
    of the request body: the stored amount stays. *)
Lemma reopen_keeps_amount :
  let st := step (UpdateSession Scenario.u1 "1" (Scenario.patch (Some true) (JS.Num 500)))
              Scenario.st1 in
  let session := Client.mkSession "1" "0" "Asha" "2025-03-10" "14:00" "" true (JS.Num 500) in
  Client.getPastSessions Scenario.u1 st = [session]
  /\ fst (Upcoming.handleToggleComplete Scenario.u1 session false st) = Upcoming.Updated
  /\ sessions (snd (Upcoming.handleToggleComplete Scenario.u1 session false st))
     = [Session.mk "1" "u1" "0" "Asha" "2025-03-10" "14:00" "" false (Some 500)].
Proof. split; [| split]; vm_compute; reflexivity. Qed.

(** ** Reminders *)

Lemma time_components (lt : Z) :
  JSDate.MakeDate (JSDate.Day lt)
    (JSDate.MakeTime (JSDate.HourFromTime lt) (JSDate.MinFromTime lt)
       (JSDate.SecFromTime lt) (JSDate.msFromTime lt)) = lt.
Proof.
  unfold JSDate.MakeDate, JSDate.MakeTime, JSDate.Day, JSDate.HourFromTime,
    JSDate.MinFromTime, JSDate.SecFromTime, JSDate.msFromTime,
    JSDate.msPerDay, JSDate.msPerHour, JSDate.msPerMinute, JSDate.msPerSecond.
  Z.div_mod_to_equations. lia.
Qed.

Lemma setHours_hour_before (host : JSDate.Host) (tv : Z) :
  JSDate.setHours host (Some tv)
    (option_map (fun h => h - 1) (JSDate.getHours host (Some tv)))
  = hour_before host tv.
Proof.
  unfold JSDate.setHours, JSDate.getHours, hour_before. simpl. do 2 f_equal.
  pose proof (time_components (JSDate.LocalTime host tv)) as H.
  unfold JSDate.MakeDate, JSDate.MakeTime,
    JSDate.msPerDay, JSDate.msPerHour, JSDate.msPerMinute, JSDate.msPerSecond in *.
  lia.
Qed.

Lemma parse_in_range (host : JSDate.Host) (s : string) (t : Z) :
  JSDate.parse host s = Some t -> Z.abs t <= 8640000000000000.
Proof.
  unfold JSDate.parse, JSDate.TimeClip.
  destruct (JSDate.Date_parse host s) as [tv |]; [| discriminate].
  destruct (Z.abs tv <=? 8640000000000000) eqn:E; [| discriminate].
  intros H. inversion H; subst. now apply Z.leb_le.
Qed.

(** Where the offset of local time is the same one hour earlier, one hour
    earlier on the local clock is one hour earlier. *)
Lemma hour_before_steady (host : JSDate.Host) (t : Z) :
  Z.abs t <= 8640000000000000 ->
  JSDate.LocalTZA host (JSDate.LocalTime host t - JSDate.msPerHour) false
  = JSDate.LocalTZA host t true ->
  - 8640000000000000 <= t - JSDate.msPerHour ->
  hour_before host t = Some (t - JSDate.msPerHour).
Proof.
  unfold hour_before, JSDate.TimeClip, JSDate.UTC, JSDate.LocalTime, JSDate.msPerHour.
  intros Ht E Hlo. rewrite E.
  replace (t + JSDate.LocalTZA host t true - 3600000 - JSDate.LocalTZA host t true)
    with (t - 3600000) by lia.
  replace (Z.abs (t - 3600000) <=? 8640000000000000) with true; [reflexivity |].
  symmetry. apply Z.leb_le. lia.
Qed.

(** What [scheduleSessionNotification] does once the trigger is known. *)
Lemma schedule_at_trigger (OS : Platform) (host : JSDate.Host) (now : Z)
  (s : Client.Session) (ns : Notifications.Service) (t trigger : Z) :
  combine host (Client.date s) (Client.time s) = Some t ->
  hour_before host t = Some trigger ->
  let r := Notifications.scheduleSessionNotification OS host now s ns in
  (OS = web -> r = (None, ns))
  /\ (OS <> web -> trigger <= now -> r = (None, ns))
  /\ (OS <> web -> now < trigger ->
      r = (Some ("n" ++ JS.string_of_Z (Z.of_nat (Notifications.nextHandle ns)))%string,
           Notifications.mkService
             (Notifications.pending ns
              ++ [Notifications.mkRequest
                    ("n" ++ JS.string_of_Z (Z.of_nat (Notifications.nextHandle ns)))%string
                    (reminder_content s) trigger])
             (S (Notifications.nextHandle ns)))).
Proof.
  intros Hc Ht. cbv zeta. unfold combine in Hc.
  unfold Notifications.scheduleSessionNotification. rewrite Hc.
  rewrite setHours_hour_before, Ht. unfold Notifications.date_le.
  split; [| split].
  - intros ->. reflexivity.
  - intros Hos Hle. apply Z.leb_le in Hle. rewrite Hle. now destruct OS.
  - intros Hos Hlt. apply Z.leb_gt in Hlt. rewrite Hlt.
    unfold Notifications.scheduleNotificationAsync, reminder_content.
    destruct OS; [congruence | |]; reflexivity.
Qed.




(** Where the local clock changes within the hour, the trigger is not one
    hour before the session: on the morning the clock goes from 02:00 to
    03:00, the reminder of a session at 03:30 is asked for 02:30, a local
    time that does not exist and is read as 03:30, the instant of the
    session itself. *)
Lemma reminder_across_clock_change :
  combine ClockChangeScenario.eastern (Client.date ClockChangeScenario.early)
    (Client.time ClockChangeScenario.early) = Some 1741505400000
  /\ hour_before ClockChangeScenario.eastern 1741505400000 = Some 1741505400000
  /\ Notifications.pending
       (snd (Notifications.scheduleSessionNotification ios ClockChangeScenario.eastern
               (Scenario.noon_utc - 2 * JSDate.msPerDay) ClockChangeScenario.early
               Notifications.noService))
     = [Notifications.mkRequest "n0" (reminder_content ClockChangeScenario.early)
          1741505400000].
Proof. split; [| split]; vm_compute; reflexivity. Qed.

Lemma schedule_keeps_pending (OS : Platform) (host : JSDate.Host) (now : Z)
  (s : Client.Session) (ns : Notifications.Service) :
  let r := Notifications.scheduleSessionNotification OS host now s ns in
  (fst r = None /\ snd r = ns)
  \/ (exists h trg,
        fst r = Some h
        /\ Notifications.pending (snd r)
           = (Notifications.pending ns
             ++ [Notifications.mkRequest h (reminder_content s) trg])%list).
Proof.
  cbv zeta. unfold Notifications.scheduleSessionNotification.
  destruct OS; [left; split; reflexivity | |];
    (match goal with |- context [if ?c then _ else _] => destruct c end;
     [left; split; reflexivity |];
     match goal with
     | |- context [Notifications.scheduleNotificationAsync ?c ?d ns] =>
         unfold Notifications.scheduleNotificationAsync; destruct d as [tv |]
     end;
     [right; eexists; eexists; split; reflexivity | left; split; reflexivity]).
Qed.

(** The session a successful submit has saved, and the reminder asked for
    it. *)
Lemma handleSubmit_saved (OS : Platform) (host : JSDate.Host)
  (parseFloat : string -> JS.optnum) (uid : string) (now : Z)
  (patients : list Patient.t) (existing : option Client.Session)
  (f : SessionForm.Form) (st st' : Store) (ns ns' : Notifications.Service)
  (s : Client.Session) (h : option string) :
  SessionForm.handleSubmit OS host parseFloat uid now patients existing f (st, ns)
  = (SessionForm.Saved s h, (st', ns')) ->
  Notifications.scheduleSessionNotification OS host now s ns = (h, ns').
Proof.
  unfold SessionForm.handleSubmit.
  destruct (negb (JS.truthy (SessionForm.patientId f))); [discriminate |].
  assert (K : forall (s0 : Client.Session) (stx : Store),
             (let (h0, ns0) := Notifications.scheduleSessionNotification OS host now s0 ns in
              (SessionForm.Saved s0 h0, (stx, ns0)))
             = (SessionForm.Saved s h, (st', ns')) ->
             Notifications.scheduleSessionNotification OS host now s ns = (h, ns')).
  { intros s0 stx.
    destruct (Notifications.scheduleSessionNotification OS host now s0 ns) as [h0 ns0] eqn:E.
    intros H. inversion H; subst. exact E. }
  destruct existing as [ex |].
  - destruct (Client.updateSession uid _ st) as [[u | e] stx]; [apply K | discriminate].
  - destruct (Client.saveSession uid _ st) as [[newSession | e] stx];
      [apply K | discriminate].
Qed.




(** ** Today's sessions *)

Lemma filter_map_comm {A B : Type} (f : A -> B) (p : B -> bool) (l : list A) :
  filter p (map f l) = map f (filter (fun x => p (f x)) l).
Proof.
  induction l as [| x r IH]; simpl; [reflexivity |].
  destruct (p (f x)); simpl; now rewrite IH.
Qed.

Lemma filter_filter {A : Type} (p q : A -> bool) (l : list A) :
  filter p (filter q l) = filter (fun x => q x && p x) l.
Proof.
  induction l as [| x r IH]; simpl; [reflexivity |].
  destruct (q x); simpl; [destruct (p x) |]; now rewrite IH.
Qed.

Lemma StronglySorted_map {A B : Type} (f : A -> B) (R : B -> B -> Prop) (l : list A) :
  StronglySorted (fun a b => R (f a) (f b)) l -> StronglySorted R (map f l).
Proof.
  intros Hs. induction Hs as [| a l Hs IH Ha]; simpl; constructor; auto.
  apply Forall_forall. intros y Hy. apply in_map_iff in Hy.
  destruct Hy as (x & <- & Hx). rewrite Forall_forall in Ha. now apply Ha.
Qed.

Lemma StronglySorted_within {A : Type} (P : A -> Prop) (R R' : A -> A -> Prop)
  (l : list A) :
  (forall a b, P a -> P b -> R a b -> R' a b) ->
  Forall P l -> StronglySorted R l -> StronglySorted R' l.
Proof.
  intros HR HP Hs. induction Hs as [| a l Hs IH Ha]; constructor.
  - apply IH. now inversion HP.
  - inversion HP as [| a' l' Pa Pl]; subst.
    rewrite Forall_forall in *. intros x Hx. apply HR; auto.
Qed.

Lemma same_date_later_first (a b : Session.t) :
  Session.date a = Session.date b -> key_le b a ->
  String.leb (Session.time b) (Session.time a) = true.
Proof.
  intros Hd [Hlt | [_ Hle]]; [| exact Hle].
  unfold String.ltb in Hlt. rewrite Hd, compare_refl in Hlt. discriminate.
Qed.

Lemma matches_noQuery (uid : string) (s : Session.t) :
  SessionsRoute.matches uid SessionsRoute.noQuery s = owned uid s.
Proof.
  unfold SessionsRoute.matches, owned. simpl. now rewrite !andb_true_r.
Qed.

(** ** Printed numbers read back *)

Lemma Zrange_forallb (f : Z -> bool) (lo : Z) (n : nat) (x : Z) :
  forallb f (Zrange lo n) = true -> lo <= x < lo + Z.of_nat n -> f x = true.
Proof.
  intros H Hx. rewrite forallb_forall in H. apply H.
  unfold Zrange. apply in_map_iff. exists (Z.to_nat (x - lo)). split; [lia |].
  apply in_seq. lia.
Qed.

Lemma year_reads_back_ok (y : Z) : 1000 <= y <= 9999 -> year_reads_back y = true.
Proof.
  intros Hy. apply (Zrange_forallb year_reads_back 1000 (Z.to_nat 9000)); [| lia].
  vm_compute. reflexivity.
Qed.

Lemma field_reads_back_ok (n : Z) : 0 <= n <= 99 -> field_reads_back n = true.
Proof.
  intros Hn. apply (Zrange_forallb field_reads_back 0 (Z.to_nat 100)); [| lia].
  vm_compute. reflexivity.
Qed.

Lemma four_digit_year_unpadded (y : Z) :
  1000 <= y <= 9999 -> JSDate.iso_year y = JS.string_of_Z y.
Proof.
  intros Hy. unfold JSDate.iso_year.
  replace ((0 <=? y) && (y <=? 9999)) with true
    by (symmetry; rewrite andb_true_iff, !Z.leb_le; lia).
  pose proof (year_reads_back_ok y Hy) as Yy. unfold year_reads_back in Yy.
  destruct (JS.string_of_Z y) as [| y1 [| y2 [| y3 [| y4 [| ? ?]]]]]; try discriminate.
  reflexivity.
Qed.

(** While the local calendar day is also the UTC calendar day, and the year
    has four digits, the string [today] is the local date as the form
    stores it. *)
Lemma today_is_local_date (host : JSDate.Host) (now : Z) :
  JSDate.Day (JSDate.LocalTime host now) = JSDate.Day now ->
  1000 <= JSDate.YearFromTime now <= 9999 ->
  Client.today now = SessionForm.formatDateForStorage host (Some now).
Proof.
  intros Hd Hy. unfold Client.today, JSDate.toISOString_date.
  rewrite (four_digit_year_unpadded _ Hy).
  unfold SessionForm.formatDateForStorage, JSDate.getFullYear, JSDate.getMonth,
    JSDate.getDate, option_map, SessionForm.component.
  unfold JSDate.YearFromTime, JSDate.MonthFromTime, JSDate.DateFromTime.
  now rewrite Hd.
Qed.

(** [getTodaySessions] in terms of its own string [today]. *)
Lemma getTodaySessions_by_today (now : Z) (uid : string) (st : Store) :
  let result := Client.getTodaySessions now uid st in
  Permutation result
    (map Client.of_doc
       (filter (fun s => owned uid s && (Session.date s =? Client.today now)%string)
               (sessions st)))
  /\ StronglySorted
       (fun a b => String.leb (Client.time b) (Client.time a) = true) result
  /\ ((forall s, In s (sessions st) -> owned uid s = true ->
                 Session.date s <> Client.today now) -> result = []).
Proof.
  cbv zeta. unfold Client.getTodaySessions, SessionsRoute.get_all, Client.apiCall.
  rewrite (filter_ext _ _ (matches_noQuery uid)).
  rewrite filter_map_comm. simpl.
  set (today := Client.today now).
  set (mine := filter (owned uid) (sessions st)).
  assert (HP : Permutation
                 (filter (fun x => (Session.date x =? today)%string)
                         (Mongo.sort Mongo.desc mine))
                 (filter (fun s => owned uid s && (Session.date s =? today)%string)
                         (sessions st))).
  { unfold mine. rewrite <- filter_filter.
    apply Permutation_filter_compat, sort_perm. }
  split; [now apply Permutation_map |]. split.
  - apply StronglySorted_map. simpl.
    apply StronglySorted_within
      with (P := fun s => Session.date s = today) (R := fun a b => key_le b a).
    + intros a b Ha Hb. apply same_date_later_first. congruence.
    + apply Forall_forall. intros x Hx. apply filter_In in Hx.
      now apply String.eqb_eq.
    + apply StronglySorted_filter, past_sorted.
  - intros Hnone.
    assert (E : filter (fun s => owned uid s && (Session.date s =? today)%string)
                       (sessions st) = []).
    { clear HP mine. revert Hnone. generalize (sessions st). intros l.
      induction l as [| x r IH]; simpl; intros Hnone; [reflexivity |].
      destruct (owned uid x) eqn:Ho; simpl.
      - destruct (String.eqb_spec (Session.date x) today) as [E | E].
        + exfalso. apply (Hnone x); auto.
        + apply IH. intros s Hs. apply Hnone. now right.
      - apply IH. intros s Hs. apply Hnone. now right. }
    rewrite E in HP. apply Permutation_sym, Permutation_nil in HP.
    now rewrite HP.
Qed.

(** C5 (amended).  At an instant at which the local calendar day is also
    the UTC calendar day (and the year has four digits),
    [getTodaySessions] returns exactly those of the owner's sessions whose
    stored [date] is the local date of that instant in its canonical form,
    in any completion state, in descending order of [time] (the order of
    [GET /sessions]); when no session matches, the result is the empty
    list. *)
Theorem listToday_descending (host : JSDate.Host) (now : Z) (uid : string)
  (st : Store) :
  JSDate.Day (JSDate.LocalTime host now) = JSDate.Day now ->
  1000 <= JSDate.YearFromTime now <= 9999 ->
  let today := SessionForm.formatDateForStorage host (Some now) in
  let result := Client.getTodaySessions now uid st in
  Permutation result
    (map Client.of_doc
       (filter (fun s => owned uid s && (Session.date s =? today)%string)
               (sessions st)))
  /\ StronglySorted
       (fun a b => String.leb (Client.time b) (Client.time a) = true) result
  /\ ((forall s, In s (sessions st) -> owned uid s = true ->
                 Session.date s <> today) -> result = []).
Proof.
  intros Hd Hy. cbv zeta. rewrite <- (today_is_local_date host now Hd Hy).
  exact (getTodaySessions_by_today now uid st).
Qed.

Lemma listToday_descending_witness :
  JSDate.Day (JSDate.LocalTime Scenario.utc_minus_5 Scenario.noon_utc)
  = JSDate.Day Scenario.noon_utc
  /\ 1000 <= JSDate.YearFromTime Scenario.noon_utc <= 9999
  /\ SessionForm.formatDateForStorage Scenario.utc_minus_5 (Some Scenario.noon_utc)
     = "2025-03-10"
  /\ StronglySorted
       (fun a b => String.leb (Client.time b) (Client.time a) = true)
       (Client.getTodaySessions Scenario.noon_utc Scenario.u1 TodayScenario.st2).
Proof.
  assert (Hd : JSDate.Day (JSDate.LocalTime Scenario.utc_minus_5 Scenario.noon_utc)
               = JSDate.Day Scenario.noon_utc) by reflexivity.
  assert (Hy : 1000 <= JSDate.YearFromTime Scenario.noon_utc <= 9999)
    by (vm_compute; split; discriminate).
  split; [exact Hd |]. split; [exact Hy |]. split; [vm_compute; reflexivity |].
  exact (proj1 (proj2 (listToday_descending Scenario.utc_minus_5 Scenario.noon_utc
                         Scenario.u1 TodayScenario.st2 Hd Hy))).
Defined.

(** C5 (the claim as stated fails).  At noon UTC on 2025-03-10 on a host
    whose local time is UTC, both sessions of that day are returned with the
    14:00 session before the 09:00 session: the result is not in ascending
    order of [time]. *)
Lemma listToday_not_ascending :
  SessionForm.formatDateForStorage 0 (Some Scenario.noon_utc) = "2025-03-10"
  /\ map Client.time
       (Client.getTodaySessions Scenario.noon_utc Scenario.u1 TodayScenario.st2)
     = ["14:00"; "09:00"]
  /\ ~ Sorted (fun a b => String.leb (Client.time a) (Client.time b) = true)
         (Client.getTodaySessions Scenario.noon_utc Scenario.u1 TodayScenario.st2).
Proof.
  split; [vm_compute; reflexivity |]. split; [vm_compute; reflexivity |].
  intros H.
  assert (E : Client.getTodaySessions Scenario.noon_utc Scenario.u1 TodayScenario.st2
              = [Client.mkSession "1" "0" "Asha" "2025-03-10" "14:00" "" false JS.Null;
                 Client.mkSession "2" "0" "Asha" "2025-03-10" "09:00" "" false JS.Null])
    by (vm_compute; reflexivity).
  rewrite E in H. inversion H as [| a l Hs Hh]; subst.
  inversion Hh as [| b l' Hab]; subst. vm_compute in Hab. discriminate.
Qed.

(** The string [today] is the UTC calendar date.  In the evening of
    2025-03-10 on a host five hours west of UTC it already reads 2025-03-11,
    and the sessions stored under the local date 2025-03-10 are not
    returned. *)
Lemma today_is_utc_date :
  SessionForm.formatDateForStorage Scenario.utc_minus_5 (Some TodayScenario.evening)
  = "2025-03-10"
  /\ Client.today TodayScenario.evening = "2025-03-11"
  /\ Client.getTodaySessions TodayScenario.evening Scenario.u1 TodayScenario.st2 = [].
Proof.
  split; [vm_compute; reflexivity |]. split; vm_compute; reflexivity.
Qed.

(** ** Validation of date and time *)

Lemma truthy_opt_false (x : option string) :
  JS.truthy_opt x = false <-> missing_or_empty x.
Proof.
  unfold missing_or_empty. destruct x as [v |]; simpl.
  - unfold JS.truthy. destruct (String.eqb_spec v ""); simpl; split; intros H.
    + right. congruence.
    + reflexivity.
    + discriminate.
    + destruct H as [H | H]; [discriminate | inversion H; congruence].
  - split; auto.
Qed.

(** C7 (amended).  The create route answers 400 exactly when [patientId],
    [patientName], [date] or [time] is missing or empty, and then stores
    nothing; the format of [date] and [time] is not examined: with the four
    present and the patient found, the session is stored with the two
    strings exactly as sent.  The update route never fails on [date] or
    [time]: when the session is found a non-empty string replaces the stored
    one, as sent, and a missing or empty one leaves it. *)
Theorem date_time_only_required (uid : string) (b : SessionsRoute.Body) (st : Store) :
  (fst (SessionsRoute.post uid b st)
   = Err 400 "Patient ID, patient name, date, and time are required"
   <-> (missing_or_empty (SessionsRoute.b_patientId b)
        \/ missing_or_empty (SessionsRoute.b_patientName b)
        \/ missing_or_empty (SessionsRoute.b_date b)
        \/ missing_or_empty (SessionsRoute.b_time b)))
  /\ (forall status e, fst (SessionsRoute.post uid b st) = Err status e ->
        snd (SessionsRoute.post uid b st) = st)
  /\ (forall pid pname d t p,
        SessionsRoute.b_patientId b = Some pid -> pid <> "" ->
        SessionsRoute.b_patientName b = Some pname -> pname <> "" ->
        SessionsRoute.b_date b = Some d -> d <> "" ->
        SessionsRoute.b_time b = Some t -> t <> "" ->
        Mongo.findPatient st pid uid = Some p ->
        exists s,
          fst (SessionsRoute.post uid b st) = Ok 201 s
          /\ Session.date s = d /\ Session.time s = t
          /\ In s (sessions (snd (SessionsRoute.post uid b st))))
  /\ (forall id s,
        Mongo.findSession st id uid = Some s ->
        exists s',
          fst (SessionsRoute.put uid id b st) = Ok 200 s'
          /\ overwritten_if_truthy (SessionsRoute.b_date b) (Session.date s) (Session.date s')
          /\ overwritten_if_truthy (SessionsRoute.b_time b) (Session.time s) (Session.time s')).
Proof.
  split; [| split; [| split]].
  - unfold SessionsRoute.post.
    rewrite <- !truthy_opt_false.
    destruct (JS.truthy_opt (SessionsRoute.b_patientId b)),
      (JS.truthy_opt (SessionsRoute.b_patientName b)),
      (JS.truthy_opt (SessionsRoute.b_date b)),
      (JS.truthy_opt (SessionsRoute.b_time b)); simpl;
      try (split; [intros _; auto | reflexivity]).
    destruct (Mongo.findPatient st (JS.value (SessionsRoute.b_patientId b)) uid); simpl;
      (split; [discriminate | intros [H | [H | [H | H]]]; discriminate]).
  - intros status e. unfold SessionsRoute.post.
    destruct (negb (JS.truthy_opt (SessionsRoute.b_patientId b))
              || negb (JS.truthy_opt (SessionsRoute.b_patientName b))
              || negb (JS.truthy_opt (SessionsRoute.b_date b))
              || negb (JS.truthy_opt (SessionsRoute.b_time b))); [reflexivity |].
    destruct (Mongo.findPatient st (JS.value (SessionsRoute.b_patientId b)) uid);
      [discriminate | reflexivity].
  - intros pid pname d t p Hpid Npid Hpname Npname Hd Nd Ht Nt Hp.
    unfold SessionsRoute.post. rewrite Hpid, Hpname, Hd, Ht. simpl.
    apply truthy_true in Npid, Npname, Nd, Nt. rewrite Npid, Npname, Nd, Nt. simpl.
    rewrite Hp. simpl. eexists. split; [reflexivity |]. simpl.
    split; [reflexivity |]. split; [reflexivity |].
    apply in_or_app. right. now left.
  - intros id s Hf. unfold SessionsRoute.put. rewrite Hf. simpl.
    eexists. split; [reflexivity |]. rewrite update_fields_spec. simpl.
    split; apply guarded_field.
Qed.

(** C7 (the claim as stated fails).  A create request whose [date] is
    ["next tuesday"] and whose [time] is ["noon"] is answered 201 and the
    session is stored with these two strings; an update request with the same
    strings is answered 200 and stores them too.  Neither string is a date or
    a time of the canonical form. *)
Lemma malformed_date_time_persisted :
  JSDate.parse 0 "next tuesday" = None
  /\ combine 0 "2025-03-10" "noon" = None
  /\ (let r := SessionsRoute.post Scenario.u1
                 (Scenario.new_session "next tuesday" "noon" false JS.Undefined)
                 Scenario.st0 in
      fst r = Ok 201 (Session.mk "1" "u1" "0" "Asha" "next tuesday" "noon" "" false None)
      /\ In (Session.mk "1" "u1" "0" "Asha" "next tuesday" "noon" "" false None)
            (sessions (snd r)))
  /\ (let r := SessionsRoute.put Scenario.u1 "1"
                 (SessionsRoute.mkBody None None (Some "next tuesday") (Some "noon")
                    None None JS.Undefined)
                 Scenario.st1 in
      fst r = Ok 200 (Session.mk "1" "u1" "0" "Asha" "next tuesday" "noon" "" false None)
      /\ In (Session.mk "1" "u1" "0" "Asha" "next tuesday" "noon" "" false None)
            (sessions (snd r))).
Proof.
  split; [reflexivity |]. split; [reflexivity |].
  split; (split; [vm_compute; reflexivity | vm_compute; auto]).
Qed.

(** ** Completing a session from the upcoming screen *)




(** The payment handler of the same screen never has a session to complete. *)
Lemma payment_confirm_without_session (uid : string) (amount : Z) (st : Store) :
  Upcoming.handlePaymentConfirm uid Upcoming.sessionToComplete amount st
  = (Upcoming.Ignored, st).
Proof. reflexivity. Qed.

(** ** Deleting a patient *)

Lemma delete_patient_keeps_sessions (uid id : string) (st : Store) :
  sessions (snd (PatientsRoute.delete uid id st)) = sessions st.
Proof. exact (sessions_patient_ops (DeletePatient uid id) st I). Qed.

Lemma find_after_filter {A : Type} (f : A -> bool) (l : list A) :
  find f (filter (fun x => negb (f x)) l) = None.
Proof.
  induction l as [| x r IH]; simpl; [reflexivity |].
  destruct (f x) eqn:E; simpl; [exact IH | now rewrite E].
Qed.

(** After one's own patient is deleted, the sessions of that patient id are
    answered 404. *)
Lemma listByPatient_after_delete (uid id : string) (st : Store) (p : Patient.t) :
  Mongo.findPatient st id uid = Some p ->
  SessionsRoute.get_patient uid id (snd (PatientsRoute.delete uid id st))
  = Err 404 "Patient not found".
Proof.
  intros Hf. unfold PatientsRoute.delete. rewrite Hf. simpl.
  unfold SessionsRoute.get_patient, Mongo.findPatient. simpl.
  now rewrite (find_after_filter
                 (fun p => (Patient._id p =? id)%string && (Patient.userId p =? uid)%string)).
Qed.

(** C2 (evaluated on the code).  Deleting patient "Asha", who has one
    session, is answered 200 and removes the patient; the sessions collection
    is the same as before, her session is still listed as upcoming, and the
    sessions of her id are answered 404. *)
Lemma deletePatient_leaves_sessions :
  let r := PatientsRoute.delete Scenario.u1 "0" Scenario.st1 in
  let hers := Session.mk "1" "u1" "0" "Asha" "2025-03-10" "14:00" "" false None in
  fst r = Ok 200 tt
  /\ patients (snd r) = []
  /\ sessions Scenario.st1 = [hers]
  /\ sessions (snd r) = [hers]
  /\ SessionsRoute.get_upcoming Scenario.u1 (snd r) = Ok 200 [hers]
  /\ SessionsRoute.get_patient Scenario.u1 "0" (snd r) = Err 404 "Patient not found".
Proof. repeat split; vm_compute; reflexivity. Qed.

(** ** The stored date, there and back *)

(** C8 (evaluated on the code).  On a host five hours west of UTC, the
    local date 2025-03-10 is stored as ["2025-03-10"]; opening the session in
    the form reads that string as midnight UTC, which is 19:00 of the day
    before on that host, and the form stores ["2025-03-09"]. *)
Lemma date_round_trip_west_of_utc :
  let toStorageDate := SessionForm.formatDateForStorage Scenario.utc_minus_5 in
  let parseDate := JSDate.parse Scenario.utc_minus_5 in
  let d := Some Scenario.noon_utc in
  toStorageDate d = "2025-03-10"
  /\ parseDate (toStorageDate d) = Some 1741564800000
  /\ toStorageDate (parseDate (toStorageDate d)) = "2025-03-09"
  /\ toStorageDate (parseDate (toStorageDate d)) <> toStorageDate d.
Proof.
  cbv zeta. split; [vm_compute; reflexivity |]. split; [vm_compute; reflexivity |].
  split; [vm_compute; reflexivity |]. vm_compute. discriminate.
Qed.

(** *** Hosts at or east of UTC *)

Lemma civil_from_days_range (z : Z) :
  1 <= snd (fst (JSDate.civil_from_days z)) <= 12
  /\ 1 <= snd (JSDate.civil_from_days z) <= 31.
Proof.
  unfold JSDate.civil_from_days. cbv zeta.
  set (z' := z + 719468). set (era := z' / 146097). set (doe := z' - era * 146097).
  assert (Hdoe : 0 <= doe <= 146096).
  { subst doe era. pose proof (Z.div_mod z' 146097 ltac:(lia)).
    pose proof (Z.mod_pos_bound z' 146097 ltac:(lia)). lia. }
  clearbody doe.
  set (yoe := (doe - doe / 1460 + doe / 36524 - doe / 146096) / 365).
  assert (Hyoe : 0 <= yoe <= 399) by (subst yoe; Z.div_mod_to_equations; lia).
  set (doy := doe - (365 * yoe + yoe / 4 - yoe / 100)).
  assert (Hdoy : 0 <= doy <= 365) by (subst doy yoe; Z.div_mod_to_equations; lia).
  clearbody doy.
  set (mp := (5 * doy + 2) / 153).
  assert (Hmp : 0 <= mp <= 11) by (subst mp; Z.div_mod_to_equations; lia).
  cbn [fst snd].
  destruct (mp <? 10) eqn:E; [apply Z.ltb_lt in E | apply Z.ltb_ge in E];
    (split; [lia |]); subst mp; Z.div_mod_to_equations; lia.
Qed.

Lemma days_from_civil_inverse (z : Z) :
  JSDate.days_from_civil (fst (fst (JSDate.civil_from_days z)))
    (snd (fst (JSDate.civil_from_days z))) (snd (JSDate.civil_from_days z)) = z.
Proof.
  unfold JSDate.civil_from_days. cbv zeta.
  set (z' := z + 719468). set (era := z' / 146097). set (doe := z' - era * 146097).
  assert (Hz : z = era * 146097 + doe - 719468) by (subst doe z'; lia).
  assert (Hdoe : 0 <= doe <= 146096).
  { subst doe era. pose proof (Z.div_mod z' 146097 ltac:(lia)).
    pose proof (Z.mod_pos_bound z' 146097 ltac:(lia)). lia. }
  clearbody doe era. clear z'. subst z.
  set (yoe := (doe - doe / 1460 + doe / 36524 - doe / 146096) / 365).
  assert (Hyoe : 0 <= yoe <= 399) by (subst yoe; Z.div_mod_to_equations; lia).
  set (doy := doe - (365 * yoe + yoe / 4 - yoe / 100)).
  assert (Hdoy : 0 <= doy <= 365) by (subst doy yoe; Z.div_mod_to_equations; lia).
  assert (Hdoe2 : doe = yoe * 365 + yoe / 4 - yoe / 100 + doy) by (subst doy; lia).
  clearbody doy. clearbody yoe.
  set (mp := (5 * doy + 2) / 153).
  assert (Hmp : 0 <= mp <= 11) by (subst mp; Z.div_mod_to_equations; lia).
  set (d := doy - (153 * mp + 2) / 5 + 1).
  assert (Hdd : doy = (153 * mp + 2) / 5 + d - 1) by (subst d; lia).
  clearbody d. clearbody mp. cbn [fst snd].
  assert (He : (yoe + era * 400) / 400 = era) by (Z.div_mod_to_equations; lia).
  unfold JSDate.days_from_civil.
  destruct (mp <? 10) eqn:E; [apply Z.ltb_lt in E | apply Z.ltb_ge in E].
  - replace (mp + 3 <=? 2) with false by (symmetry; apply Z.leb_gt; lia).
    replace (mp + 3 >? 2) with true by (symmetry; apply Z.gtb_lt; lia).
    replace (mp + 3 - 3) with mp by lia.
    rewrite He. replace (yoe + era * 400 - era * 400) with yoe by lia. lia.
  - replace (mp - 9 <=? 2) with true by (symmetry; apply Z.leb_le; lia).
    replace (mp - 9 >? 2) with false
      by (symmetry; rewrite Z.gtb_ltb; apply Z.ltb_ge; lia).
    replace (mp - 9 + 9) with mp by lia.
    replace (yoe + era * 400 + 1 - 1) with (yoe + era * 400) by lia.
    rewrite He. replace (yoe + era * 400 - era * 400) with yoe by lia. lia.
Qed.

Lemma Day_of_midnight_plus (z o : Z) :
  0 <= o < JSDate.msPerDay -> JSDate.Day (JSDate.MakeDate z 0 + o) = z.
Proof.
  unfold JSDate.Day, JSDate.MakeDate, JSDate.msPerDay.
  intros H. Z.div_mod_to_equations. lia.
Qed.

Lemma days_from_civil_bound (y m d : Z) :
  1000 <= y <= 9999 -> 1 <= m <= 12 -> 1 <= d <= 31 ->
  Z.abs (JSDate.MakeDate (JSDate.days_from_civil y m d) 0) <= 8640000000000000.
Proof.
  intros Hy Hm Hd. unfold JSDate.MakeDate, JSDate.days_from_civil, JSDate.msPerDay.
  cbv zeta.
  destruct (m <=? 2); destruct (m >? 2) eqn:E;
    [apply Z.gtb_lt in E | | apply Z.gtb_lt in E |];
    Z.div_mod_to_equations; lia.
Qed.

(** The stored string of a date whose local year has four digits is an
    instance of the format, and every host reads it as midnight UTC of the
    local calendar day it was printed from. *)
Lemma stored_date_reads_back (host : JSDate.Host) (tv : Z) :
  1000 <= JSDate.YearFromTime (JSDate.LocalTime host tv) <= 9999 ->
  String.length (SessionForm.formatDateForStorage host (Some tv)) = 10%nat
  /\ JSDate.parse host (SessionForm.formatDateForStorage host (Some tv))
     = Some (JSDate.MakeDate (JSDate.Day (JSDate.LocalTime host tv)) 0).
Proof.
  intros Hy.
  set (z := JSDate.Day (JSDate.LocalTime host tv)).
  unfold SessionForm.formatDateForStorage, JSDate.getFullYear, JSDate.getMonth,
    JSDate.getDate, SessionForm.component. simpl.
  unfold JSDate.YearFromTime, JSDate.MonthFromTime, JSDate.DateFromTime in *.
  fold z in Hy |- *.
  destruct (civil_from_days_range z) as [Hm Hd].
  pose proof (days_from_civil_inverse z) as Hinv.
  destruct (JSDate.civil_from_days z) as [[y m] d] eqn:Hc. simpl in *.
  replace (m - 1 + 1) with m by lia.
  pose proof (year_reads_back_ok y Hy) as Yy.
  pose proof (field_reads_back_ok m ltac:(lia)) as Ym.
  pose proof (field_reads_back_ok d ltac:(lia)) as Yd.
  unfold year_reads_back in Yy. unfold field_reads_back in Ym, Yd.
  destruct (JS.string_of_Z y) as [| y1 [| y2 [| y3 [| y4 [| ? ?]]]]]; try discriminate.
  destruct (JS.padStart0 2 (JS.string_of_Z m)) as [| m1 [| m2 [| ? ?]]]; try discriminate.
  destruct (JS.padStart0 2 (JS.string_of_Z d)) as [| d1 [| d2 [| ? ?]]]; try discriminate.
  destruct (JSDate.digits4 y1 y2 y3 y4) as [vy |] eqn:Ey; try discriminate.
  destruct (JSDate.digits2 m1 m2) as [vm |] eqn:Em; try discriminate.
  destruct (JSDate.digits2 d1 d2) as [vd |] eqn:Ed; try discriminate.
  apply Z.eqb_eq in Yy, Ym, Yd. subst vy vm vd.
  split; [reflexivity |].
  assert (Hl : JSDate.legal_date y m d = true).
  { unfold JSDate.legal_date. rewrite Hinv, Hc, !Z.eqb_refl.
    rewrite !andb_true_iff, !Z.leb_le. lia. }
  pose proof (days_from_civil_bound y m d Hy Hm Hd) as Hb. rewrite Hinv in Hb.
  unfold JSDate.parse, JSDate.Date_parse, JSDate.date_time_format, JSDate.date_part,
    JSDate.year, JSDate.two.
  simpl. rewrite Ey, Em. simpl. rewrite Ed. simpl. rewrite Hl, Hinv.
  unfold JSDate.TimeClip. apply Z.leb_le in Hb. now rewrite Hb.
Qed.

(** X19.  For a date whose local year has four digits, the stored string has the
    canonical form and reads back, for any host, as midnight UTC of the
    local calendar day it was printed from. *)
Theorem stored_date_parses (host : JSDate.Host) (tv : Z) :
  1000 <= JSDate.YearFromTime (JSDate.LocalTime host tv) <= 9999 ->
  String.length (SessionForm.formatDateForStorage host (Some tv)) = 10%nat
  /\ JSDate.parse host (SessionForm.formatDateForStorage host (Some tv))
     = Some (JSDate.MakeDate (JSDate.Day (JSDate.LocalTime host tv)) 0).
Proof. exact (stored_date_reads_back host tv). Qed.

(** X20.  On a host whose offset from UTC is constant and not negative, and for
    years of four digits, storing a date, reading the stored string back as the form does
    and storing it again gives the same string. *)
Theorem date_round_trip_not_west (tza tv : Z) :
  0 <= tza < JSDate.msPerDay ->
  1000 <= JSDate.YearFromTime (JSDate.LocalTime tza tv) <= 9999 ->
  SessionForm.formatDateForStorage tza
    (JSDate.parse tza (SessionForm.formatDateForStorage tza (Some tv)))
  = SessionForm.formatDateForStorage tza (Some tv).
Proof.
  intros Htza Hy.
  rewrite (proj2 (stored_date_reads_back tza tv Hy)).
  unfold SessionForm.formatDateForStorage, JSDate.getFullYear, JSDate.getMonth,
    JSDate.getDate, option_map.
  unfold JSDate.YearFromTime, JSDate.MonthFromTime, JSDate.DateFromTime.
  replace (JSDate.Day (JSDate.LocalTime tza
                         (JSDate.MakeDate (JSDate.Day (JSDate.LocalTime tza tv)) 0)))
    with (JSDate.Day (JSDate.LocalTime tza tv)); [reflexivity |].
  symmetry. exact (Day_of_midnight_plus _ tza Htza).
Qed.

Lemma Day_of_midnight_minus (z o : Z) :
  - JSDate.msPerDay <= o < 0 -> JSDate.Day (JSDate.MakeDate z 0 + o) = z - 1.
Proof.
  unfold JSDate.Day, JSDate.MakeDate, JSDate.msPerDay.
  intros H. Z.div_mod_to_equations. lia.
Qed.

Lemma Day_of_day_before (tv o : Z) :
  JSDate.Day (tv - JSDate.msPerDay + o) = JSDate.Day (tv + o) - 1.
Proof.
  unfold JSDate.Day, JSDate.msPerDay. Z.div_mod_to_equations. lia.
Qed.

(** X21.  On a host at a constant offset west of UTC, and for years of four
    digits, the same round trip always gives the string of the day before: each time a stored
    session is opened in the form and saved, its date moves back one day. *)
Theorem date_round_trip_west (tza tv : Z) :
  - JSDate.msPerDay <= tza < 0 ->
  1000 <= JSDate.YearFromTime (JSDate.LocalTime tza tv) <= 9999 ->
  SessionForm.formatDateForStorage tza
    (JSDate.parse tza (SessionForm.formatDateForStorage tza (Some tv)))
  = SessionForm.formatDateForStorage tza (Some (tv - JSDate.msPerDay)).
Proof.
  intros Htza Hy.
  rewrite (proj2 (stored_date_reads_back tza tv Hy)).
  unfold SessionForm.formatDateForStorage, JSDate.getFullYear, JSDate.getMonth,
    JSDate.getDate, option_map.
  unfold JSDate.YearFromTime, JSDate.MonthFromTime, JSDate.DateFromTime.
  replace (JSDate.Day (JSDate.LocalTime tza
                         (JSDate.MakeDate (JSDate.Day (JSDate.LocalTime tza tv)) 0)))
    with (JSDate.Day (JSDate.LocalTime tza tv) - 1).
  - replace (JSDate.Day (JSDate.LocalTime tza (tv - JSDate.msPerDay)))
      with (JSDate.Day (JSDate.LocalTime tza tv) - 1); [reflexivity |].
    symmetry. exact (Day_of_day_before tv tza).
  - symmetry. exact (Day_of_midnight_minus _ tza Htza).
Qed.

(** * Further properties of the code *)

(** ** Object ids are never reused *)

Lemma string_of_Z_inj (a b : Z) : JS.string_of_Z a = JS.string_of_Z b -> a = b.
Proof.
  unfold JS.string_of_Z. intros H. apply DecimalZ.to_int_inj.
  assert (K : forall z, NilZero.int_of_string (NilZero.string_of_int (Z.to_int z))
                        = Some (Z.to_int z)).
  { intros z. apply NilZero.isi; destruct z; simpl; try discriminate;
      intros E; inversion E as [E'];
      exact (DecimalPos.Unsigned.to_uint_nonnil _ E'). }
  pose proof (K a) as Ka. rewrite H, K in Ka. now inversion Ka.
Qed.

Lemma id_below_S (n : nat) (id : string) : id_below n id -> id_below (S n) id.
Proof. intros (k & Hk & E). exists k. split; [lia | exact E]. Qed.

Lemma fresh_not_below (st : Store) : ~ id_below (nextId st) (freshId st).
Proof.
  intros (k & Hk & E). unfold freshId in E. apply string_of_Z_inj in E. lia.
Qed.

Lemma NoDup_map_filter {A B : Type} (g : A -> B) (f : A -> bool) (l : list A) :
  NoDup (map g l) -> NoDup (map g (filter f l)).
Proof.
  induction l as [| x r IH]; simpl; intros H; [constructor |].
  inversion H as [| y l' Hn Hr]; subst.
  destruct (f x); simpl; [| now apply IH].
  constructor; [| now apply IH].
  intros Hin. apply Hn. apply in_map_iff in Hin. destruct Hin as (z & Hz & Hin).
  apply filter_In in Hin. apply in_map_iff. exists z. tauto.
Qed.

Lemma saveSession_ids (doc : Session.t) (l : list Session.t) :
  map Session._id (Mongo.saveSession doc l) = map Session._id l.
Proof.
  unfold Mongo.saveSession. induction l as [| x r IH]; simpl; [reflexivity |].
  rewrite IH. destruct (String.eqb_spec (Session._id x) (Session._id doc)); congruence.
Qed.

Lemma replace_patient_ids (doc : Patient.t) (l : list Patient.t) :
  map Patient._id
    (map (fun p => if (Patient._id p =? Patient._id doc)%string then doc else p) l)
  = map Patient._id l.
Proof.
  induction l as [| x r IH]; simpl; [reflexivity |].
  rewrite IH. destruct (String.eqb_spec (Patient._id x) (Patient._id doc)); congruence.
Qed.

Lemma NoDup_snoc {A : Type} (x : A) (l : list A) :
  NoDup l -> ~ In x l -> NoDup (l ++ [x]).
Proof.
  intros Hl Hx. apply NoDup_rev in Hl.
  rewrite <- (rev_involutive (l ++ [x])). apply NoDup_rev.
  rewrite rev_app_distr. simpl. constructor; [| exact Hl].
  intros Hin. apply Hx. now apply in_rev.
Qed.

Lemma step_unique_ids (o : Op) (st : Store) : unique_ids st -> unique_ids (step o st).
Proof.
  unfold unique_ids. intros (Hs & Hp & Is & Ip).
  assert (Fs : ~ In (freshId st) (map Session._id (sessions st))).
  { intros Hin. apply in_map_iff in Hin. destruct Hin as (x & Hx & Hin).
    apply (fresh_not_below st). rewrite <- Hx. now apply Is. }
  assert (Fp : ~ In (freshId st) (map Patient._id (patients st))).
  { intros Hin. apply in_map_iff in Hin. destruct Hin as (x & Hx & Hin).
    apply (fresh_not_below st). rewrite <- Hx. now apply Ip. }
  destruct o as [uid n c | uid id n c | uid id | uid b | uid id b | uid id]; simpl.
  - unfold PatientsRoute.post.
    destruct (negb (JS.truthy_opt n) || negb (JS.truthy_opt c)); [now repeat split |].
    match goal with |- context [if PatientsRoute.valid ?p then _ else _] =>
      destruct (PatientsRoute.valid p) end; [| now repeat split].
    simpl. split; [exact Hs |]. split.
    + rewrite map_app. simpl. now apply NoDup_snoc.
    + split.
      * intros s Hin. now apply id_below_S, Is.
      * intros p Hin. apply in_app_or in Hin. destruct Hin as [Hin | [<- | []]].
        -- now apply id_below_S, Ip.
        -- simpl. exists (nextId st). split; [lia | reflexivity].
  - unfold PatientsRoute.put.
    destruct (Mongo.findPatient st id uid) as [p0 |]; [| now repeat split].
    match goal with |- context [if PatientsRoute.valid ?p then _ else _] =>
      destruct (PatientsRoute.valid p) eqn:Hv; set (p1 := p) in * end;
      [| now repeat split].
    simpl. pose proof (replace_patient_ids p1 (patients st)) as E.
    split; [exact Hs |]. split; [now rewrite E |]. split; [exact Is |].
    intros p Hin.
    assert (Hid : In (Patient._id p) (map Patient._id (patients st))).
    { rewrite <- E. now apply in_map. }
    apply in_map_iff in Hid. destruct Hid as (x & Hx & Hin'). rewrite <- Hx. now apply Ip.
  - unfold PatientsRoute.delete.
    destruct (Mongo.findPatient st id uid); [| now repeat split].
    simpl. split; [exact Hs |]. split; [now apply NoDup_map_filter |].
    split; [exact Is |]. intros p Hin. apply filter_In in Hin. now apply Ip.
  - unfold SessionsRoute.post.
    destruct (negb (JS.truthy_opt (SessionsRoute.b_patientId b))
              || negb (JS.truthy_opt (SessionsRoute.b_patientName b))
              || negb (JS.truthy_opt (SessionsRoute.b_date b))
              || negb (JS.truthy_opt (SessionsRoute.b_time b))); [now repeat split |].
    destruct (Mongo.findPatient st (JS.value (SessionsRoute.b_patientId b)) uid);
      [| now repeat split].
    simpl. split; [rewrite map_app; simpl; now apply NoDup_snoc |].
    split; [exact Hp |]. split.
    + intros s Hin. apply in_app_or in Hin. destruct Hin as [Hin | [<- | []]].
      * now apply id_below_S, Is.
      * simpl. exists (nextId st). split; [lia | reflexivity].
    + intros p Hin. now apply id_below_S, Ip.
  - unfold SessionsRoute.put.
    destruct (Mongo.findSession st id uid) as [s0 |]; [| now repeat split].
    simpl. split; [now rewrite saveSession_ids |]. split; [exact Hp |].
    split; [| exact Ip]. intros s Hin.
    assert (Hid : In (Session._id s) (map Session._id (sessions st))).
    { rewrite <- (saveSession_ids (SessionsRoute.update_fields b s0)). now apply in_map. }
    apply in_map_iff in Hid. destruct Hid as (x & Hx & Hin'). rewrite <- Hx. now apply Is.
  - unfold SessionsRoute.delete.
    destruct (Mongo.findSession st id uid); [| now repeat split].
    simpl. split; [now apply NoDup_map_filter |]. split; [exact Hp |].
    split; [| exact Ip]. intros s Hin. apply filter_In in Hin. now apply Is.
Qed.

Lemma reachable_unique_ids (allowed : Op -> bool) (st : Store) :
  reachable_by allowed st -> unique_ids st.
Proof.
  intros H. induction H as [| o st _ _ IH].
  - repeat split; simpl; try constructor; intros ? [].
  - now apply step_unique_ids.
Qed.

(** ** Looking a session up by id *)

Lemma find_none_by_id (l : list Session.t) (id uid : string) :
  ~ In id (map Session._id l) ->
  find (fun x => (Session._id x =? id)%string && (Session.userId x =? uid)%string) l = None.
Proof.
  induction l as [| x r IH]; simpl; intros H; [reflexivity |].
  destruct (String.eqb_spec (Session._id x) id) as [E | E]; simpl.
  - exfalso. apply H. now left.
  - apply IH. intros Hin. apply H. now right.
Qed.

Lemma find_by_id (l : list Session.t) (s : Session.t) (uid : string) :
  NoDup (map Session._id l) -> In s l ->
  find (fun x => (Session._id x =? Session._id s)%string
                 && (Session.userId x =? uid)%string) l
  = if (Session.userId s =? uid)%string then Some s else None.
Proof.
  induction l as [| x r IH]; simpl; intros Hn Hin; [contradiction |].
  inversion Hn as [| y l' Hx Hr]; subst.
  destruct Hin as [-> | Hin].
  - rewrite String.eqb_refl. simpl.
    destruct (Session.userId s =? uid)%string; [reflexivity |].
    now apply find_none_by_id.
  - assert (E : (Session._id x =? Session._id s)%string = false).
    { apply String.eqb_neq. intros E. apply Hx. rewrite E. now apply in_map. }
    rewrite E. simpl. now apply IH.
Qed.

Lemma findSession_owned (st : Store) (s : Session.t) (uid : string) :
  unique_ids st -> In s (sessions st) ->
  Mongo.findSession st (Session._id s) uid
  = if (Session.userId s =? uid)%string then Some s else None.
Proof.
  intros (Hs & _) Hin. unfold Mongo.findSession. now apply find_by_id.
Qed.

Lemma post_outcome (uid : string) (b : SessionsRoute.Body) (st : Store) :
  (exists e code, SessionsRoute.post uid b st = (Err code e, st))
  \/ (exists p,
        Mongo.findPatient st (JS.value (SessionsRoute.b_patientId b)) uid = Some p
        /\ JS.truthy_opt (SessionsRoute.b_patientId b) = true
        /\ JS.truthy_opt (SessionsRoute.b_patientName b) = true
        /\ JS.truthy_opt (SessionsRoute.b_date b) = true
        /\ JS.truthy_opt (SessionsRoute.b_time b) = true
        /\ SessionsRoute.post uid b st
           = (Ok 201
                (Session.mk (freshId st) uid
                   (JS.value (SessionsRoute.b_patientId b))
                   (JS.value (SessionsRoute.b_patientName b))
                   (JS.value (SessionsRoute.b_date b))
                   (JS.value (SessionsRoute.b_time b))
                   (JS.or_empty (SessionsRoute.b_notes b))
                   (JS.or_false (SessionsRoute.b_completed b))
                   (JS.or_null (SessionsRoute.b_amount b))),
              mkStore (patients st)
                (sessions st
                 ++ [Session.mk (freshId st) uid
                       (JS.value (SessionsRoute.b_patientId b))
                       (JS.value (SessionsRoute.b_patientName b))
                       (JS.value (SessionsRoute.b_date b))
                       (JS.value (SessionsRoute.b_time b))
                       (JS.or_empty (SessionsRoute.b_notes b))
                       (JS.or_false (SessionsRoute.b_completed b))
                       (JS.or_null (SessionsRoute.b_amount b))])
                (S (nextId st)))).
Proof.
  unfold SessionsRoute.post.
  destruct (JS.truthy_opt (SessionsRoute.b_patientId b)),
    (JS.truthy_opt (SessionsRoute.b_patientName b)),
    (JS.truthy_opt (SessionsRoute.b_date b)),
    (JS.truthy_opt (SessionsRoute.b_time b)); simpl;
    try (left; eexists; eexists; reflexivity).
  destruct (Mongo.findPatient st (JS.value (SessionsRoute.b_patientId b)) uid) as [p |];
    [| left; eexists; eexists; reflexivity].
  right. exists p. repeat split; reflexivity.
Qed.

Lemma findPatient_some (st : Store) (id uid : string) (p : Patient.t) :
  Mongo.findPatient st id uid = Some p ->
  In p (patients st) /\ Patient._id p = id /\ Patient.userId p = uid.
Proof.
  unfold Mongo.findPatient. intros H. apply find_some in H.
  destruct H as [Hin H]. apply andb_prop in H. destruct H as [H1 H2].
  apply String.eqb_eq in H1, H2. auto.
Qed.

(** ** Creating a session and reading it back *)

(** X1.  After a successful create request in a reachable state, the session is
    stored under the caller's id for a patient of the caller, nothing else
    changes, the same user reads back exactly the stored session by its id,
    and every other user is answered 404. *)
Theorem create_then_get (uid : string) (b : SessionsRoute.Body) (st st' : Store)
  (s : Session.t) (code : Z) :
  reachable st ->
  SessionsRoute.post uid b st = (Ok code s, st') ->
  code = 201
  /\ Session.userId s = uid
  /\ (exists p, In p (patients st) /\ Patient._id p = Session.patientId s
                /\ Patient.userId p = uid)
  /\ sessions st' = (sessions st ++ [s])%list
  /\ patients st' = patients st
  /\ SessionsRoute.get_one uid (Session._id s) st' = Ok 200 s
  /\ (forall uid', uid' <> uid ->
        SessionsRoute.get_one uid' (Session._id s) st' = Err 404 "Session not found").
Proof.
  intros Hr Hpost.
  assert (Hu : unique_ids st') .
  { replace st' with (step (CreateSession uid b) st) by (simpl; now rewrite Hpost).
    apply step_unique_ids. exact (reachable_unique_ids _ _ Hr). }
  destruct (post_outcome uid b st) as [(e & c & He) | (p & Hp & Tp & _ & _ & _ & He)];
    rewrite He in Hpost; inversion Hpost; subst; clear Hpost.
  apply findPatient_some in Hp. destruct Hp as (Hin & Hid & Huid).
  split; [reflexivity |]. split; [reflexivity |].
  split; [exists p; simpl; auto |]. split; [reflexivity |]. split; [reflexivity |].
  set (s := Session.mk _ _ _ _ _ _ _ _ _) in *.
  assert (Hs : In s (sessions (mkStore (patients st) (sessions st ++ [s])%list
                                 (S (nextId st)))))
    by (simpl; apply in_or_app; right; now left).
  unfold SessionsRoute.get_one. split.
  - rewrite (findSession_owned _ s uid Hu Hs). simpl. now rewrite String.eqb_refl.
  - intros uid' Hne. rewrite (findSession_owned _ s uid' Hu Hs). simpl.
    apply not_eq_sym in Hne. apply String.eqb_neq in Hne. now rewrite Hne.
Qed.

Lemma create_then_get_witness :
  let b := Scenario.new_session "2025-03-10" "14:00" false JS.Undefined in
  let s := Session.mk "1" "u1" "0" "Asha" "2025-03-10" "14:00" "" false None in
  reachable Scenario.st0
  /\ SessionsRoute.post Scenario.u1 b Scenario.st0 = (Ok 201 s, Scenario.st1)
  /\ SessionsRoute.get_one Scenario.u1 "1" Scenario.st1 = Ok 200 s.
Proof.
  intros b s.
  assert (Hr : reachable Scenario.st0).
  { repeat (apply reach_step; [reflexivity |]). apply reach_empty. }
  assert (Hp : SessionsRoute.post Scenario.u1 b Scenario.st0 = (Ok 201 s, Scenario.st1))
    by reflexivity.
  split; [exact Hr |]. split; [exact Hp |].
  exact (proj1 (proj2 (proj2 (proj2 (proj2 (proj2
           (create_then_get Scenario.u1 b Scenario.st0 Scenario.st1 s 201 Hr Hp))))))).
Defined.

(** ** Each user sees and changes only their own sessions *)

Lemma sorted_filtered_In {A : Type} (le : A -> A -> bool) (f : A -> bool)
  (l : list A) (x : A) :
  In x (Mongo.sort le (filter f l)) <-> In x l /\ f x = true.
Proof.
  split.
  - intros H. apply (Permutation_in _ (sort_perm le (filter f l))) in H.
    now apply filter_In.
  - intros H. apply (Permutation_in _ (Permutation_sym (sort_perm le (filter f l)))).
    now apply filter_In.
Qed.

(** X2.  Whatever the query, the patient id or the session id asked for, a read
    route only ever answers with stored sessions of the caller. *)
Theorem reads_are_owner_scoped (uid : string) (st : Store) (s : Session.t) :
  (forall q, In s (listed (SessionsRoute.get_all uid q st)) ->
             In s (sessions st) /\ Session.userId s = uid)
  /\ (forall pid, In s (listed (SessionsRoute.get_patient uid pid st)) ->
                  In s (sessions st) /\ Session.userId s = uid
                  /\ Session.patientId s = pid)
  /\ (In s (listed (SessionsRoute.get_past uid st)) ->
      In s (sessions st) /\ Session.userId s = uid)
  /\ (In s (listed (SessionsRoute.get_upcoming uid st)) ->
      In s (sessions st) /\ Session.userId s = uid)
  /\ (forall id code, SessionsRoute.get_one uid id st = Ok code s ->
                      In s (sessions st) /\ Session.userId s = uid
                      /\ Session._id s = id).
Proof.
  split; [| split; [| split; [| split]]].
  - intros q H. simpl in H. apply sorted_filtered_In in H. destruct H as [Hin Hm].
    split; [exact Hin |]. unfold SessionsRoute.matches in Hm.
    repeat (apply andb_prop in Hm; destruct Hm as [Hm _]). now apply String.eqb_eq.
  - intros pid H. unfold SessionsRoute.get_patient in H.
    destruct (Mongo.findPatient st pid uid); [| destruct H].
    simpl in H. apply sorted_filtered_In in H. destruct H as [Hin Hm].
    apply andb_prop in Hm. destruct Hm as [H1 H2].
    apply String.eqb_eq in H1, H2. auto.
  - intros H. simpl in H. apply sorted_filtered_In in H. destruct H as [Hin Hm].
    apply andb_prop in Hm. destruct Hm as [H1 _]. apply String.eqb_eq in H1. auto.
  - intros H. simpl in H. apply sorted_filtered_In in H. destruct H as [Hin Hm].
    apply andb_prop in Hm. destruct Hm as [H1 _]. apply String.eqb_eq in H1. auto.
  - intros id code H. unfold SessionsRoute.get_one in H.
    destruct (Mongo.findSession st id uid) as [x |] eqn:Hf; [| discriminate].
    inversion H; subst. apply findSession_some in Hf. tauto.
Qed.

Lemma findSession_absent (st : Store) (id uid : string) :
  ~ In id (map Session._id (sessions st)) -> Mongo.findSession st id uid = None.
Proof. intros H. unfold Mongo.findSession. now apply find_none_by_id. Qed.

(** X3.  In a reachable state, reading, updating or deleting a session that
    belongs to another user is answered 404 "Session not found", the answer
    given for a session that has been deleted, and the database is left as
    it was. *)
Theorem not_yours_is_not_found (uid : string) (b : SessionsRoute.Body) (st : Store)
  (s : Session.t) :
  reachable st ->
  In s (sessions st) ->
  Session.userId s <> uid ->
  SessionsRoute.get_one uid (Session._id s) st = Err 404 "Session not found"
  /\ SessionsRoute.put uid (Session._id s) b st = (Err 404 "Session not found", st)
  /\ SessionsRoute.delete uid (Session._id s) st = (Err 404 "Session not found", st).
Proof.
  intros Hr Hin Hne.
  assert (Hf : Mongo.findSession st (Session._id s) uid = None).
  { rewrite (findSession_owned st s uid (reachable_unique_ids _ _ Hr) Hin).
    apply String.eqb_neq in Hne. now rewrite Hne. }
  unfold SessionsRoute.get_one, SessionsRoute.put, SessionsRoute.delete.
  rewrite Hf. auto.
Qed.

Lemma not_yours_is_not_found_witness :
  let b := Scenario.patch (Some true) (JS.Num 500) in
  let s := Session.mk "1" "u1" "0" "Asha" "2025-03-10" "14:00" "" false None in
  reachable Scenario.st1
  /\ In s (sessions Scenario.st1)
  /\ Session.userId s <> "u2"
  /\ SessionsRoute.put "u2" "1" b Scenario.st1
     = (Err 404 "Session not found", Scenario.st1).
Proof.
  intros b s.
  assert (Hr : reachable Scenario.st1).
  { repeat (apply reach_step; [reflexivity |]). apply reach_empty. }
  assert (Hin : In s (sessions Scenario.st1)) by (vm_compute; auto).
  assert (Hne : Session.userId s <> "u2") by discriminate.
  split; [exact Hr |]. split; [exact Hin |]. split; [exact Hne |].
  exact (proj1 (proj2 (not_yours_is_not_found "u2" b Scenario.st1 s Hr Hin Hne))).
Defined.

Lemma NoDup_map_inj {A B : Type} (g : A -> B) (l : list A) (x y : A) :
  NoDup (map g l) -> In x l -> In y l -> g x = g y -> x = y.
Proof.
  induction l as [| z r IH]; simpl; intros Hn Hx Hy E; [contradiction |].
  inversion Hn as [| w l' Hz Hr]; subst.
  destruct Hx as [-> | Hx], Hy as [-> | Hy]; auto.
  - exfalso. apply Hz. rewrite E. now apply in_map.
  - exfalso. apply Hz. rewrite <- E. now apply in_map.
Qed.

Lemma filter_map_fixed {A : Type} (P : A -> bool) (f : A -> A) (l : list A) :
  (forall x, In x l -> P (f x) = P x /\ (P x = true -> f x = x)) ->
  filter P (map f l) = filter P l.
Proof.
  induction l as [| x r IH]; simpl; intros H; [reflexivity |].
  destruct (H x (or_introl eq_refl)) as [H1 H2]. rewrite H1.
  rewrite IH by (intros y Hy; apply H; now right).
  destruct (P x) eqn:E; [now rewrite H2 | reflexivity].
Qed.

Lemma filter_within {A : Type} (P Q : A -> bool) (l : list A) :
  (forall x, In x l -> P x = true -> Q x = true) ->
  filter P (filter Q l) = filter P l.
Proof.
  induction l as [| x r IH]; simpl; intros H; [reflexivity |].
  assert (Hr : forall y, In y r -> P y = true -> Q y = true)
    by (intros y Hy; apply H; now right).
  destruct (Q x) eqn:E; simpl.
  - now rewrite IH.
  - rewrite IH by exact Hr. destruct (P x) eqn:Px; [| reflexivity].
    rewrite (H x (or_introl eq_refl) Px) in E. discriminate.
Qed.

Lemma filter_snoc_out {A : Type} (P : A -> bool) (l : list A) (x : A) :
  P x = false -> filter P (l ++ [x]) = filter P l.
Proof.
  intros H. rewrite filter_app. simpl. rewrite H. apply app_nil_r.
Qed.

Lemma update_fields_id (b : SessionsRoute.Body) (s : Session.t) :
  Session._id (SessionsRoute.update_fields b s) = Session._id s
  /\ Session.userId (SessionsRoute.update_fields b s) = Session.userId s.
Proof. rewrite update_fields_spec. split; reflexivity. Qed.

Lemma patients_session_ops (o : Op) (st : Store) :
  match o with
  | CreateSession _ _ | UpdateSession _ _ _ | DeleteSession _ _ => True
  | _ => False
  end ->
  patients (step o st) = patients st.
Proof.
  destruct o; simpl; try contradiction; intros _.
  - destruct (post_outcome uid b st) as [(e & c & He) | (p & _ & _ & _ & _ & _ & He)];
      now rewrite He.
  - unfold SessionsRoute.put. now destruct (Mongo.findSession st id uid).
  - unfold SessionsRoute.delete. now destruct (Mongo.findSession st id uid).
Qed.

(** X4.  In a reachable state, no request made as one user changes, adds or
    removes a session or a patient that belongs to another user. *)
Theorem requests_leave_others_alone (uid : string) (o : Op) (st : Store) :
  reachable st ->
  issued_by uid o ->
  filter (not_owned_by uid) (sessions (step o st))
  = filter (not_owned_by uid) (sessions st)
  /\ filter (patient_not_owned_by uid) (patients (step o st))
     = filter (patient_not_owned_by uid) (patients st).
Proof.
  intros Hr Hi. destruct (reachable_unique_ids _ _ Hr) as (Hs & Hp & _ & _).
  destruct o as [u n c | u id n c | u id | u b | u id b | u id];
    simpl in Hi; subst u.
  - split; [now rewrite sessions_patient_ops |].
    simpl. unfold PatientsRoute.post.
    destruct (negb (JS.truthy_opt n) || negb (JS.truthy_opt c)); [reflexivity |].
    match goal with |- context [if PatientsRoute.valid ?p then _ else _] =>
      destruct (PatientsRoute.valid p) end; [| reflexivity].
    simpl. apply filter_snoc_out. unfold patient_not_owned_by. simpl.
    now rewrite String.eqb_refl.
  - split; [now rewrite sessions_patient_ops |].
    simpl. unfold PatientsRoute.put.
    destruct (Mongo.findPatient st id uid) as [p0 |] eqn:Hf; [| reflexivity].
    apply findPatient_some in Hf. destruct Hf as (Hin & Hid & Huid).
    match goal with |- context [if PatientsRoute.valid ?p then _ else _] =>
      set (p1 := p); destruct (PatientsRoute.valid p1) end; [| reflexivity].
    assert (E1 : Patient._id p1 = Patient._id p0 /\ Patient.userId p1 = uid).
    { subst p1. destruct (JS.truthy_opt n), (JS.truthy_opt c); simpl; auto. }
    destruct E1 as [E1 E2].
    simpl. apply filter_map_fixed. intros x Hx.
    destruct (String.eqb_spec (Patient._id x) (Patient._id p1)) as [E | E].
    + assert (x = p0) by (apply (NoDup_map_inj Patient._id (patients st)); congruence).
      subst x. unfold patient_not_owned_by. rewrite E2, Huid, String.eqb_refl.
      split; [reflexivity | discriminate].
    + split; reflexivity.
  - split; [now rewrite sessions_patient_ops |].
    simpl. unfold PatientsRoute.delete.
    destruct (Mongo.findPatient st id uid); [| reflexivity].
    simpl. apply filter_within. intros x _ Hx. unfold patient_not_owned_by in Hx.
    apply negb_true_iff in Hx. rewrite Hx. now rewrite andb_false_r.
  - split; [| now rewrite patients_session_ops].
    simpl.
    destruct (post_outcome uid b st) as [(e & c & He) | (p & _ & _ & _ & _ & _ & He)];
      rewrite He; [reflexivity |].
    simpl. apply filter_snoc_out. unfold not_owned_by. simpl.
    now rewrite String.eqb_refl.
  - split; [| now rewrite patients_session_ops].
    simpl. unfold SessionsRoute.put.
    destruct (Mongo.findSession st id uid) as [s0 |] eqn:Hf; [| reflexivity].
    apply findSession_some in Hf. destruct Hf as (Hin & Hid & Huid).
    destruct (update_fields_id b s0) as [E1 E2].
    simpl. unfold Mongo.saveSession. apply filter_map_fixed. intros x Hx.
    destruct (String.eqb_spec (Session._id x)
                (Session._id (SessionsRoute.update_fields b s0))) as [E | E].
    + assert (x = s0) by (apply (NoDup_map_inj Session._id (sessions st)); congruence).
      subst x. unfold not_owned_by. rewrite E2, Huid, String.eqb_refl.
      split; [reflexivity | discriminate].
    + split; reflexivity.
  - split; [| now rewrite patients_session_ops].
    simpl. unfold SessionsRoute.delete.
    destruct (Mongo.findSession st id uid) as [s0 |] eqn:Hf; [| reflexivity].
    apply findSession_some in Hf. destruct Hf as (Hin & Hid & Huid).
    simpl. apply filter_within. intros x Hx Hn.
    apply negb_true_iff, String.eqb_neq. intros E.
    assert (x = s0) by (apply (NoDup_map_inj Session._id (sessions st)); congruence).
    subst x. unfold not_owned_by in Hn. rewrite Huid, String.eqb_refl in Hn. discriminate.
Qed.

Lemma requests_leave_others_alone_witness :
  let o := DeleteSession "u2" "1" in
  reachable Scenario.st1 /\ issued_by "u2" o
  /\ filter (not_owned_by "u2") (sessions (step o Scenario.st1))
     = filter (not_owned_by "u2") (sessions Scenario.st1).
Proof.
  intros o.
  assert (Hr : reachable Scenario.st1).
  { repeat (apply reach_step; [reflexivity |]). apply reach_empty. }
  assert (Hi : issued_by "u2" o) by reflexivity.
  split; [exact Hr |]. split; [exact Hi |].
  exact (proj1 (requests_leave_others_alone "u2" o Scenario.st1 Hr Hi)).
Defined.

(** ** Deleting a session *)

Lemma remove_by_id (l : list Session.t) (s : Session.t) :
  NoDup (map Session._id l) -> In s l ->
  Permutation (s :: filter (fun x => negb (Session._id x =? Session._id s)%string) l) l.
Proof.
  induction l as [| x r IH]; simpl; intros Hn Hin; [contradiction |].
  inversion Hn as [| y l' Hx Hr]; subst.
  destruct Hin as [-> | Hin].
  - rewrite String.eqb_refl. simpl. apply perm_skip.
    rewrite forallb_filter_id; [apply Permutation_refl |].
    apply forallb_forall. intros y Hy. apply negb_true_iff, String.eqb_neq.
    intros E. apply Hx. rewrite <- E. now apply in_map.
  - assert (E : (Session._id x =? Session._id s)%string = false).
    { apply String.eqb_neq. intros E. apply Hx. rewrite E. now apply in_map. }
    rewrite E. simpl. eapply perm_trans; [apply perm_swap |]. apply perm_skip. now apply IH.
Qed.

(** X5.  Deleting one's own session in a reachable state is answered 200 and
    removes that session and nothing else; afterwards reading it and
    deleting it again are both answered 404.  The handler of the upcoming
    screen reports the same outcome. *)
Theorem delete_removes_exactly_one (uid id : string) (st : Store) (s : Session.t) :
  reachable st ->
  Mongo.findSession st id uid = Some s ->
  exists st',
    SessionsRoute.delete uid id st = (Ok 200 tt, st')
    /\ Upcoming.handleDeleteSession uid id st = (Upcoming.Updated, st')
    /\ Permutation (s :: sessions st') (sessions st)
    /\ patients st' = patients st
    /\ SessionsRoute.get_one uid id st' = Err 404 "Session not found"
    /\ SessionsRoute.delete uid id st' = (Err 404 "Session not found", st').
Proof.
  intros Hr Hf. destruct (reachable_unique_ids _ _ Hr) as (Hs & _).
  destruct (findSession_some _ _ _ _ Hf) as (Hin & Hid & Huid).
  unfold Upcoming.handleDeleteSession, Client.deleteSession, SessionsRoute.delete.
  rewrite Hf. simpl. eexists. split; [reflexivity |]. split; [reflexivity |].
  split; [subst id; now apply remove_by_id |]. split; [reflexivity |].
  assert (Hnone : Mongo.findSession
                    (mkStore (patients st)
                       (filter (fun x => negb (Session._id x =? id)%string) (sessions st))
                       (nextId st)) id uid = None).
  { apply findSession_absent. simpl. intros H. apply in_map_iff in H.
    destruct H as (x & Hx & H). apply filter_In in H. destruct H as [_ H].
    apply negb_true_iff, String.eqb_neq in H. contradiction. }
  unfold SessionsRoute.get_one. rewrite Hnone. auto.
Qed.

Lemma delete_removes_exactly_one_witness :
  let s := Session.mk "1" "u1" "0" "Asha" "2025-03-10" "14:00" "" false None in
  reachable Scenario.st1
  /\ Mongo.findSession Scenario.st1 "1" "u1" = Some s
  /\ exists st',
       SessionsRoute.delete "u1" "1" Scenario.st1 = (Ok 200 tt, st')
       /\ SessionsRoute.get_one "u1" "1" st' = Err 404 "Session not found".
Proof.
  intros s.
  assert (Hr : reachable Scenario.st1).
  { repeat (apply reach_step; [reflexivity |]). apply reach_empty. }
  assert (Hf : Mongo.findSession Scenario.st1 "1" "u1" = Some s) by reflexivity.
  split; [exact Hr |]. split; [exact Hf |].
  destruct (delete_removes_exactly_one "u1" "1" Scenario.st1 s Hr Hf)
    as (st' & H1 & _ & _ & _ & H2 & _).
  exists st'. split; [exact H1 | exact H2].
Defined.

(** ** The filters of [GET /sessions] *)

Lemma matches_passes (uid : string) (q : SessionsRoute.Query) (s : Session.t) :
  SessionsRoute.matches uid q s = true <-> passes uid q s.
Proof.
  unfold SessionsRoute.matches, passes.
  destruct q as [qp qs qe qc]. simpl.
  rewrite !andb_true_iff, String.eqb_eq.
  assert (G : forall (x : option string) (t : bool),
             (if JS.truthy_opt x then t else true) = true
             <-> (forall v, x = Some v -> v <> "" -> t = true)).
  { intros x t. destruct x as [v |]; simpl.
    - destruct (JS.truthy v) eqn:Hv.
      + split; [auto |]. intros H. apply (H v eq_refl). now apply truthy_true.
      + split; [| reflexivity]. intros _ w Hw Hne. inversion Hw; subst.
        apply truthy_true in Hne. congruence.
    - split; [intros _ v Hv; discriminate | reflexivity]. }
  assert (Gp : (if JS.truthy_opt qp then (Session.patientId s =? JS.value qp)%string
                else true) = true
               <-> (forall p, qp = Some p -> p <> "" -> Session.patientId s = p)).
  { rewrite G. split; intros H v Hv Hne.
    - specialize (H v Hv Hne). subst qp. simpl in H. now apply String.eqb_eq.
    - specialize (H v Hv Hne). subst qp. simpl. now apply String.eqb_eq. }
  assert (Gs : (if JS.truthy_opt qs then String.leb (JS.value qs) (Session.date s)
                else true) = true
               <-> (forall d, qs = Some d -> d <> "" -> String.leb d (Session.date s) = true)).
  { rewrite G. split; intros H v Hv Hne; specialize (H v Hv Hne); subst qs; exact H. }
  assert (Ge : (if JS.truthy_opt qe then String.leb (Session.date s) (JS.value qe)
                else true) = true
               <-> (forall d, qe = Some d -> d <> "" -> String.leb (Session.date s) d = true)).
  { rewrite G. split; intros H v Hv Hne; specialize (H v Hv Hne); subst qe; exact H. }
  assert (Gc : match qc with
               | Some c => Bool.eqb (Session.completed s) (c =? "true")%string
               | None => true
               end = true
               <-> (forall c, qc = Some c -> (Session.completed s = true <-> c = "true"))).
  { destruct qc as [c |].
    - rewrite Bool.eqb_true_iff. split.
      + intros H c' Hc. inversion Hc; subst. rewrite H. apply String.eqb_eq.
      + intros H. specialize (H c eq_refl).
        destruct (String.eqb_spec c "true") as [e | n];
          destruct (Session.completed s); auto.
        * exact (proj2 H e).
        * exfalso. apply n. now apply H.
    - split; [intros _ c Hc; discriminate | reflexivity]. }
  rewrite Gp, Gs, Ge, Gc. tauto.
Qed.

(** X6.  [GET /sessions] answers with exactly the caller's sessions that pass the
    filters given, newest [(date, time)] first.  A patient id, a start date
    or an end date that is missing or empty filters nothing; the two date
    bounds are inclusive and compared as strings; a [completed] parameter
    selects the completed sessions when it is the string ["true"] and the
    sessions that are not completed for any other value, the empty one
    included. *)
Theorem get_all_filters (uid : string) (q : SessionsRoute.Query) (st : Store) :
  let l := listed (SessionsRoute.get_all uid q st) in
  (forall s, In s l <-> In s (sessions st) /\ passes uid q s)
  /\ StronglySorted (fun a b => key_le b a) l
  /\ Permutation l (filter (SessionsRoute.matches uid q) (sessions st)).
Proof.
  cbv zeta. simpl. split; [| split; [apply past_sorted | apply sort_perm]].
  intros s. now rewrite sorted_filtered_In, matches_passes.
Qed.

(** X7.  The client's filtered list never filters on completion: it holds exactly
    the caller's sessions of the patient asked for (when one is given)
    within the inclusive date bounds (when given), completed or not, as the
    client decodes them, and the [completed] property of the filter has no
    effect. *)
Theorem getFilteredSessions_ignores_completed (uid : string)
  (filters : Client.SessionFilter) (st : Store) :
  (forall x,
     In x (Client.getFilteredSessions uid filters st) <->
     exists s,
       x = Client.of_doc s /\ In s (sessions st) /\ Session.userId s = uid
       /\ (forall p, Client.f_patientId filters = Some p -> p <> "" ->
                     Session.patientId s = p)
       /\ (forall d, Client.f_startDate filters = Some d -> d <> "" ->
                     String.leb d (Session.date s) = true)
       /\ (forall d, Client.f_endDate filters = Some d -> d <> "" ->
                     String.leb (Session.date s) d = true))
  /\ (forall c,
        Client.getFilteredSessions uid
          (Client.mkFilter (Client.f_patientId filters) (Client.f_startDate filters)
             (Client.f_endDate filters) c) st
        = Client.getFilteredSessions uid filters st).
Proof.
  split; [| intros c; reflexivity].
  intros x. unfold Client.getFilteredSessions, Client.or_empty, Client.apiCall. simpl.
  rewrite in_map_iff.
  assert (K : forall (v : option string) (P : string -> Prop),
             (forall p, (if JS.truthy_opt v then v else None) = Some p -> p <> "" -> P p)
             <-> (forall p, v = Some p -> p <> "" -> P p)).
  { intros v P. destruct (JS.truthy_opt v) eqn:Hv; [tauto |].
    split; [| intros _ p Hp; discriminate].
    intros _ p Hp Hne. subst v. simpl in Hv. apply truthy_true in Hne. congruence. }
  split.
  - intros (s & <- & Hin). apply sorted_filtered_In in Hin. destruct Hin as [Hin Hm].
    apply matches_passes in Hm. destruct Hm as (Hu & Hp & _ & Hs & He). simpl in *.
    exists s. rewrite K in Hp, Hs, He. auto 10.
  - intros (s & -> & Hin & Hu & Hp & Hs & He). exists s. split; [reflexivity |].
    apply sorted_filtered_In. split; [exact Hin |]. apply matches_passes.
    unfold passes. simpl. rewrite !K.
    split; [exact Hu |]. split; [exact Hp |].
    split; [intros c0 Hc; discriminate |]. split; assumption.
Qed.

(** ** Where a session is listed after a create or an update *)

Lemma in_upcoming (uid : string) (st : Store) (x : Session.t) :
  In x (listed (SessionsRoute.get_upcoming uid st))
  <-> In x (sessions st) /\ Session.userId x = uid /\ Session.completed x = false.
Proof.
  simpl. rewrite sorted_filtered_In, andb_true_iff, String.eqb_eq, Bool.eqb_true_iff.
  tauto.
Qed.

Lemma in_past (uid : string) (st : Store) (x : Session.t) :
  In x (listed (SessionsRoute.get_past uid st))
  <-> In x (sessions st) /\ Session.userId x = uid /\ Session.completed x = true.
Proof.
  simpl. rewrite sorted_filtered_In, andb_true_iff, String.eqb_eq, Bool.eqb_true_iff.
  tauto.
Qed.

(** X8.  A session that was just created is stored as completed only when the
    body said [completed: true]; it is listed as upcoming when it is not
    completed and as past when it is, never in both, and the two lists
    otherwise hold what they held before. *)
Theorem created_session_is_listed (uid : string) (b : SessionsRoute.Body)
  (st st' : Store) (s : Session.t) (code : Z) :
  SessionsRoute.post uid b st = (Ok code s, st') ->
  (Session.completed s = true <-> SessionsRoute.b_completed b = Some true)
  /\ (forall x, In x (listed (SessionsRoute.get_upcoming uid st'))
                <-> In x (listed (SessionsRoute.get_upcoming uid st))
                    \/ (x = s /\ Session.completed s = false))
  /\ (forall x, In x (listed (SessionsRoute.get_past uid st'))
                <-> In x (listed (SessionsRoute.get_past uid st))
                    \/ (x = s /\ Session.completed s = true))
  /\ ~ (In s (listed (SessionsRoute.get_upcoming uid st'))
        /\ In s (listed (SessionsRoute.get_past uid st'))).
Proof.
  intros Hpost.
  destruct (post_outcome uid b st) as [(e & c & He) | (p & _ & _ & _ & _ & _ & He)];
    rewrite He in Hpost; inversion Hpost; subst; clear Hpost.
  set (s := Session.mk _ _ _ _ _ _ _ _ _).
  assert (Hu : Session.userId s = uid) by reflexivity.
  split; [| split; [| split]].
  - simpl. destruct (SessionsRoute.b_completed b) as [[|] |]; simpl;
      split; intros H; congruence.
  - intros x. rewrite !in_upcoming. simpl. rewrite in_app_iff. simpl.
    split.
    + intros ([H | [H | []]] & H1 & H2); [left; auto | right; subst x; auto].
    + intros [(H & H1 & H2) | (-> & H2)]; auto.
  - intros x. rewrite !in_past. simpl. rewrite in_app_iff. simpl.
    split.
    + intros ([H | [H | []]] & H1 & H2); [left; auto | right; subst x; auto].
    + intros [(H & H1 & H2) | (-> & H2)]; auto.
  - rewrite in_upcoming, in_past. intros [(_ & _ & H1) (_ & _ & H2)]. congruence.
Qed.

Lemma created_session_is_listed_witness :
  let b := Scenario.new_session "2025-03-10" "14:00" false JS.Undefined in
  let s := Session.mk "1" "u1" "0" "Asha" "2025-03-10" "14:00" "" false None in
  SessionsRoute.post Scenario.u1 b Scenario.st0 = (Ok 201 s, Scenario.st1)
  /\ In s (listed (SessionsRoute.get_upcoming Scenario.u1 Scenario.st1)).
Proof.
  intros b s.
  assert (Hp : SessionsRoute.post Scenario.u1 b Scenario.st0 = (Ok 201 s, Scenario.st1))
    by reflexivity.
  split; [exact Hp |].
  apply (proj1 (proj2 (created_session_is_listed Scenario.u1 b Scenario.st0
                         Scenario.st1 s 201 Hp)) s).
  right. split; reflexivity.
Defined.

Lemma saved_in (doc s : Session.t) (l : list Session.t) :
  In s l -> Session._id doc = Session._id s -> In doc (Mongo.saveSession doc l).
Proof.
  intros Hin E. unfold Mongo.saveSession. apply in_map_iff. exists s.
  split; [| exact Hin]. rewrite E. now rewrite String.eqb_refl.
Qed.

Lemma saved_same_id (doc x : Session.t) (l : list Session.t) :
  In x (Mongo.saveSession doc l) -> Session._id x = Session._id doc -> x = doc.
Proof.
  unfold Mongo.saveSession. intros Hin E. apply in_map_iff in Hin.
  destruct Hin as (y & Hy & _).
  destruct (String.eqb_spec (Session._id y) (Session._id doc)); congruence.
Qed.

(** X9.  An update of one's own session that carries [completed] moves the
    session to the matching view: with [true] the updated session is listed
    as past and no session of that id is listed as upcoming any more; with
    [false] it is listed as upcoming and none of that id as past. *)
Theorem completion_moves_between_views (uid id : string) (b : SessionsRoute.Body)
  (st : Store) (s : Session.t) (c : bool) :
  Mongo.findSession st id uid = Some s ->
  SessionsRoute.b_completed b = Some c ->
  exists s' st',
    SessionsRoute.put uid id b st = (Ok 200 s', st')
    /\ Session.completed s' = c
    /\ (c = true ->
        In s' (listed (SessionsRoute.get_past uid st'))
        /\ forall x, In x (listed (SessionsRoute.get_upcoming uid st')) ->
                     Session._id x <> id)
    /\ (c = false ->
        In s' (listed (SessionsRoute.get_upcoming uid st'))
        /\ forall x, In x (listed (SessionsRoute.get_past uid st')) ->
                     Session._id x <> id).
Proof.
  intros Hf Hc. destruct (findSession_some _ _ _ _ Hf) as (Hin & Hid & Huid).
  unfold SessionsRoute.put. rewrite Hf.
  set (s' := SessionsRoute.update_fields b s).
  destruct (update_fields_id b s) as [E1 E2]. fold s' in E1, E2.
  assert (Ec : Session.completed s' = c).
  { subst s'. rewrite update_fields_spec. simpl. now rewrite Hc. }
  assert (Hin' : In s' (Mongo.saveSession s' (sessions st))).
  { now apply saved_in with (s := s). }
  exists s'. eexists. split; [reflexivity |]. split; [exact Ec |].
  split; intros ->.
  - split; [apply in_past; simpl; repeat split; congruence |].
    intros x Hx E. apply in_upcoming in Hx. simpl in Hx. destruct Hx as (Hx & _ & Hcx).
    assert (x = s') by (apply (saved_same_id s' x (sessions st)); congruence).
    congruence.
  - split; [apply in_upcoming; simpl; repeat split; congruence |].
    intros x Hx E. apply in_past in Hx. simpl in Hx. destruct Hx as (Hx & _ & Hcx).
    assert (x = s') by (apply (saved_same_id s' x (sessions st)); congruence).
    congruence.
Qed.

Lemma completion_moves_between_views_witness :
  let b := Scenario.patch (Some true) (JS.Num 500) in
  let s := Session.mk "1" "u1" "0" "Asha" "2025-03-10" "14:00" "" false None in
  Mongo.findSession Scenario.st1 "1" "u1" = Some s
  /\ SessionsRoute.b_completed b = Some true
  /\ exists s' st',
       SessionsRoute.put "u1" "1" b Scenario.st1 = (Ok 200 s', st')
       /\ In s' (listed (SessionsRoute.get_past "u1" st')).
Proof.
  intros b s.
  assert (Hf : Mongo.findSession Scenario.st1 "1" "u1" = Some s) by reflexivity.
  assert (Hc : SessionsRoute.b_completed b = Some true) by reflexivity.
  split; [exact Hf |]. split; [exact Hc |].
  destruct (completion_moves_between_views "u1" "1" b Scenario.st1 s true Hf Hc)
    as (s' & st' & H1 & _ & H2 & _).
  exists s', st'. split; [exact H1 | exact (proj1 (H2 eq_refl))].
Defined.

(** ** Patients *)

Lemma find_patient_none (l : list Patient.t) (id uid : string) :
  ~ In id (map Patient._id l) ->
  find (fun p => (Patient._id p =? id)%string && (Patient.userId p =? uid)%string) l = None.
Proof.
  induction l as [| x r IH]; simpl; intros H; [reflexivity |].
  destruct (String.eqb_spec (Patient._id x) id) as [E | E]; simpl.
  - exfalso. apply H. now left.
  - apply IH. intros Hin. apply H. now right.
Qed.

Lemma find_patient_by_id (l : list Patient.t) (p : Patient.t) (uid : string) :
  NoDup (map Patient._id l) -> In p l ->
  find (fun x => (Patient._id x =? Patient._id p)%string
                 && (Patient.userId x =? uid)%string) l
  = if (Patient.userId p =? uid)%string then Some p else None.
Proof.
  induction l as [| x r IH]; simpl; intros Hn Hin; [contradiction |].
  inversion Hn as [| y l' Hx Hr]; subst.
  destruct Hin as [-> | Hin].
  - rewrite String.eqb_refl. simpl.
    destruct (Patient.userId p =? uid)%string; [reflexivity |].
    now apply find_patient_none.
  - assert (E : (Patient._id x =? Patient._id p)%string = false).
    { apply String.eqb_neq. intros E. apply Hx. rewrite E. now apply in_map. }
    rewrite E. simpl. now apply IH.
Qed.

Lemma findPatient_hidden (uid : string) (st : Store) (p : Patient.t) :
  reachable st ->
  In p (patients st) ->
  Patient.userId p <> uid ->
  Mongo.findPatient st (Patient._id p) uid = None.
Proof.
  intros Hr Hin Hne. destruct (reachable_unique_ids _ _ Hr) as (_ & Hp & _).
  unfold Mongo.findPatient. rewrite (find_patient_by_id _ p uid Hp Hin).
  apply String.eqb_neq in Hne. now rewrite Hne.
Qed.

(** X10.  In a reachable state, a patient of another user is treated like a
    patient that has been deleted: reading, updating or deleting it,
    listing its sessions and creating a session for it are all answered 404
    "Patient not found", and the database is left as it was. *)
Theorem patient_not_yours_is_not_found (uid : string) (n c : option string)
  (b : SessionsRoute.Body) (st : Store) (p : Patient.t) :
  reachable st ->
  In p (patients st) ->
  Patient.userId p <> uid ->
  PatientsRoute.get_one uid (Patient._id p) st = Err 404 "Patient not found"
  /\ PatientsRoute.put uid (Patient._id p) n c st = (Err 404 "Patient not found", st)
  /\ PatientsRoute.delete uid (Patient._id p) st = (Err 404 "Patient not found", st)
  /\ SessionsRoute.get_patient uid (Patient._id p) st = Err 404 "Patient not found"
  /\ (SessionsRoute.b_patientId b = Some (Patient._id p) ->
      JS.truthy_opt (SessionsRoute.b_patientId b) = true ->
      JS.truthy_opt (SessionsRoute.b_patientName b) = true ->
      JS.truthy_opt (SessionsRoute.b_date b) = true ->
      JS.truthy_opt (SessionsRoute.b_time b) = true ->
      SessionsRoute.post uid b st = (Err 404 "Patient not found", st)).
Proof.
  intros Hr Hin Hne. pose proof (findPatient_hidden uid st p Hr Hin Hne) as Hf.
  unfold PatientsRoute.get_one, PatientsRoute.put, PatientsRoute.delete,
    SessionsRoute.get_patient, SessionsRoute.post.
  rewrite Hf. repeat split.
  intros Hb T1 T2 T3 T4. rewrite T1, T2, T3, T4. simpl. rewrite Hb. simpl.
  now rewrite Hf.
Qed.

Lemma patient_not_yours_is_not_found_witness :
  let b := Scenario.new_session "2025-03-10" "14:00" false JS.Undefined in
  let p := Patient.mk "0" "u1" "Asha" "5550100" in
  reachable Scenario.st1
  /\ In p (patients Scenario.st1)
  /\ Patient.userId p <> "u2"
  /\ SessionsRoute.post "u2" b Scenario.st1 = (Err 404 "Patient not found", Scenario.st1).
Proof.
  intros b p.
  assert (Hr : reachable Scenario.st1).
  { repeat (apply reach_step; [reflexivity |]). apply reach_empty. }
  assert (Hin : In p (patients Scenario.st1)) by (vm_compute; auto).
  assert (Hne : Patient.userId p <> "u2") by discriminate.
  split; [exact Hr |]. split; [exact Hin |]. split; [exact Hne |].
  apply (patient_not_yours_is_not_found "u2" None None b Scenario.st1 p Hr Hin Hne);
    reflexivity.
Defined.

Lemma valid_nonempty (p : Patient.t) :
  PatientsRoute.valid p = true -> Patient.name p <> "" /\ Patient.contactNumber p <> "".
Proof.
  unfold PatientsRoute.valid. intros H. apply andb_prop in H.
  destruct H as [H1 H2]. split; now apply truthy_true.
Qed.

(** X11.  Whatever requests are made, every stored patient has a name and a
    contact number that are not empty. *)
Theorem patients_are_named (allowed : Op -> bool) (st : Store) :
  reachable_by allowed st ->
  forall p, In p (patients st) ->
            Patient.name p <> "" /\ Patient.contactNumber p <> "".
Proof.
  intros Hr. induction Hr as [| o st _ _ IH]; [intros p [] |].
  destruct o as [uid n c | uid id n c | uid id | uid b | uid id b | uid id];
    try (rewrite patients_session_ops by exact I; exact IH); simpl.
  - unfold PatientsRoute.post.
    destruct (negb (JS.truthy_opt n) || negb (JS.truthy_opt c)); [exact IH |].
    match goal with |- context [if PatientsRoute.valid ?p then _ else _] =>
      destruct (PatientsRoute.valid p) eqn:Hv end; [| exact IH].
    simpl. intros p Hin. apply in_app_or in Hin. destruct Hin as [Hin | [<- | []]].
    + now apply IH.
    + now apply valid_nonempty.
  - unfold PatientsRoute.put.
    destruct (Mongo.findPatient st id uid) as [p0 |]; [| exact IH].
    match goal with |- context [if PatientsRoute.valid ?p then _ else _] =>
      set (p1 := p); destruct (PatientsRoute.valid p1) eqn:Hv end; [| exact IH].
    simpl. intros p Hin. apply in_map_iff in Hin. destruct Hin as (x & Hx & Hin).
    destruct (Patient._id x =? Patient._id p1)%string; subst p.
    + now apply valid_nonempty.
    + now apply IH.
  - unfold PatientsRoute.delete.
    destruct (Mongo.findPatient st id uid); [| exact IH].
    simpl. intros p Hin. apply filter_In in Hin. now apply IH.
Qed.

Lemma patients_are_named_witness :
  reachable_by (fun _ => true) Scenario.st1
  /\ In (Patient.mk "0" "u1" "Asha" "5550100") (patients Scenario.st1)
  /\ Patient.name (Patient.mk "0" "u1" "Asha" "5550100") <> "".
Proof.
  assert (Hr : reachable_by (fun _ => true) Scenario.st1).
  { repeat (apply reach_step; [reflexivity |]). apply reach_empty. }
  assert (Hin : In (Patient.mk "0" "u1" "Asha" "5550100") (patients Scenario.st1))
    by (vm_compute; auto).
  split; [exact Hr |]. split; [exact Hin |].
  exact (proj1 (patients_are_named _ Scenario.st1 Hr _ Hin)).
Defined.

Lemma find_patient_saved (l : list Patient.t) (id uid : string) (p p' : Patient.t) :
  find (fun x => (Patient._id x =? id)%string && (Patient.userId x =? uid)%string) l = Some p ->
  Patient._id p' = id -> Patient.userId p' = uid ->
  find (fun x => (Patient._id x =? id)%string && (Patient.userId x =? uid)%string)
       (map (fun x => if (Patient._id x =? Patient._id p')%string then p' else x) l)
  = Some p'.
Proof.
  intros Hf Hid Huid. induction l as [| x r IH]; simpl in *; [discriminate |].
  assert (Hp' : (Patient._id p' =? id)%string && (Patient.userId p' =? uid)%string = true).
  { rewrite Hid, Huid, !String.eqb_refl. reflexivity. }
  destruct ((Patient._id x =? id)%string && (Patient.userId x =? uid)%string) eqn:Hx.
  - apply andb_prop in Hx. destruct Hx as [Hx _]. apply String.eqb_eq in Hx.
    rewrite Hid, Hx, String.eqb_refl. now rewrite Hp'.
  - destruct (Patient._id x =? Patient._id p')%string.
    + now rewrite Hp'.
    + rewrite Hx. now apply IH.
Qed.

Lemma find_patient_other_saved (l : list Patient.t) (id' uid' : string) (p' : Patient.t) :
  Patient._id p' <> id' ->
  find (fun x => (Patient._id x =? id')%string && (Patient.userId x =? uid')%string)
       (map (fun x => if (Patient._id x =? Patient._id p')%string then p' else x) l)
  = find (fun x => (Patient._id x =? id')%string && (Patient.userId x =? uid')%string) l.
Proof.
  intros Hne. induction l as [| x r IH]; simpl; [reflexivity |].
  destruct (String.eqb_spec (Patient._id x) (Patient._id p')) as [E | E].
  - assert (H1 : (Patient._id p' =? id')%string = false) by now apply String.eqb_neq.
    assert (H2 : (Patient._id x =? id')%string = false) by (rewrite E; exact H1).
    now rewrite H1, H2.
  - now rewrite IH.
Qed.

(** X12.  Updating one's own patient replaces the name and the contact number
    only by a non-empty value, which is stored trimmed; a value that is
    blank after trimming makes the request fail with 500 and changes
    nothing.  After a successful update the patient is read back as
    updated, with the same id and owner; the other patients and all the
    sessions are untouched. *)
Theorem updatePatient_patch_fields (uid id : string) (n c : option string)
  (st : Store) (p : Patient.t) :
  Mongo.findPatient st id uid = Some p ->
  let p' := Patient.mk (Patient._id p) (Patient.userId p)
              (patched n (Patient.name p)) (patched c (Patient.contactNumber p)) in
  (Patient.name p' <> "" /\ Patient.contactNumber p' <> "" ->
   exists st',
     PatientsRoute.put uid id n c st = (Ok 200 p', st')
     /\ PatientsRoute.get_one uid id st' = Ok 200 p'
     /\ sessions st' = sessions st
     /\ (forall id' uid', id' <> id ->
           Mongo.findPatient st' id' uid' = Mongo.findPatient st id' uid'))
  /\ (Patient.name p' = "" \/ Patient.contactNumber p' = "" ->
      PatientsRoute.put uid id n c st = (Err 500 "Failed to update patient", st))
  /\ (missing_or_empty n -> Patient.name p' = Patient.name p)
  /\ (missing_or_empty c -> Patient.contactNumber p' = Patient.contactNumber p).
Proof.
  intros Hf. destruct (findPatient_some _ _ _ _ Hf) as (Hin & Hid & Huid).
  cbv zeta. unfold PatientsRoute.put. rewrite Hf.
  assert (E : (let patient := if JS.truthy_opt n
                              then Patient.mk (Patient._id p) (Patient.userId p)
                                     (JS.trim (JS.value n)) (Patient.contactNumber p)
                              else p in
               if JS.truthy_opt c
               then Patient.mk (Patient._id patient) (Patient.userId patient)
                      (Patient.name patient) (JS.trim (JS.value c))
               else patient)
              = Patient.mk (Patient._id p) (Patient.userId p)
                  (patched n (Patient.name p)) (patched c (Patient.contactNumber p))).
  { unfold patched. destruct p. destruct (JS.truthy_opt n), (JS.truthy_opt c); reflexivity. }
  cbv zeta in E. rewrite E. clear E.
  set (p' := Patient.mk _ _ _ _). unfold PatientsRoute.valid. simpl.
  split; [| split; [| split]].
  - intros [H1 H2]. apply truthy_true in H1, H2. rewrite H1, H2. simpl.
    eexists. split; [reflexivity |]. unfold PatientsRoute.get_one, Mongo.findPatient.
    simpl. split; [| split; [reflexivity |]].
    + pose proof (find_patient_saved (patients st) id uid p p' Hf Hid Huid) as K.
      simpl in K. now rewrite K.
    + intros id' uid' Hne.
      assert (Hne' : Patient._id p' <> id') by (simpl; congruence).
      exact (find_patient_other_saved (patients st) id' uid' p' Hne').
  - intros [H | H]; rewrite H; simpl; [reflexivity |].
    now rewrite andb_false_r.
  - intros H. apply truthy_opt_false in H. unfold patched. now rewrite H.
  - intros H. apply truthy_opt_false in H. unfold patched. now rewrite H.
Qed.

Lemma updatePatient_patch_fields_witness :
  let p := Patient.mk "0" "u1" "Asha" "5550100" in
  Mongo.findPatient Scenario.st1 "0" "u1" = Some p
  /\ PatientsRoute.put "u1" "0" (Some "   ") (Some "") Scenario.st1
     = (Err 500 "Failed to update patient", Scenario.st1).
Proof.
  intros p.
  assert (Hf : Mongo.findPatient Scenario.st1 "0" "u1" = Some p) by reflexivity.
  split; [exact Hf |].
  apply (proj1 (proj2 (updatePatient_patch_fields "u1" "0" (Some "   ") (Some "")
                         Scenario.st1 p Hf))).
  left. reflexivity.
Defined.

Lemma remove_patient (l : list Patient.t) (p : Patient.t) :
  NoDup (map Patient._id l) -> In p l ->
  Permutation
    (p :: filter (fun x => negb ((Patient._id x =? Patient._id p)%string
                                 && (Patient.userId x =? Patient.userId p)%string)) l) l.
Proof.
  induction l as [| x r IH]; simpl; intros Hn Hin; [contradiction |].
  inversion Hn as [| y l' Hx Hr]; subst.
  destruct Hin as [-> | Hin].
  - rewrite !String.eqb_refl. simpl. apply perm_skip.
    rewrite forallb_filter_id; [apply Permutation_refl |].
    apply forallb_forall. intros y Hy. apply negb_true_iff, andb_false_iff. left.
    apply String.eqb_neq. intros E. apply Hx. rewrite <- E. now apply in_map.
  - assert (E : (Patient._id x =? Patient._id p)%string = false).
    { apply String.eqb_neq. intros E. apply Hx. rewrite E. now apply in_map. }
    rewrite E. simpl. eapply perm_trans; [apply perm_swap |]. apply perm_skip. now apply IH.
Qed.

(** X13.  Deleting one's own patient in a reachable state removes that patient and
    no other document: every session stays stored, the sessions that
    referenced the patient included, and these are still answered by
    [GET /sessions].  The patient is then answered 404, and the client's
    list of the patient's sessions comes back empty. *)
Theorem delete_patient_removes_only_the_patient (uid id : string) (st : Store)
  (p : Patient.t) :
  reachable st ->
  Mongo.findPatient st id uid = Some p ->
  exists st',
    PatientsRoute.delete uid id st = (Ok 200 tt, st')
    /\ Permutation (p :: patients st') (patients st)
    /\ sessions st' = sessions st
    /\ PatientsRoute.get_one uid id st' = Err 404 "Patient not found"
    /\ Client.getPatientById uid id st' = None
    /\ Client.getPatientSessions uid id st' = []
    /\ (forall s, In s (sessions st) -> Session.userId s = uid ->
                  Session.patientId s = id ->
                  In (Client.of_doc s) (Client.getSessions uid st')).
Proof.
  intros Hr Hf. destruct (reachable_unique_ids _ _ Hr) as (_ & Hp & _).
  destruct (findPatient_some _ _ _ _ Hf) as (Hin & Hid & Huid).
  pose proof (listByPatient_after_delete uid id st p Hf) as H404.
  unfold PatientsRoute.delete in *. rewrite Hf in *. simpl in H404.
  eexists. split; [reflexivity |]. simpl.
  split; [subst id uid; now apply remove_patient |]. split; [reflexivity |].
  assert (Hnone : Mongo.findPatient
                    (mkStore
                       (filter (fun x => negb ((Patient._id x =? id)%string
                                               && (Patient.userId x =? uid)%string))
                               (patients st))
                       (sessions st) (nextId st)) id uid = None).
  { unfold Mongo.findPatient. simpl.
    apply (find_after_filter
             (fun x => (Patient._id x =? id)%string && (Patient.userId x =? uid)%string)). }
  unfold PatientsRoute.get_one, Client.getPatientById, Client.getPatientSessions,
    PatientsRoute.get_one.
  rewrite Hnone, H404. simpl. repeat split.
  intros s Hs Hu _. unfold Client.getSessions, Client.or_empty, Client.apiCall. simpl.
  apply in_map. apply sorted_filtered_In. split; [exact Hs |].
  rewrite matches_noQuery. unfold owned. now apply String.eqb_eq.
Qed.

Lemma delete_patient_removes_only_the_patient_witness :
  let p := Patient.mk "0" "u1" "Asha" "5550100" in
  reachable Scenario.st1
  /\ Mongo.findPatient Scenario.st1 "0" "u1" = Some p
  /\ exists st',
       PatientsRoute.delete "u1" "0" Scenario.st1 = (Ok 200 tt, st')
       /\ sessions st' = sessions Scenario.st1
       /\ Client.getPatientSessions "u1" "0" st' = [].
Proof.
  intros p.
  assert (Hr : reachable Scenario.st1).
  { repeat (apply reach_step; [reflexivity |]). apply reach_empty. }
  assert (Hf : Mongo.findPatient Scenario.st1 "0" "u1" = Some p) by reflexivity.
  split; [exact Hr |]. split; [exact Hf |].
  destruct (delete_patient_removes_only_the_patient "u1" "0" Scenario.st1 p Hr Hf)
    as (st' & H1 & _ & H2 & _ & _ & H3 & _).
  exists st'. auto.
Defined.

(** ** The session form *)

Lemma post_error_unchanged (uid : string) (b : SessionsRoute.Body) (st st' : Store)
  (code : Z) (e : string) :
  SessionsRoute.post uid b st = (Err code e, st') -> st' = st.
Proof.
  intros H.
  destruct (post_outcome uid b st) as [(e0 & c0 & He) | (p & _ & _ & _ & _ & _ & He)];
    rewrite He in H; now inversion H.
Qed.

Lemma put_error_unchanged (uid id : string) (b : SessionsRoute.Body) (st st' : Store)
  (code : Z) (e : string) :
  SessionsRoute.put uid id b st = (Err code e, st') -> st' = st.
Proof.
  unfold SessionsRoute.put. destruct (Mongo.findSession st id uid); intros H;
    now inversion H.
Qed.

Section Form.
Variable OS : Platform.
Variable host : JSDate.Host.
Variable parseFloat : string -> JS.optnum.
Variable uid : string.
Variable now : Z.
(** The patients the form has loaded. *)
Variable loaded : list Patient.t.

(** X14.  When a submit of the form does not end in a saved session, because no
    patient is selected or because the server refused the request, nothing
    has happened: no document is written and no reminder is registered. *)
Theorem failed_submit_changes_nothing (existing : option Client.Session)
  (f : SessionForm.Form) (w w' : SessionForm.World) (o : SessionForm.Outcome) :
  SessionForm.handleSubmit OS host parseFloat uid now loaded existing f w = (o, w') ->
  o = SessionForm.Invalid \/ o = SessionForm.Failed ->
  w' = w.
Proof.
  destruct w as [st ns]. unfold SessionForm.handleSubmit.
  destruct (negb (JS.truthy (SessionForm.patientId f))); [intros H _; now inversion H |].
  destruct existing as [ex |].
  - unfold Client.updateSession.
    destruct (SessionsRoute.put uid _ _ st) as [[c s | c e] stx] eqn:Hput; simpl.
    + destruct (Notifications.scheduleSessionNotification OS host now _ ns).
      intros H [K | K]; inversion H; congruence.
    + apply put_error_unchanged in Hput. intros H _. inversion H. congruence.
  - unfold Client.saveSession.
    destruct (SessionsRoute.post uid _ st) as [[c s | c e] stx] eqn:Hpost; simpl.
    + destruct (Notifications.scheduleSessionNotification OS host now _ ns).
      intros H [K | K]; inversion H; congruence.
    + apply post_error_unchanged in Hpost. intros H _. inversion H. congruence.
Qed.

(** X15.  A new session cannot be saved for a patient that is not in the list the
    form has loaded, or whose loaded name is empty: the name sent is then
    empty, the server refuses the request, and nothing changes. *)
Theorem submit_needs_a_loaded_patient (f : SessionForm.Form) (w : SessionForm.World) :
  SessionForm.patientId f <> "" ->
  SessionForm.getPatientNameById loaded (SessionForm.patientId f) = "" ->
  SessionForm.handleSubmit OS host parseFloat uid now loaded None f w
  = (SessionForm.Failed, w).
Proof.
  intros Hp Hn. destruct w as [st ns]. unfold SessionForm.handleSubmit.
  apply truthy_true in Hp. rewrite Hp, Hn. simpl.
  unfold Client.saveSession, SessionsRoute.post. simpl. rewrite Hp. reflexivity.
Qed.

(** X16.  A new session saved from the form is stored for the caller, as not
    completed, for the selected patient under the name the form has loaded,
    with the date and the time as the form prints them; it is added after
    the stored sessions and the patients are untouched. *)
Theorem submit_creates_one_session (f : SessionForm.Form) (st st' : Store)
  (ns ns' : Notifications.Service) (s : Client.Session) (h : option string) :
  SessionForm.handleSubmit OS host parseFloat uid now loaded None f (st, ns)
  = (SessionForm.Saved s h, (st', ns')) ->
  exists doc,
    sessions st' = (sessions st ++ [doc])%list
    /\ patients st' = patients st
    /\ s = Client.of_doc doc
    /\ Session.userId doc = uid
    /\ Session.completed doc = false
    /\ Session.patientId doc = SessionForm.patientId f
    /\ Session.patientName doc
       = SessionForm.getPatientNameById loaded (SessionForm.patientId f)
    /\ Session.date doc = SessionForm.formatDateForStorage host (SessionForm.date f)
    /\ Session.time doc = SessionForm.formatTimeForStorage host (SessionForm.time f)
    /\ Session.notes doc = SessionForm.notes f.
Proof.
  unfold SessionForm.handleSubmit.
  destruct (negb (JS.truthy (SessionForm.patientId f))); [discriminate |].
  unfold Client.saveSession.
  match goal with |- context [SessionsRoute.post uid ?b st] =>
    destruct (post_outcome uid b st) as [(e & c & He) | (p & _ & _ & _ & _ & _ & He)];
    rewrite He end; simpl; [discriminate |].
  match goal with |- context [Notifications.scheduleSessionNotification OS host now ?x ns] =>
    destruct (Notifications.scheduleSessionNotification OS host now x ns) end.
  intros H. inversion H; subst. eexists. split; [reflexivity |].
  repeat split.
Qed.

End Form.

Lemma failed_submit_changes_nothing_witness :
  let f := SessionForm.mkForm "" ReminderScenario.day ReminderScenario.at_14 "" "" in
  ReminderScenario.submit None f ReminderScenario.w0
  = (SessionForm.Invalid, ReminderScenario.w0)
  /\ ReminderScenario.w0 = ReminderScenario.w0.
Proof.
  intros f.
  assert (H : SessionForm.handleSubmit ios 0 Scenario.parseFloat Scenario.u1
                Scenario.noon_utc (patients Scenario.st0) None f ReminderScenario.w0
              = (SessionForm.Invalid, ReminderScenario.w0)) by reflexivity.
  split; [exact H |].
  exact (failed_submit_changes_nothing ios 0 Scenario.parseFloat Scenario.u1
           Scenario.noon_utc (patients Scenario.st0) None f ReminderScenario.w0
           ReminderScenario.w0 SessionForm.Invalid H (or_introl eq_refl)).
Defined.

Lemma submit_needs_a_loaded_patient_witness :
  let f := SessionForm.mkForm "7" ReminderScenario.day ReminderScenario.at_14 "" "" in
  SessionForm.patientId f <> ""
  /\ SessionForm.getPatientNameById (patients Scenario.st0) (SessionForm.patientId f) = ""
  /\ ReminderScenario.submit None f ReminderScenario.w0
     = (SessionForm.Failed, ReminderScenario.w0).
Proof.
  intros f.
  assert (H1 : SessionForm.patientId f <> "") by discriminate.
  assert (H2 : SessionForm.getPatientNameById (patients Scenario.st0)
                 (SessionForm.patientId f) = "") by reflexivity.
  split; [exact H1 |]. split; [exact H2 |].
  exact (submit_needs_a_loaded_patient ios 0 Scenario.parseFloat Scenario.u1
           Scenario.noon_utc (patients Scenario.st0) f ReminderScenario.w0 H1 H2).
Defined.

Lemma submit_creates_one_session_witness :
  ReminderScenario.submit None ReminderScenario.form1 ReminderScenario.w0
  = (SessionForm.Saved ReminderScenario.created (Some "n0"), ReminderScenario.w1)
  /\ exists doc,
       sessions (fst ReminderScenario.w1) = (sessions Scenario.st0 ++ [doc])%list
       /\ Session.completed doc = false.
Proof.
  assert (H : SessionForm.handleSubmit ios 0 Scenario.parseFloat Scenario.u1
                Scenario.noon_utc (patients Scenario.st0) None ReminderScenario.form1
                (Scenario.st0, Notifications.noService)
              = (SessionForm.Saved ReminderScenario.created (Some "n0"),
                 (fst ReminderScenario.w1, snd ReminderScenario.w1)))
    by (vm_compute; reflexivity).
  split; [vm_compute; reflexivity |].
  destruct (submit_creates_one_session _ _ _ _ _ _ _ _ _ _ _ _ _ H)
    as (doc & H1 & _ & _ & _ & H2 & _).
  exists doc. split; [exact H1 | exact H2].
Defined.

(** ** Reopening a session *)

(** X17.  Reopening one's own session from the upcoming screen is answered 200
    and stores [completed = false]; the stored amount is left as it was,
    whatever it was, because the [amount: undefined] of the request is not
    part of its body.  The id and the owner do not change. *)
Theorem reopen_keeps_the_amount (uid : string) (session : Client.Session)
  (st : Store) (doc : Session.t) :
  Mongo.findSession st (Client.id session) uid = Some doc ->
  exists doc' st',
    Upcoming.handleToggleComplete uid session false st = (Upcoming.Updated, st')
    /\ Mongo.findSession st' (Client.id session) uid = Some doc'
    /\ Session.completed doc' = false
    /\ Session.amount doc' = Session.amount doc
    /\ Session._id doc' = Session._id doc
    /\ Session.userId doc' = Session.userId doc
    /\ Session.notes doc' = Client.notes session
    /\ patients st' = patients st.
Proof.
  intros Hf. destruct (findSession_some _ _ _ _ Hf) as (Hin & Hid & Huid).
  unfold Upcoming.handleToggleComplete, Client.updateSession, SessionsRoute.put.
  simpl. rewrite Hf. simpl.
  match goal with |- context [SessionsRoute.update_fields ?b doc] =>
    exists (SessionsRoute.update_fields b doc) end.
  eexists. split; [reflexivity |].
  rewrite update_fields_spec. simpl. unfold Mongo.findSession. simpl.
  split; [| repeat split].
  apply find_saved with (s := doc); auto.
Qed.

Lemma reopen_keeps_the_amount_witness :
  let st := step (UpdateSession Scenario.u1 "1" (Scenario.patch (Some true) (JS.Num 500)))
              Scenario.st1 in
  let session := Client.mkSession "1" "0" "Asha" "2025-03-10" "14:00" "" true (JS.Num 500) in
  let doc := Session.mk "1" "u1" "0" "Asha" "2025-03-10" "14:00" "" true (Some 500) in
  Mongo.findSession st (Client.id session) Scenario.u1 = Some doc
  /\ exists doc' st',
       Upcoming.handleToggleComplete Scenario.u1 session false st = (Upcoming.Updated, st')
       /\ Session.completed doc' = false
       /\ Session.amount doc' = Some 500.
Proof.
  intros st session doc.
  assert (Hf : Mongo.findSession st (Client.id session) Scenario.u1 = Some doc)
    by reflexivity.
  split; [exact Hf |].
  destruct (reopen_keeps_the_amount Scenario.u1 session st doc Hf)
    as (doc' & st' & H1 & _ & H2 & H3 & _).
  exists doc', st'. split; [exact H1 |]. split; [exact H2 | exact H3].
Defined.

(** ** Opening the form on a stored session *)

(** X18.  The edit form cannot be opened on a session whose amount is [null]: the
    initial amount text is taken with [amount.toString()], which throws.
    That is the case of every session as the server returns it when it was
    stored without an amount. *)
Theorem edit_form_needs_an_amount (host : JSDate.Host) (now : Z) (doc : Session.t) (preselected : string) :
  Session.amount doc = None ->
  SessionForm.initial host now (Some (Client.of_doc doc)) preselected = None.
Proof.
  intros H. unfold SessionForm.initial, Client.of_doc. simpl. now rewrite H.
Qed.

Lemma edit_form_needs_an_amount_witness :
  let doc := Session.mk "1" "u1" "0" "Asha" "2025-03-10" "14:00" "" false None in
  In doc (sessions Scenario.st1)
  /\ Session.amount doc = None
  /\ SessionForm.initial 0 Scenario.noon_utc (Some (Client.of_doc doc)) "" = None.
Proof.
  intros doc.
  assert (H : Session.amount doc = None) by reflexivity.
  split; [vm_compute; auto |]. split; [exact H |].
  exact (edit_form_needs_an_amount 0 Scenario.noon_utc doc "" H).
Defined.

(** ** Stored dates and the calendar day *)

Lemma stored_date_parses_witness :
  1000 <= JSDate.YearFromTime (JSDate.LocalTime Scenario.utc_minus_5 Scenario.noon_utc) <= 9999
  /\ JSDate.parse Scenario.utc_minus_5
       (SessionForm.formatDateForStorage Scenario.utc_minus_5 (Some Scenario.noon_utc))
     = Some (JSDate.MakeDate
               (JSDate.Day (JSDate.LocalTime Scenario.utc_minus_5 Scenario.noon_utc)) 0).
Proof.
  assert (H : 1000 <= JSDate.YearFromTime
                       (JSDate.LocalTime Scenario.utc_minus_5 Scenario.noon_utc) <= 9999)
    by (vm_compute; split; discriminate).
  split; [exact H |].
  exact (proj2 (stored_date_parses Scenario.utc_minus_5 Scenario.noon_utc H)).
Defined.

Lemma date_round_trip_not_west_witness :
  0 <= 19800000 < JSDate.msPerDay
  /\ 1000 <= JSDate.YearFromTime (JSDate.LocalTime 19800000 Scenario.noon_utc) <= 9999
  /\ SessionForm.formatDateForStorage 19800000
       (JSDate.parse 19800000
          (SessionForm.formatDateForStorage 19800000 (Some Scenario.noon_utc)))
     = SessionForm.formatDateForStorage 19800000 (Some Scenario.noon_utc).
Proof.
  assert (H0 : 0 <= 19800000 < JSDate.msPerDay) by (unfold JSDate.msPerDay; lia).
  assert (H : 1000 <= JSDate.YearFromTime (JSDate.LocalTime 19800000 Scenario.noon_utc)
                 <= 9999)
    by (vm_compute; split; discriminate).
  split; [exact H0 |]. split; [exact H |].
  exact (date_round_trip_not_west 19800000 Scenario.noon_utc H0 H).
Defined.

Lemma date_round_trip_west_witness :
  - JSDate.msPerDay <= Scenario.utc_minus_5 < 0
  /\ 1000 <= JSDate.YearFromTime
               (JSDate.LocalTime Scenario.utc_minus_5 Scenario.noon_utc) <= 9999
  /\ SessionForm.formatDateForStorage Scenario.utc_minus_5
       (JSDate.parse Scenario.utc_minus_5
          (SessionForm.formatDateForStorage Scenario.utc_minus_5 (Some Scenario.noon_utc)))
     = SessionForm.formatDateForStorage Scenario.utc_minus_5
         (Some (Scenario.noon_utc - JSDate.msPerDay)).
Proof.
  assert (H0 : - JSDate.msPerDay <= Scenario.utc_minus_5 < 0)
    by (unfold JSDate.msPerDay, Scenario.utc_minus_5, JSDate.msPerHour; lia).
  assert (H : 1000 <= JSDate.YearFromTime
                       (JSDate.LocalTime Scenario.utc_minus_5 Scenario.noon_utc) <= 9999)
    by (vm_compute; split; discriminate).
  split; [exact H0 |]. split; [exact H |].
  exact (date_round_trip_west Scenario.utc_minus_5 Scenario.noon_utc H0 H).
Defined.

(** X22.  While the local calendar day and the UTC calendar day are the same day
    (and the year has four digits), the string [today] is the local date as
    the form stores it, and the list of today's sessions is the list of the
    caller's sessions stored under that local date. *)
Theorem today_is_local_while_days_agree (host : JSDate.Host) (now : Z)
  (uid : string) (st : Store) :
  JSDate.Day (JSDate.LocalTime host now) = JSDate.Day now ->
  1000 <= JSDate.YearFromTime now <= 9999 ->
  Client.today now = SessionForm.formatDateForStorage host (Some now)
  /\ Client.getTodaySessions now uid st
     = filter (fun s => (Client.date s
                         =? SessionForm.formatDateForStorage host (Some now))%string)
              (Client.getSessions uid st).
Proof.
  intros Hd Hy. pose proof (today_is_local_date host now Hd Hy) as E.
  split; [exact E |].
  unfold Client.getTodaySessions, Client.getSessions, Client.or_empty, Client.apiCall.
  simpl. now rewrite E.
Qed.

Lemma today_is_local_while_days_agree_witness :
  JSDate.Day (JSDate.LocalTime Scenario.utc_minus_5 Scenario.noon_utc)
  = JSDate.Day Scenario.noon_utc
  /\ 1000 <= JSDate.YearFromTime Scenario.noon_utc <= 9999
  /\ Client.today Scenario.noon_utc
     = SessionForm.formatDateForStorage Scenario.utc_minus_5 (Some Scenario.noon_utc).
Proof.
  assert (Hd : JSDate.Day (JSDate.LocalTime Scenario.utc_minus_5 Scenario.noon_utc)
               = JSDate.Day Scenario.noon_utc) by reflexivity.
  assert (Hy : 1000 <= JSDate.YearFromTime Scenario.noon_utc <= 9999)
    by (vm_compute; split; discriminate).
  split; [exact Hd |]. split; [exact Hy |].
  exact (proj1 (today_is_local_while_days_agree Scenario.utc_minus_5 Scenario.noon_utc
                  "u1" Scenario.st1 Hd Hy)).
Defined.

(** ** The sessions of one patient *)

(** X23.  For a patient of the caller, [GET /sessions/patient/:patientId] answers
    with exactly the caller's sessions that reference the patient, completed
    or not, newest [(date, time)] first, and the client decodes that list
    as it is. *)
Theorem patient_sessions_listing (uid pid : string) (st : Store) (p : Patient.t) :
  Mongo.findPatient st pid uid = Some p ->
  exists l,
    SessionsRoute.get_patient uid pid st = Ok 200 l
    /\ (forall s, In s l <-> In s (sessions st) /\ Session.userId s = uid
                             /\ Session.patientId s = pid)
    /\ StronglySorted (fun a b => key_le b a) l
    /\ Client.getPatientSessions uid pid st = map Client.of_doc l.
Proof.
  intros Hf. unfold Client.getPatientSessions, SessionsRoute.get_patient. rewrite Hf.
  eexists. split; [reflexivity |]. split; [| split; [apply past_sorted | reflexivity]].
  intros s. rewrite sorted_filtered_In, andb_true_iff, !String.eqb_eq. tauto.
Qed.

Lemma patient_sessions_listing_witness :
  Mongo.findPatient Scenario.st1 "0" "u1" = Some (Patient.mk "0" "u1" "Asha" "5550100")
  /\ exists l,
       SessionsRoute.get_patient "u1" "0" Scenario.st1 = Ok 200 l
       /\ Client.getPatientSessions "u1" "0" Scenario.st1 = map Client.of_doc l.
Proof.
  assert (Hf : Mongo.findPatient Scenario.st1 "0" "u1"
               = Some (Patient.mk "0" "u1" "Asha" "5550100")) by reflexivity.
  split; [exact Hf |].
  destruct (patient_sessions_listing "u1" "0" Scenario.st1 _ Hf) as (l & H1 & _ & _ & H2).
  exists l. auto.
Defined.

(** ** An amount of zero, and an amount left blank *)

(** X24.  On create, a missing amount, [null] and [0] are all stored as no
    amount, and any other number is stored as sent; on update an amount of
    [0] is stored as [0]. *)
Theorem zero_amount_on_create_and_update (uid : string) (b : SessionsRoute.Body)
  (st : Store) :
  (forall code s st',
     SessionsRoute.post uid b st = (Ok code s, st') ->
     (Session.amount s = None
      <-> SessionsRoute.b_amount b = JS.Undefined \/ SessionsRoute.b_amount b = JS.Null
          \/ SessionsRoute.b_amount b = JS.Num 0)
     /\ (forall n, SessionsRoute.b_amount b = JS.Num n -> n <> 0 ->
                   Session.amount s = Some n))
  /\ (forall id s0,
        Mongo.findSession st id uid = Some s0 ->
        SessionsRoute.b_amount b = JS.Num 0 ->
        exists s' st',
          SessionsRoute.put uid id b st = (Ok 200 s', st')
          /\ Session.amount s' = Some 0).
Proof.
  split.
  - intros code s st' Hpost.
    destruct (post_outcome uid b st) as [(e & c & He) | (p & _ & _ & _ & _ & _ & He)];
      rewrite He in Hpost; inversion Hpost; subst; clear Hpost. simpl.
    destruct (SessionsRoute.b_amount b) as [| | n]; simpl.
    + split; [split; auto | intros n Hn; discriminate].
    + split; [split; auto | intros n Hn; discriminate].
    + destruct (Z.eqb_spec n 0) as [-> | Hn].
      * split; [split; auto | intros m Hm Hne; inversion Hm; congruence].
      * split.
        -- split; [discriminate |].
           intros [H | [H | H]]; try discriminate. inversion H. contradiction.
        -- intros m Hm _. now inversion Hm.
  - intros id s0 Hf Ha. unfold SessionsRoute.put. rewrite Hf.
    eexists. eexists. split; [reflexivity |].
    rewrite update_fields_spec. simpl. now rewrite Ha.
Qed.

(** X25.  Saving an existing session from the form with the amount box left blank
    sends no amount, so the stored amount stays what it was; the stored
    completion state becomes the one the form was opened with, and the notes
    become those of the form. *)
Theorem edit_with_blank_amount_keeps_amount (OS : Platform) (host : JSDate.Host)
  (parseFloat : string -> JS.optnum) (uid : string) (now : Z)
  (loaded : list Patient.t) (existing : Client.Session) (f : SessionForm.Form)
  (st st' : Store) (ns ns' : Notifications.Service) (s : Client.Session)
  (h : option string) (doc : Session.t) :
  SessionForm.handleSubmit OS host parseFloat uid now loaded (Some existing) f (st, ns)
  = (SessionForm.Saved s h, (st', ns')) ->
  JS.trim (SessionForm.amount f) = "" ->
  Mongo.findSession st (Client.id existing) uid = Some doc ->
  exists doc',
    Mongo.findSession st' (Client.id existing) uid = Some doc'
    /\ Session.amount doc' = Session.amount doc
    /\ Session.completed doc' = Client.completed existing
    /\ Session.notes doc' = SessionForm.notes f
    /\ Session.userId doc' = uid.
Proof.
  intros H Hb Hf. destruct (findSession_some _ _ _ _ Hf) as (Hin & Hid & Huid).
  unfold SessionForm.handleSubmit in H.
  destruct (negb (JS.truthy (SessionForm.patientId f))); [discriminate |].
  rewrite Hb in H. simpl in H.
  unfold Client.updateSession, SessionsRoute.put in H. simpl in H. rewrite Hf in H.
  simpl in H.
  match type of H with context [Notifications.scheduleSessionNotification OS host now ?x ns] =>
    destruct (Notifications.scheduleSessionNotification OS host now x ns) end.
  inversion H; subst; clear H.
  match goal with |- context [SessionsRoute.update_fields ?b doc] =>
    exists (SessionsRoute.update_fields b doc) end.
  rewrite update_fields_spec. simpl. unfold Mongo.findSession. simpl.
  split; [| repeat split].
  apply find_saved with (s := doc); auto.
Qed.

Lemma edit_with_blank_amount_keeps_amount_witness :
  let f := SessionForm.mkForm "0" ReminderScenario.day ReminderScenario.at_15 "" "" in
  let kept := Client.mkSession "1" "0" "Asha" "2025-03-12" "15:00" "" false JS.Undefined in
  let doc := Session.mk "1" "u1" "0" "Asha" "2025-03-12" "14:00" "" false (Some 500) in
  ReminderScenario.submit (Some ReminderScenario.created) f ReminderScenario.w1
  = (SessionForm.Saved kept (Some "n1"),
     snd (ReminderScenario.submit (Some ReminderScenario.created) f ReminderScenario.w1))
  /\ JS.trim (SessionForm.amount f) = ""
  /\ Mongo.findSession (fst ReminderScenario.w1) "1" Scenario.u1 = Some doc
  /\ exists doc',
       Mongo.findSession
         (fst (snd (ReminderScenario.submit (Some ReminderScenario.created) f
                      ReminderScenario.w1))) "1" Scenario.u1 = Some doc'
       /\ Session.amount doc' = Some 500.
Proof.
  intros f kept doc.
  set (w2 := snd (ReminderScenario.submit (Some ReminderScenario.created) f
                    ReminderScenario.w1)).
  assert (H : SessionForm.handleSubmit ios 0 Scenario.parseFloat Scenario.u1
                Scenario.noon_utc (patients Scenario.st0)
                (Some ReminderScenario.created) f
                (fst ReminderScenario.w1, snd ReminderScenario.w1)
              = (SessionForm.Saved kept (Some "n1"), (fst w2, snd w2)))
    by (vm_compute; reflexivity).
  assert (Hb : JS.trim (SessionForm.amount f) = "") by reflexivity.
  assert (Hf : Mongo.findSession (fst ReminderScenario.w1)
                 (Client.id ReminderScenario.created) Scenario.u1 = Some doc)
    by (vm_compute; reflexivity).
  split; [vm_compute; reflexivity |]. split; [exact Hb |].
  split; [vm_compute; reflexivity |].
  destruct (edit_with_blank_amount_keeps_amount _ _ _ _ _ _ _ _ _ _ _ _ _ _ _ H Hb Hf)
    as (doc' & H1 & H2 & _).
  exists doc'. split; [exact H1 | exact H2].
Defined.
